(** * NVIDIA earnings analyzer: the insight pipeline

    A shallow embedding of the three library classes of the repository,
    [TrendAnalyzer] (src/app/lib/trend-analyzer.ts), [TranscriptCollector]
    (src/app/lib/transcript-collector.ts) and [AnalysisEngine]
    (src/app/lib/analysis-engine.ts), with the properties of the pipeline
    stated over it.

    JavaScript values are modelled as follows.
    - A [number] is an IEEE 754 binary64 value: Rocq's primitive [float],
      with the same arithmetic, comparisons and [Math.abs].
    - A [string] is a [string] of code units below 256.
    - An array is a [list]; an array that the code updates in place is the
      state of a small state-and-exception monad.
    - [undefined]/[null] in a position the code guards with [?.] is [None].
    - An exception is the [Throw] outcome of [res]. *)

From Stdlib Require Import String Ascii List Bool ZArith NArith Lia.
From Stdlib Require Import Floats Permutation Sorted.
Import ListNotations.

Set Warnings "-inexact-float,-register-all".

Local Open Scope string_scope.
Local Open Scope list_scope.

(** ** The JavaScript runtime the code relies on *)

Module JS.

(** Exceptions raised by the modelled code and its builtins. *)
Inductive exn : Type :=
| Error (message : string)      (* [new Error(message)] *)
| SyntaxError                   (* [JSON.parse] on text that is not JSON *)
| TypeError                     (* property access on [null] *)
| TransportFailure.             (* a rejected network or service call *)

(** Outcome of an evaluation: a value, or an exception that is thrown. *)
Inductive res (A : Type) : Type :=
| Ok (a : A)
| Throw (e : exn).
Arguments Ok {A} a.
Arguments Throw {A} e.

Definition bind {A B} (m : res A) (k : A -> res B) : res B :=
  match m with
  | Ok a => k a
  | Throw e => Throw e
  end.

(** [try { body } catch (error) { handler }] *)
Definition try_catch {A} (body : res A) (handler : exn -> res A) : res A :=
  match body with
  | Ok a => Ok a
  | Throw e => handler e
  end.

Definition is_ok {A} (m : res A) : bool :=
  match m with Ok _ => true | Throw _ => false end.

(** Truthiness of a number: [0], [-0] and [NaN] are falsy. *)
Definition truthy_number (x : float) : bool :=
  negb (PrimFloat.is_zero x || PrimFloat.is_nan x).

(** Truthiness of a string: only the empty string is falsy. *)
Definition truthy_string (s : string) : bool :=
  match s with EmptyString => false | String _ _ => true end.

(** [x || d] where [x] is a number or [undefined]. *)
Definition number_or (x : option float) (d : float) : float :=
  match x with
  | Some v => if truthy_number v then v else d
  | None => d
  end.

(** [s || d] where [s] is a string or [undefined]. *)
Definition string_or (s : option string) (d : string) : string :=
  match s with
  | Some v => if truthy_string v then v else d
  | None => d
  end.

(** [Array.prototype.slice(0, end)] for an integer [end]: a negative [end]
    counts from the end of the array. *)
Definition slice0 {A} (l : list A) (e : Z) : list A :=
  let len := Z.of_nat (length l) in
  let final := if (e <? 0)%Z then Z.max (len + e) 0 else Z.min e len in
  firstn (Z.to_nat final) l.

(** A [Set] built from an array keeps the first occurrence of every value,
    in insertion order; it is modelled by the list [[...set]]. *)
Fixpoint Set_add (x : string) (s : list string) : list string :=
  match s with
  | [] => [x]
  | y :: s' => if String.eqb x y then s else y :: Set_add x s'
  end.

Definition Set_of (l : list string) : list string :=
  fold_left (fun s x => Set_add x s) l [].

Definition Set_has (s : list string) (x : string) : bool :=
  existsb (String.eqb x) s.

End JS.

Import JS.

Declare Scope js_scope.
Delimit Scope js_scope with js.
Notation "x <- m ;; k" := (JS.bind m (fun x => k))
  (at level 61, m at next level, right associativity) : js_scope.

(** ** src/app/types/index.ts *)

Record SentimentAnalysis : Type := {
  sentiment : string;
  score : float;
  confidence : float;
  keyPhrases : list string;
  reasoning : string
}.

Record StrategicFocus : Type := {
  theme : string;
  mentions : float;
  importance : float;
  quotes : list string;
  category : string
}.

Record KeyMetrics : Type := {
  revenue : option string;
  guidance : option string;
  marketCap : option string
}.

(** The three members that [TrendAnalyzer] reads through [?.] are optional
    here, as the code treats them. *)
Record QuarterlyInsights : Type := {
  transcriptId : string;
  quarter : string;
  managementSentiment : option SentimentAnalysis;
  qaSentiment : option SentimentAnalysis;
  strategicFocuses : option (list StrategicFocus);
  keyMetrics : KeyMetrics;
  generatedAt : string
}.

Inductive Significance : Type := major | moderate | minor.
Inductive Trend : Type := improving | declining | stable.

Record SentimentPoint : Type := {
  sp_quarter : string;
  sp_score : float;
  sp_sentiment : string
}.

Record SentimentTrend : Type := {
  management : list SentimentPoint;
  qa : list SentimentPoint
}.

Record Change : Type := {
  scoreDelta : float;
  sentimentShift : string;
  significance : Significance
}.

Record QuarterChange : Type := {
  qc_quarter : string;
  managementChange : Change;
  qaChange : Change
}.

Record ThemeEvolution : Type := {
  te_quarter : string;
  emergingThemes : list string;
  decliningThemes : list string;
  consistentThemes : list string
}.

Record TrendSummary : Type := {
  managementTrend : Trend;
  qaTrend : Trend;
  strategicShift : string;
  keyChanges : list string
}.

Record TrendAnalysis : Type := {
  quarters : list string;
  sentimentTrend : SentimentTrend;
  quarterOverQuarterChanges : list QuarterChange;
  strategicEvolution : list ThemeEvolution;
  overallTrendSummary : TrendSummary
}.

(** ** [Array.prototype.sort] with a comparator that can throw

    The language leaves the sorting algorithm to the engine and requires a
    stable result. The model is a stable insertion sort that takes the
    elements from left to right and calls [comparefn(x, y)] with [x] the
    element being placed, as the engine's binary insertion does. Two facts
    about it hold for every engine and are the ones the properties below rest
    on: no comparison is made on an array of fewer than two elements, and on a
    longer array every element takes part in a comparison. *)

Section ArraySort.
Context {A : Type}.
Variable comparefn : A -> A -> res Z.

Fixpoint insert_sorted (x : A) (sorted : list A) : res (list A) :=
  match sorted with
  | [] => Ok [x]
  | y :: sorted' =>
      bind (comparefn x y) (fun order =>
        if (order <? 0)%Z then Ok (x :: y :: sorted')
        else bind (insert_sorted x sorted') (fun r => Ok (y :: r)))
  end.

Fixpoint sort_from (sorted rest : list A) : res (list A) :=
  match rest with
  | [] => Ok sorted
  | x :: rest' => bind (insert_sorted x sorted) (fun s => sort_from s rest')
  end.

Definition Array_sort (l : list A) : res (list A) := sort_from [] l.
End ArraySort.

(** ** src/app/lib/trend-analyzer.ts *)

Module TrendAnalyzer.

Local Open Scope js_scope.

(** *** [parseQuarter]: the regular expression [/Q(\d+)\s+(\d+)/] *)

Definition is_digit (c : ascii) : bool :=
  let n := nat_of_ascii c in ((48 <=? n) && (n <=? 57))%nat.

(** [\s] on code units below 256: tab, line feed, vertical tab, form feed,
    carriage return, space and no-break space. *)
Definition is_space (c : ascii) : bool :=
  let n := nat_of_ascii c in
  (((9 <=? n) && (n <=? 13)) || (n =? 32) || (n =? 160))%nat.

(** The longest prefix of [s] whose characters satisfy [p], and the rest. *)
Fixpoint span (p : ascii -> bool) (s : string) : string * string :=
  match s with
  | String c r =>
      if p c then let (a, b) := span p r in (String c a, b)
      else (EmptyString, s)
  | EmptyString => (EmptyString, EmptyString)
  end.

Definition nonempty (s : string) : bool :=
  match s with EmptyString => false | String _ _ => true end.

(** A match of [Q(\d+)\s+(\d+)] that starts at the first character of [s].
    The three quantifiers are greedy, and each run is followed by a
    character outside its class, so giving back characters never helps:
    the groups are the longest runs. *)
Definition match_at_start (s : string) : option (string * string) :=
  match s with
  | String c r =>
      if Ascii.eqb c "Q"%char then
        let (g1, r1) := span is_digit r in
        let (ws, r2) := span is_space r1 in
        let (g2, _) := span is_digit r2 in
        if nonempty g1 && nonempty ws && nonempty g2 then Some (g1, g2)
        else None
      else None
  | EmptyString => None
  end.

(** [quarter.match(...)]: the leftmost match, [None] for [null]. *)
Fixpoint regex_match (s : string) : option (string * string) :=
  match match_at_start s with
  | Some m => Some m
  | None =>
      match s with
      | String _ r => regex_match r
      | EmptyString => None
      end
  end.

Definition digit_value (c : ascii) : Z := Z.of_nat (nat_of_ascii c) - 48.

Fixpoint parseInt_from (acc : Z) (digits : string) : Z :=
  match digits with
  | String c r => parseInt_from (10 * acc + digit_value c) r
  | EmptyString => acc
  end.

(** [parseInt] of a run of decimal digits. The value is kept exact; a
    [number] holds it exactly up to 2^53. *)
Definition parseInt (digits : string) : Z := parseInt_from 0 digits.

Record Quarter : Type := { q : Z; year : Z }.

Definition parseQuarter (quarter : string) : res Quarter :=
  match regex_match quarter with
  | None => Throw (Error ("Invalid quarter format: " ++ quarter))
  | Some (g1, g2) => Ok {| q := parseInt g1; year := parseInt g2 |}
  end.

(** The comparator of [sortInsightsByQuarter]. *)
Definition compareQuarters (a b : QuarterlyInsights) : res Z :=
  aQuarter <- parseQuarter (quarter a) ;;
  bQuarter <- parseQuarter (quarter b) ;;
  if negb (year aQuarter =? year bQuarter)%Z
  then Ok (year aQuarter - year bQuarter)%Z
  else Ok (q aQuarter - q bQuarter)%Z.

(** *** The array passed to [analyzeQuarterOverQuarter]

    [insights.sort(...)] sorts the caller's array in place and returns that
    same array, so [sortedInsights] and [insights] are one object. The
    contents of that object are the state of the monad [M]. The sort works
    on a copy of the elements and writes them back when it completes, so an
    exception thrown by the comparator leaves the array as it was. *)

Definition M (A : Type) : Type :=
  list QuarterlyInsights -> res A * list QuarterlyInsights.

Definition ret {A} (a : A) : M A := fun h => (Ok a, h).

Definition mbind {A B} (m : M A) (k : A -> M B) : M B :=
  fun h =>
    match m h with
    | (Ok a, h') => k a h'
    | (Throw e, h') => (Throw e, h')
    end.

(** Read the elements of the array. *)
Definition elements : M (list QuarterlyInsights) := fun h => (Ok h, h).

Definition sortInsightsByQuarter : M unit :=
  fun insights =>
    match Array_sort compareQuarters insights with
    | Ok sorted => (Ok tt, sorted)
    | Throw e => (Throw e, insights)
    end.

(** *** Sentiment series *)

Definition scoreOf (s : option SentimentAnalysis) : float :=
  number_or (option_map score s) 0%float.

Definition sentimentOf (s : option SentimentAnalysis) : string :=
  string_or (option_map sentiment s) "neutral".

Definition sentimentPoint (quarter : string) (s : option SentimentAnalysis)
  : SentimentPoint :=
  {| sp_quarter := quarter; sp_score := scoreOf s; sp_sentiment := sentimentOf s |}.

Definition analyzeSentimentTrends (insights : list QuarterlyInsights)
  : SentimentTrend :=
  {| management :=
       map (fun i => sentimentPoint (quarter i) (managementSentiment i)) insights;
     qa :=
       map (fun i => sentimentPoint (quarter i) (qaSentiment i)) insights |}.

(** *** Quarter-over-quarter changes *)

(** [sentimentOrder[label] || 1]: the entry of the table
    [{ negative: 0, neutral: 1, positive: 2 }], or [1] when the label has
    no entry or its entry is falsy. *)
Definition sentimentOrder (label : string) : option float :=
  if String.eqb label "negative" then Some 0%float
  else if String.eqb label "neutral" then Some 1%float
  else if String.eqb label "positive" then Some 2%float
  else None.

Definition orderScore (label : string) : float :=
  number_or (sentimentOrder label) 1%float.

Definition describeSentimentShift (from to : string) : string :=
  if String.eqb from to then "No change"
  else
    let fromScore := orderScore from in
    let toScore := orderScore to in
    if (fromScore <? toScore)%float
    then "Improved from " ++ from ++ " to " ++ to
    else if (toScore <? fromScore)%float
    then "Declined from " ++ from ++ " to " ++ to
    else "No change".

Definition getChangeSignificance (scoreDelta : float) : Significance :=
  let absChange := PrimFloat.abs scoreDelta in
  if (0.5 <=? absChange)%float then major
  else if (0.2 <=? absChange)%float then moderate
  else minor.

Definition change (previous current : option SentimentAnalysis) : Change :=
  let delta := (scoreOf current - scoreOf previous)%float in
  {| scoreDelta := delta;
     sentimentShift :=
       describeSentimentShift (sentimentOf previous) (sentimentOf current);
     significance := getChangeSignificance delta |}.

Definition quarterChange (previous current : QuarterlyInsights) : QuarterChange :=
  {| qc_quarter := quarter current;
     managementChange :=
       change (managementSentiment previous) (managementSentiment current);
     qaChange := change (qaSentiment previous) (qaSentiment current) |}.

(** The loop [for (i = 1; i < insights.length; i++)], with
    [previous = insights[i - 1]] carried along. *)
Fixpoint changes_loop (previous : QuarterlyInsights)
         (rest : list QuarterlyInsights) : list QuarterChange :=
  match rest with
  | [] => []
  | current :: rest' => quarterChange previous current :: changes_loop current rest'
  end.

Definition analyzeQuarterChanges (insights : list QuarterlyInsights)
  : list QuarterChange :=
  match insights with
  | [] => []
  | first :: rest => changes_loop first rest
  end.

(** *** Strategic theme evolution *)

(** [i.strategicFocuses?.map(f => f.theme) || []] *)
Definition themeNames (i : QuarterlyInsights) : list string :=
  match strategicFocuses i with
  | Some focuses => map theme focuses
  | None => []
  end.

(** [previous?.strategicFocuses?.map(f => f.theme) || []] *)
Definition previousThemeNames (previous : option QuarterlyInsights) : list string :=
  match previous with
  | Some p => themeNames p
  | None => []
  end.

Definition themeEvolution (previous : option QuarterlyInsights)
           (current : QuarterlyInsights) : ThemeEvolution :=
  let currentThemes := Set_of (themeNames current) in
  let previousThemes := Set_of (previousThemeNames previous) in
  {| te_quarter := quarter current;
     emergingThemes :=
       filter (fun theme => negb (Set_has previousThemes theme)) currentThemes;
     decliningThemes :=
       match previous with
       | Some _ =>
           filter (fun theme => negb (Set_has currentThemes theme)) previousThemes
       | None => []
       end;
     consistentThemes :=
       filter (fun theme => Set_has previousThemes theme) currentThemes |}.

(** The loop [for (i = 0; i < insights.length; i++)], with
    [previous = i > 0 ? insights[i - 1] : null] carried along. *)
Fixpoint evolution_loop (previous : option QuarterlyInsights)
         (rest : list QuarterlyInsights) : list ThemeEvolution :=
  match rest with
  | [] => []
  | current :: rest' =>
      themeEvolution previous current :: evolution_loop (Some current) rest'
  end.

Definition analyzeStrategicEvolution (insights : list QuarterlyInsights)
  : list ThemeEvolution :=
  evolution_loop None insights.

(** *** Overall summary *)

Definition calculateOverallTrend (sentimentData : list SentimentPoint) : Trend :=
  match sentimentData with
  | first :: _ :: _ =>
      let firstScore := sp_score first in
      let lastScore := sp_score (last sentimentData first) in
      let difference := (lastScore - firstScore)%float in
      if (0.2 <? difference)%float then improving
      else if (difference <? -0.2)%float then declining
      else stable
  | _ => stable
  end.

(** [frequency[theme] = (frequency[theme] || 0) + 1], the object kept as
    its entries in order of creation (theme names are taken not to be
    names of [Object.prototype] members). *)
Fixpoint count_theme (theme : string) (frequency : list (string * nat))
  : list (string * nat) :=
  match frequency with
  | [] => [(theme, 1%nat)]
  | (k, n) :: frequency' =>
      if String.eqb theme k then (k, S n) :: frequency'
      else (k, n) :: count_theme theme frequency'
  end.

(** The first entry after the stable sort by descending count: the first
    entry that no later entry exceeds. *)
Fixpoint most_frequent (best : string * nat) (entries : list (string * nat))
  : string * nat :=
  match entries with
  | [] => best
  | e :: entries' =>
      most_frequent (if (snd best <? snd e)%nat then e else best) entries'
  end.

Fixpoint digits_only (s : string) : bool :=
  match s with
  | String c r => is_digit c && digits_only r
  | EmptyString => true
  end.

(** The index that a property key stands for, if it is an array index:
    the decimal digits, without a leading zero, of an integer from 0 to
    [2^32 - 2]. *)
Definition array_index (key : string) : option Z :=
  match key with
  | EmptyString => None
  | String c r =>
      if digits_only key
         && (negb (Ascii.eqb c "0") || negb (nonempty r))
         && (parseInt key <=? 4294967294)%Z
      then Some (parseInt key)
      else None
  end.

Fixpoint insert_index (i : Z) (e : string * nat)
         (sorted : list (Z * (string * nat))) : list (Z * (string * nat)) :=
  match sorted with
  | [] => [(i, e)]
  | (j, f) :: rest =>
      if (i <? j)%Z then (i, e) :: sorted else (j, f) :: insert_index i e rest
  end.

(** The entries whose keys are array indices, in ascending order of index. *)
Fixpoint index_entries (frequency : list (string * nat))
  : list (Z * (string * nat)) :=
  match frequency with
  | [] => []
  | e :: frequency' =>
      match array_index (fst e) with
      | Some i => insert_index i e (index_entries frequency')
      | None => index_entries frequency'
      end
  end.

Definition named_entries (frequency : list (string * nat)) : list (string * nat) :=
  filter (fun e => match array_index (fst e) with Some _ => false | None => true end)
         frequency.

(** [Object.entries(frequency)]: the keys that are array indices come
    first, in ascending order, then the other keys in order of creation. *)
Definition Object_entries (frequency : list (string * nat)) : list (string * nat) :=
  map snd (index_entries frequency) ++ named_entries frequency.

(** The table is empty only for [themes.length === 0], the early return. *)
Definition getMostCommonTheme (themes : list string) : option string :=
  match Object_entries
          (fold_left (fun frequency theme => count_theme theme frequency) themes [])
  with
  | [] => None
  | e :: entries => Some (fst (most_frequent e entries))
  end.

(** [parts.join(', ')] *)
Fixpoint join (parts : list string) : string :=
  match parts with
  | [] => ""
  | [p] => p
  | p :: parts' => p ++ ", " ++ join parts'
  end.

Definition identifyKeyChanges (sentimentTrend : SentimentTrend)
           (strategicEvolution : list ThemeEvolution) : list string :=
  let mgmtTrend := calculateOverallTrend (management sentimentTrend) in
  let qaTrend := calculateOverallTrend (qa sentimentTrend) in
  let changes1 :=
    match mgmtTrend with
    | improving => ["Management sentiment has improved over time"]
    | declining => ["Management sentiment has declined over time"]
    | stable => []
    end in
  let changes2 :=
    match qaTrend with
    | improving => ["Q&A sentiment has become more positive"]
    | declining => ["Q&A sentiment has become more negative"]
    | stable => []
    end in
  let allEmergingThemes := flat_map emergingThemes strategicEvolution in
  let changes3 :=
    match allEmergingThemes with
    | [] => []
    | _ :: _ =>
        [("New strategic focus areas emerged: "
            ++ join (firstn 2 allEmergingThemes))%string]
    end in
  let changes := (changes1 ++ changes2 ++ changes3)%list in
  match changes with
  | [] => ["No significant changes detected across quarters"]
  | _ :: _ => changes
  end.

Definition generateTrendSummary (sentimentTrend : SentimentTrend)
           (strategicEvolution : list ThemeEvolution) : TrendSummary :=
  let allEmergingThemes := flat_map emergingThemes strategicEvolution in
  {| managementTrend := calculateOverallTrend (management sentimentTrend);
     qaTrend := calculateOverallTrend (qa sentimentTrend);
     strategicShift :=
       match getMostCommonTheme allEmergingThemes with
       | Some theme => if truthy_string theme then theme
                       else "No significant strategic shifts detected"
       | None => "No significant strategic shifts detected"
       end;
     keyChanges := identifyKeyChanges sentimentTrend strategicEvolution |}.

Definition getEmptyTrendAnalysis (insights : list QuarterlyInsights)
  : TrendAnalysis :=
  {| quarters := map quarter insights;
     sentimentTrend :=
       {| management :=
            map (fun i => sentimentPoint (quarter i) (managementSentiment i)) insights;
          qa :=
            map (fun i => sentimentPoint (quarter i) (qaSentiment i)) insights |};
     quarterOverQuarterChanges := [];
     strategicEvolution :=
       map (fun i => {| te_quarter := quarter i;
                        emergingThemes := [];
                        decliningThemes := [];
                        consistentThemes := themeNames i |}) insights;
     overallTrendSummary :=
       {| managementTrend := stable;
          qaTrend := stable;
          strategicShift := "Insufficient data for trend analysis";
          keyChanges := ["Need at least 2 quarters for comparison"] |} |}.

(** *** [analyzeQuarterOverQuarter] *)

Definition analyzeQuarterOverQuarter : M TrendAnalysis :=
  mbind sortInsightsByQuarter (fun _ =>
  mbind elements (fun sortedInsights =>
    if (length sortedInsights <? 2)%nat
    then ret (getEmptyTrendAnalysis sortedInsights)
    else
      let quarters := map quarter sortedInsights in
      let sentimentTrend := analyzeSentimentTrends sortedInsights in
      let quarterOverQuarterChanges := analyzeQuarterChanges sortedInsights in
      let strategicEvolution := analyzeStrategicEvolution sortedInsights in
      let overallTrendSummary :=
        generateTrendSummary sentimentTrend strategicEvolution in
      ret {| quarters := quarters;
             sentimentTrend := sentimentTrend;
             quarterOverQuarterChanges := quarterOverQuarterChanges;
             strategicEvolution := strategicEvolution;
             overallTrendSummary := overallTrendSummary |})).

(** What a call returns or throws, and the caller's array after the call. *)
Definition completion (insights : list QuarterlyInsights) : res TrendAnalysis :=
  fst (analyzeQuarterOverQuarter insights).

Definition array_after (insights : list QuarterlyInsights)
  : list QuarterlyInsights :=
  snd (analyzeQuarterOverQuarter insights).

End TrendAnalyzer.

(** ** src/app/lib/utils.ts and the string builtins it uses *)

Module Utils.

Definition is_upper (c : ascii) : bool :=
  let n := nat_of_ascii c in ((65 <=? n) && (n <=? 90))%nat.

Definition is_lower (c : ascii) : bool :=
  let n := nat_of_ascii c in ((97 <=? n) && (n <=? 122))%nat.

Definition is_digit (c : ascii) : bool :=
  let n := nat_of_ascii c in ((48 <=? n) && (n <=? 57))%nat.

Definition lower_char (c : ascii) : ascii :=
  if is_upper c then ascii_of_nat (nat_of_ascii c + 32) else c.

(** [s.toLowerCase()] on the letters A to Z. *)
Fixpoint toLowerCase (s : string) : string :=
  match s with
  | String c r => String (lower_char c) (toLowerCase r)
  | EmptyString => EmptyString
  end.

(** [s.replace(/[^a-z0-9]/gi, '_')] *)
Fixpoint replace_non_alnum (s : string) : string :=
  match s with
  | String c r =>
      String (if is_upper c || is_lower c || is_digit c then c else "_"%char)
             (replace_non_alnum r)
  | EmptyString => EmptyString
  end.

Definition sanitizeFileName (fileName : string) : string :=
  toLowerCase (replace_non_alnum fileName).

(** [s.replace(' ', '-')]: the first space only. *)
Fixpoint replace_first_space (s : string) : string :=
  match s with
  | String c r =>
      if Ascii.eqb c " "%char then String "-"%char r
      else String c (replace_first_space r)
  | EmptyString => EmptyString
  end.

(** [s.split('T')[0]] *)
Fixpoint before_T (s : string) : string :=
  match s with
  | String c r => if Ascii.eqb c "T"%char then EmptyString else String c (before_T r)
  | EmptyString => EmptyString
  end.

(** [array.map((x, index) => f(x, index))] *)
Fixpoint map_index {A B} (f : A -> Z -> B) (index : Z) (l : list A) : list B :=
  match l with
  | [] => []
  | x :: l' => f x index :: map_index f (index + 1)%Z l'
  end.

Definition nl : string := String (ascii_of_nat 10) EmptyString.

End Utils.

(** ** src/app/lib/transcript-collector.ts *)

Module Transcript.
Record EarningsTranscript : Type := {
  id : string;
  quarter : string;
  fiscalYear : Z;
  date : string;
  url : string;
  company : string;
  managementRemarks : string;
  qaSection : string;
  fullTranscript : string;
  participants : list string;
  createdAt : string;
  updatedAt : string
}.
End Transcript.

Module Candidate.
(** A transcript link found by a source: the element type of the arrays
    that the search functions return. *)
Record UrlInfo : Type := {
  url : string;
  title : string;
  quarter : string;
  date : string;
  source : string
}.
End Candidate.

Module TranscriptCollector.
Import Utils.
Import Transcript.

Record Scenario : Type := {
  s_quarter : string;
  s_sentiment : string;
  s_themes : list string;
  s_revenue : string
}.

Definition scenarios : list Scenario :=
  [ {| s_quarter := "Q4 2024"; s_sentiment := "very positive";
       s_themes := ["AI Revolution"; "Data Center Growth"; "Gaming Strength"];
       s_revenue := "$60.9B" |};
    {| s_quarter := "Q3 2024"; s_sentiment := "positive";
       s_themes := ["AI Demand"; "Cloud Computing"; "Automotive AI"];
       s_revenue := "$35.1B" |};
    {| s_quarter := "Q2 2024"; s_sentiment := "mixed positive";
       s_themes := ["Generative AI"; "Enterprise Adoption"; "Supply Chain"];
       s_revenue := "$30.0B" |};
    {| s_quarter := "Q1 2024"; s_sentiment := "cautiously optimistic";
       s_themes := ["AI Infrastructure"; "Gaming Recovery"; "Professional Visualization"];
       s_revenue := "$26.0B" |} ].

Record Mood : Type := { tone : string; descriptor : string; outlook : string }.

Definition sentimentMap (sentiment : string) : option Mood :=
  if String.eqb sentiment "very positive" then
    Some {| tone := "exceptional"; descriptor := "record-breaking";
            outlook := "unprecedented opportunities ahead" |}
  else if String.eqb sentiment "positive" then
    Some {| tone := "strong"; descriptor := "solid";
            outlook := "optimistic about future growth" |}
  else if String.eqb sentiment "mixed positive" then
    Some {| tone := "encouraging"; descriptor := "steady";
            outlook := "cautiously optimistic" |}
  else if String.eqb sentiment "cautiously optimistic" then
    Some {| tone := "measured"; descriptor := "gradual";
            outlook := "carefully monitoring market conditions" |}
  else None.

(** [scenario.themes[k]] inside a template literal. *)
Definition themeAt (scenario : Scenario) (k : nat) : string :=
  nth k (s_themes scenario) "undefined".

Definition generateEnhancedManagementRemarks (scenario : Scenario) : string :=
  let mood :=
    match sentimentMap (s_sentiment scenario) with
    | Some m => m
    | None => {| tone := "strong"; descriptor := "solid";
                 outlook := "optimistic about future growth" |}
    end in
  "Thank you for joining us today. I'm pleased to report " ++ tone mood
    ++ " results for " ++ s_quarter scenario ++ "." ++ nl ++ nl
  ++ "This quarter was marked by " ++ descriptor mood
    ++ " performance across our key business segments. Revenue reached "
    ++ s_revenue scenario
    ++ ", reflecting the accelerating adoption of AI computing across industries."
    ++ nl ++ nl
  ++ themeAt scenario 0
    ++ " continues to be a major growth driver, with unprecedented demand from enterprises and cloud service providers. Our "
    ++ themeAt scenario 1 ++ " segment showed remarkable strength, while "
    ++ themeAt scenario 2 ++ " delivered solid results." ++ nl ++ nl
  ++ "We're seeing broad-based adoption of our platforms across multiple verticals. The fundamental shift toward accelerated computing is creating massive opportunities in generative AI, large language models, and intelligent systems."
    ++ nl ++ nl
  ++ "Looking ahead, we remain " ++ outlook mood
    ++ ". Our technology leadership position and comprehensive ecosystem continue to drive customer adoption and market expansion."
    ++ nl ++ nl
  ++ "With that, I'll turn it over to Colette for the financial details.".

Definition analystQuestions : list string :=
  [ "Can you provide more color on AI demand trends?";
    "How do you see competition evolving in the data center space?";
    "What's your outlook for gaming and consumer markets?";
    "How are you managing supply chain in this environment?" ].

Definition questionAt (k : nat) : string := nth k analystQuestions "undefined".

Definition generateEnhancedQASection (scenario : Scenario) : string :=
  "Question-and-Answer Session" ++ nl ++ nl
  ++ "Operator: Thank you. We will now begin the question-and-answer session."
    ++ nl ++ nl
  ++ "John Morgan - JPMorgan: " ++ questionAt 0 ++ nl ++ nl
  ++ "Jensen Huang: Thanks John. " ++ themeAt scenario 0
    ++ " demand continues to exceed our expectations. We're seeing adoption across cloud hyperscalers, enterprises, and sovereign AI initiatives globally."
    ++ nl ++ nl
  ++ "Colette Kress: I'd add that our data center business has shown remarkable consistency. Customer pipeline remains robust across all segments."
    ++ nl ++ nl
  ++ "Stacy Rasgon - Bernstein Research: " ++ questionAt 1 ++ nl ++ nl
  ++ "Jensen Huang: The competitive landscape is dynamic, but our full-stack approach - from silicon to software - creates significant customer value. Our CUDA ecosystem advantage continues to expand."
    ++ nl ++ nl
  ++ "Timothy Arcuri - UBS: " ++ questionAt 2 ++ nl ++ nl
  ++ "Jensen Huang: Gaming fundamentals remain solid. We're seeing strong demand for RTX platforms and continued enthusiasm for ray tracing and DLSS technologies."
    ++ nl ++ nl
  ++ "Harsh Kumar - Piper Sandler: " ++ questionAt 3 ++ nl ++ nl
  ++ "Colette Kress: Supply chain execution has been strong. We continue to work closely with our partners to meet customer demand while managing lead times effectively."
    ++ nl ++ nl
  ++ "Operator: This concludes our question-and-answer session.".

Section Collector.

(** The world outside the collector. [now] is [new Date().toISOString()];
    [localDate y m d] is [new Date(y, m, d).toISOString()], which depends
    on the time zone of the host. The two search functions that parse a
    result page return the candidates they found, and an empty array when
    the request or the parsing fails (each catches its own errors).
    [scrapeTranscript] returns the transcript, or [None] for the [null]
    it returns once its retries are used up. *)
Variable now : string.
Variable localDate : Z -> Z -> Z -> string.
Variable searchSeekingAlpha : Z -> list Candidate.UrlInfo.
Variable searchYahooFinance : Z -> list Candidate.UrlInfo.
Variable scrapeTranscript : Candidate.UrlInfo -> option EarningsTranscript.

(** The function returns an empty array after its request, and an empty
    array when the request fails. *)
Definition searchMotleyFool (quarters : Z) : list Candidate.UrlInfo := [].

Definition generateTranscriptId (quarter date : string) : string :=
  "nvda_" ++ sanitizeFileName quarter ++ "_" ++ before_T date.

(** The loop over the sources: it stops at the first source after which
    [results.length >= quarters]. *)
Fixpoint search_loop (quarters : Z) (results : list Candidate.UrlInfo)
         (sources : list (Z -> list Candidate.UrlInfo))
  : list Candidate.UrlInfo :=
  match sources with
  | [] => results
  | searchFunction :: sources' =>
      let results' := (results ++ searchFunction quarters)%list in
      if (quarters <=? Z.of_nat (length results'))%Z then results'
      else search_loop quarters results' sources'
  end.

Definition findNvidiaTranscriptUrls (quarters : Z) : list Candidate.UrlInfo :=
  slice0
    (search_loop quarters []
       [searchSeekingAlpha; searchYahooFinance; searchMotleyFool])
    quarters.

Definition generateRealisticSampleData (count : Z) : list EarningsTranscript :=
  map (fun transcript =>
         {| id := id transcript;
            quarter := quarter transcript;
            fiscalYear := fiscalYear transcript;
            date := date transcript;
            url := url transcript;
            company := company transcript;
            managementRemarks := managementRemarks transcript;
            qaSection := qaSection transcript;
            fullTranscript :=
              managementRemarks transcript ++ nl ++ nl ++ qaSection transcript;
            participants := participants transcript;
            createdAt := createdAt transcript;
            updatedAt := updatedAt transcript |})
    (map_index
       (fun scenario index =>
          {| id := generateTranscriptId (s_quarter scenario) now;
             quarter := s_quarter scenario;
             fiscalYear := 2024;
             date := localDate 2024 (11 - index * 3) 15;
             url := "https://investor.nvidia.com/financial-info/earnings-call-transcripts/"
                    ++ replace_first_space (toLowerCase (s_quarter scenario));
             company := "NVIDIA";
             managementRemarks := generateEnhancedManagementRemarks scenario;
             qaSection := generateEnhancedQASection scenario;
             fullTranscript := "";
             participants :=
               [ "Jensen Huang - CEO"; "Colette Kress - CFO";
                 "Simona Jankowski - Investor Relations";
                 "Various Wall Street Analysts" ];
             createdAt := now;
             updatedAt := now |})
       0%Z (slice0 scenarios count)).

Definition tryAlternativeSources (quarters : Z) : list EarningsTranscript :=
  generateRealisticSampleData quarters.

(** The loop over the candidates keeps the transcripts that were scraped. *)
Definition scrapeAll (transcriptUrls : list Candidate.UrlInfo)
  : list EarningsTranscript :=
  flat_map (fun urlInfo =>
              match scrapeTranscript urlInfo with
              | Some transcript => [transcript]
              | None => []
              end) transcriptUrls.

(** [collectNvidiaTranscripts(quarters)]; a caller that passes no
    argument gets [quarters = 4]. *)
Definition collectNvidiaTranscripts (quarters : Z) : list EarningsTranscript :=
  let transcriptUrls := findNvidiaTranscriptUrls quarters in
  if (length transcriptUrls =? 0)%nat then tryAlternativeSources quarters
  else
    let transcripts := scrapeAll transcriptUrls in
    if (length transcripts =? 0)%nat then generateRealisticSampleData quarters
    else transcripts.

End Collector.

End TranscriptCollector.

(** ** src/app/lib/analysis-engine.ts *)

Module AnalysisEngine.
Import Utils.

Local Open Scope js_scope.

(** A value that [JSON.parse] returns. The type annotations of the source
    are erased when it runs, so what a sub-call returns is such a value,
    whatever its shape. *)
Inductive Json : Type :=
| JNull
| JBool (b : bool)
| JNumber (x : float)
| JString (s : string)
| JArray (items : list Json)
| JObject (members : list (string * Json)).

Definition truthy (v : Json) : bool :=
  match v with
  | JNull => false
  | JBool b => b
  | JNumber x => truthy_number x
  | JString s => truthy_string s
  | JArray _ | JObject _ => true
  end.

Fixpoint lookup (key : string) (members : list (string * Json)) : option Json :=
  match members with
  | [] => None
  | (k, v) :: members' => if String.eqb key k then Some v else lookup key members'
  end.

(** [value.key]: a [TypeError] on [null], [undefined] ([None]) when the
    value has no such member. *)
Definition get_member (value : Json) (key : string) : res (option Json) :=
  match value with
  | JNull => Throw TypeError
  | JObject members => Ok (lookup key members)
  | _ => Ok None
  end.

(** The three requests sent to the analysis service. Each prompt is a fixed
    text around an excerpt of the transcript, so a request is given by its
    kind and its excerpt. *)
Inductive RequestKind : Type :=
| ManagementSentimentPrompt
| QASentimentPrompt
| StrategicFocusPrompt.

Record Request : Type := {
  kind : RequestKind;
  excerpt : string;
  max_tokens : Z;
  temperature : float
}.

(** What comes back for a request, as far as the code can tell:
    - [Rejected]: [chat.completions.create] rejects (network error,
      timeout, error status), or the response has no [choices] array;
    - [Unparseable]: the message content is missing, empty or not JSON
      text, so [JSON.parse] throws;
    - [Parsed v]: the content is JSON text and [JSON.parse] returns [v]. *)
Inductive Completion : Type :=
| Rejected
| Unparseable
| Parsed (value : Json).

(** [JSON.parse(response.choices[0]?.message?.content || '')] after
    [await create(...)]. *)
Definition parsed_content (c : Completion) : res Json :=
  match c with
  | Rejected => Throw TransportFailure
  | Unparseable => Throw SyntaxError
  | Parsed v => Ok v
  end.

Definition getDefaultSentiment : Json :=
  JObject [ ("sentiment", JString "neutral");
            ("score", JNumber 0);
            ("confidence", JNumber 0.5);
            ("keyPhrases", JArray [JString "analysis unavailable"]);
            ("reasoning", JString "Unable to analyze sentiment due to API error") ].

Definition getDefaultStrategicFocus : Json :=
  JArray [ JObject [ ("theme", JString "General Business Operations");
                     ("mentions", JNumber 1);
                     ("importance", JNumber 0.5);
                     ("quotes", JArray [JString "Analysis unavailable"]);
                     ("category", JString "strategic") ] ].

(** *** [extractKeyMetrics]: [/KEYWORD.*?(\$[\d.]+ billion)/i] *)

(** [s] starts with [word], letters compared without case; the part of [s]
    that was matched and the rest. *)
Fixpoint starts_with_ci (word s : string) : option (string * string) :=
  match word, s with
  | EmptyString, _ => Some (EmptyString, s)
  | String w word', String c r =>
      if Ascii.eqb (lower_char w) (lower_char c) then
        match starts_with_ci word' r with
        | Some (m, rest) => Some (String c m, rest)
        | None => None
        end
      else None
  | String _ _, EmptyString => None
  end.

Fixpoint amount_run (s : string) : string * string :=
  match s with
  | String c r =>
      if is_digit c || Ascii.eqb c "."%char
      then let (a, b) := amount_run r in (String c a, b)
      else (EmptyString, s)
  | EmptyString => (EmptyString, EmptyString)
  end.

(** [\$[\d.]+ billion] at the start of [s]: the text of the group. *)
Definition amount_at_start (s : string) : option string :=
  match s with
  | String c r =>
      if Ascii.eqb c "$"%char then
        let (digits, rest) := amount_run r in
        match digits with
        | EmptyString => None
        | String _ _ =>
            match starts_with_ci " billion" rest with
            | Some (unit_text, _) => Some (String c (digits ++ unit_text))
            | None => None
            end
        end
      else None
  | EmptyString => None
  end.

Definition is_line_terminator (c : ascii) : bool :=
  let n := nat_of_ascii c in ((n =? 10) || (n =? 13))%nat.

(** [.*?] followed by the group: the first amount on the rest of the line. *)
Fixpoint first_amount_on_line (s : string) : option string :=
  match amount_at_start s with
  | Some g => Some g
  | None =>
      match s with
      | String c r => if is_line_terminator c then None else first_amount_on_line r
      | EmptyString => None
      end
  end.

(** [transcript.match(...)]: the leftmost occurrence of the keyword that
    an amount follows on the same line; [None] for [null], else group 1. *)
Fixpoint match_metric (keyword s : string) : option string :=
  let here :=
    match starts_with_ci keyword s with
    | Some (_, rest) => first_amount_on_line rest
    | None => None
    end in
  match here with
  | Some g => Some g
  | None =>
      match s with
      | String _ r => match_metric keyword r
      | EmptyString => None
      end
  end.

Definition extractKeyMetrics (transcript : string) : KeyMetrics :=
  {| revenue := match_metric "revenue" transcript;
     guidance := match_metric "guidance" transcript;
     marketCap := None |}.

(** The record that [analyzeTranscript] builds. *)
Record QuarterlyInsights : Type := {
  transcriptId : string;
  quarter : string;
  managementSentiment : Json;
  qaSentiment : Json;
  strategicFocuses : Json;
  keyMetrics : KeyMetrics;
  generatedAt : string
}.

Section Engine.

(** The analysis service, and the clock. *)
Variable create : Request -> Completion.
Variable now : string.

Definition analyzeMgmtSentiment (managementRemarks : string) : res Json :=
  try_catch
    (parsed_content
       (create {| kind := ManagementSentimentPrompt;
                  excerpt := substring 0 2000 managementRemarks;
                  max_tokens := 300;
                  temperature := 0.1 |}))
    (fun _ => Ok getDefaultSentiment).

Definition analyzeQASentiment (qaSection : string) : res Json :=
  try_catch
    (parsed_content
       (create {| kind := QASentimentPrompt;
                  excerpt := substring 0 2000 qaSection;
                  max_tokens := 300;
                  temperature := 0.1 |}))
    (fun _ => Ok getDefaultSentiment).

Definition extractStrategicFocus (fullTranscript : string) : res Json :=
  try_catch
    (parsed <- parsed_content
                 (create {| kind := StrategicFocusPrompt;
                            excerpt := substring 0 3000 fullTranscript;
                            max_tokens := 500;
                            temperature := 0.2 |}) ;;
     themes <- get_member parsed "themes" ;;
     match themes with
     | Some v => if truthy v then Ok v else Ok (JArray [])
     | None => Ok (JArray [])
     end)
    (fun _ => Ok getDefaultStrategicFocus).

(** [Promise.all] of the three sub-calls fulfils when all three do, and
    rejects when one of them rejects. *)
Definition analyzeTranscript (transcript : Transcript.EarningsTranscript)
  : res QuarterlyInsights :=
  try_catch
    (managementSentiment <-
       analyzeMgmtSentiment (Transcript.managementRemarks transcript) ;;
     qaSentiment <- analyzeQASentiment (Transcript.qaSection transcript) ;;
     strategicFocuses <-
       extractStrategicFocus (Transcript.fullTranscript transcript) ;;
     let keyMetrics := extractKeyMetrics (Transcript.fullTranscript transcript) in
     Ok {| transcriptId := Transcript.id transcript;
           quarter := Transcript.quarter transcript;
           managementSentiment := managementSentiment;
           qaSentiment := qaSentiment;
           strategicFocuses := strategicFocuses;
           keyMetrics := keyMetrics;
           generatedAt := now |})
    (fun error => Throw error).

End Engine.

(** *** The response shapes the prompts ask for *)

Definition is_string (v : Json) : bool :=
  match v with JString _ => true | _ => false end.

Definition is_number (v : Json) : bool :=
  match v with JNumber _ => true | _ => false end.

Definition is_string_array (v : Json) : bool :=
  match v with JArray items => forallb is_string items | _ => false end.

Definition member_is (p : Json -> bool) (key : string)
           (members : list (string * Json)) : bool :=
  match lookup key members with Some v => p v | None => false end.

Definition is_sentiment_label (v : Json) : bool :=
  match v with
  | JString s =>
      String.eqb s "positive" || String.eqb s "neutral" || String.eqb s "negative"
  | _ => false
  end.

(** The [SentimentAnalysis] interface of src/app/types/index.ts. *)
Definition is_SentimentAnalysis (v : Json) : bool :=
  match v with
  | JObject members =>
      member_is is_sentiment_label "sentiment" members
      && member_is is_number "score" members
      && member_is is_number "confidence" members
      && member_is is_string_array "keyPhrases" members
      && member_is is_string "reasoning" members
  | _ => false
  end.

Definition is_category (v : Json) : bool :=
  match v with
  | JString s =>
      String.eqb s "product" || String.eqb s "market" || String.eqb s "technology"
      || String.eqb s "financial" || String.eqb s "strategic"
  | _ => false
  end.

(** The [StrategicFocus] interface. *)
Definition is_StrategicFocus (v : Json) : bool :=
  match v with
  | JObject members =>
      member_is is_string "theme" members
      && member_is is_number "mentions" members
      && member_is is_number "importance" members
      && member_is is_string_array "quotes" members
      && member_is is_category "category" members
  | _ => false
  end.

(** The response shape of the theme request: [{ themes: StrategicFocus[] }]. *)
Definition is_ThemesResponse (v : Json) : bool :=
  match v with
  | JObject members =>
      member_is (fun t => match t with
                          | JArray items => forallb is_StrategicFocus items
                          | _ => false
                          end) "themes" members
  | _ => false
  end.

End AnalysisEngine.

(** ** Vocabulary of the properties *)

Module TrendSpec.
Import TrendAnalyzer.

(** The label matches [Q{n} {year}]: [parseQuarter] does not throw on it. *)
Definition well_formed (label : string) : bool :=
  match regex_match label with Some _ => true | None => false end.

Definition labelled (r : QuarterlyInsights) : Prop :=
  well_formed (quarter r) = true.

Definition malformed (r : QuarterlyInsights) : Prop :=
  well_formed (quarter r) = false.

(** The error that [parseQuarter] throws on the label of [r]. *)
Definition invalid_quarter_format (r : QuarterlyInsights) : exn :=
  Error ("Invalid quarter format: " ++ quarter r).

(** [a] is not later than [b] in [(year, q)] order. *)
Definition in_order (a b : QuarterlyInsights) : Prop :=
  match parseQuarter (quarter a), parseQuarter (quarter b) with
  | Ok ka, Ok kb =>
      (year ka < year kb \/ (year ka = year kb /\ q ka <= q kb))%Z
  | _, _ => False
  end.

(** A list of records with well-formed labels in chronological order. *)
Definition chronological (l : list QuarterlyInsights) : Prop :=
  Forall labelled l /\ StronglySorted in_order l.

(** Equality of two lists of theme names as sets. *)
Definition same_set (a b : list string) : Prop :=
  forall t, In t a <-> In t b.

(** A number that is not NaN. *)
Definition is_number (x : float) : Prop := PrimFloat.is_nan x = false.

(** The tier [s] is the one that the thresholds 0.5 and 0.2 give to the
    magnitude of [delta], each tier closed at its lower bound. *)
Definition tiered (delta : float) (s : Significance) : Prop :=
  (s = major <-> (0.5 <=? PrimFloat.abs delta)%float = true)
  /\ (s = moderate <->
      ((0.2 <=? PrimFloat.abs delta)%float = true
       /\ (PrimFloat.abs delta <? 0.5)%float = true))
  /\ (s = minor <-> (PrimFloat.abs delta <? 0.2)%float = true).

(** Records for examples. *)
Definition sentimentOf (label : string) (value : float) : option SentimentAnalysis :=
  Some {| sentiment := label; score := value; confidence := 0.9;
          keyPhrases := []; reasoning := "" |}.

Definition focus (name : string) : StrategicFocus :=
  {| theme := name; mentions := 1; importance := 0.5; quotes := [];
     category := "strategic" |}.

Definition record (label : string) (mgmt qa : option SentimentAnalysis)
           (themes : list string) : QuarterlyInsights :=
  {| transcriptId := "nvda_" ++ label;
     quarter := label;
     managementSentiment := mgmt;
     qaSentiment := qa;
     strategicFocuses := Some (map focus themes);
     keyMetrics := {| revenue := None; guidance := None; marketCap := None |};
     generatedAt := "2024-12-15T00:00:00.000Z" |}.

Definition q1_2024 : QuarterlyInsights :=
  record "Q1 2024" (TrendSpec.sentimentOf "negative" (-0.4))
         (TrendSpec.sentimentOf "neutral" 0) ["AI"; "Gaming"].

Definition q2_2024 : QuarterlyInsights :=
  record "Q2 2024" (TrendSpec.sentimentOf "neutral" 0.1)
         (TrendSpec.sentimentOf "neutral" 0) ["AI"; "Data Center"].

Definition quarter_one : QuarterlyInsights :=
  record "Quarter One 2024" (TrendSpec.sentimentOf "positive" 0.6)
         (TrendSpec.sentimentOf "neutral" 0) ["AI"].

End TrendSpec.

Module EngineSpec.
Import AnalysisEngine.

(** The three requests that [analyzeTranscript] sends for a transcript. *)
Definition managementRequest (t : Transcript.EarningsTranscript) : Request :=
  {| kind := ManagementSentimentPrompt;
     excerpt := substring 0 2000 (Transcript.managementRemarks t);
     max_tokens := 300;
     temperature := 0.1 |}.

Definition qaRequest (t : Transcript.EarningsTranscript) : Request :=
  {| kind := QASentimentPrompt;
     excerpt := substring 0 2000 (Transcript.qaSection t);
     max_tokens := 300;
     temperature := 0.1 |}.

Definition focusRequest (t : Transcript.EarningsTranscript) : Request :=
  {| kind := StrategicFocusPrompt;
     excerpt := substring 0 3000 (Transcript.fullTranscript t);
     max_tokens := 500;
     temperature := 0.2 |}.

(** The request got no JSON value: the call failed or its text did not
    parse. *)
Definition no_value (c : Completion) : Prop := c = Rejected \/ c = Unparseable.

(** [parsed.themes || []] for a parsed value other than [null]. *)
Definition themes_or_empty (parsed : Json) : Json :=
  match parsed with
  | JObject members =>
      match lookup "themes" members with
      | Some v => if truthy v then v else JArray []
      | None => JArray []
      end
  | _ => JArray []
  end.

(** A transcript for examples. *)
Definition sample_transcript : Transcript.EarningsTranscript :=
  {| Transcript.id := "nvda_q4_2024_2024-12-15";
     Transcript.quarter := "Q4 2024";
     Transcript.fiscalYear := 2024;
     Transcript.date := "2024-12-15T00:00:00.000Z";
     Transcript.url := "https://investor.nvidia.com/financial-info/earnings-call-transcripts/q4-2024";
     Transcript.company := "NVIDIA";
     Transcript.managementRemarks := "Revenue reached $60.9 billion this quarter.";
     Transcript.qaSection := "Operator: our guidance is $65.0 billion.";
     Transcript.fullTranscript :=
       "Revenue reached $60.9 billion this quarter." ++ Utils.nl ++ Utils.nl
       ++ "Operator: our guidance is $65.0 billion.";
     Transcript.participants := ["Jensen Huang - CEO"];
     Transcript.createdAt := "2024-12-15T00:00:00.000Z";
     Transcript.updatedAt := "2024-12-15T00:00:00.000Z" |}.

(** A service whose every reply is the JSON text of an empty object. *)
Definition replies_empty_object (_ : Request) : Completion := Parsed (JObject []).

(** A service that is down. *)
Definition service_down (_ : Request) : Completion := Rejected.

End EngineSpec.

Module CollectorSpec.

(** The quarters of the scenario table, in table order. *)
Definition scenario_quarters : list string :=
  ["Q4 2024"; "Q3 2024"; "Q2 2024"; "Q1 2024"].

(** A world for examples: a fixed clock, no candidate from any source, no
    transcript from any candidate. *)
Definition clock : string := "2024-12-15T09:30:00.000Z".
Definition digits2 (n : Z) : string :=
  let k := Z.to_nat n in
  String (ascii_of_nat (48 + k / 10)) (String (ascii_of_nat (48 + k mod 10)) "").

(** [new Date(y, m, d).toISOString()] on a host whose time zone is UTC,
    for a month index from 0 to 11 and a year of four digits. *)
Definition utc (y m d : Z) : string :=
  digits2 (y / 100) ++ digits2 (y mod 100) ++ "-" ++ digits2 (m + 1) ++ "-"
  ++ digits2 d ++ "T00:00:00.000Z".
Definition no_candidates (_ : Z) : list Candidate.UrlInfo := [].
Definition scrape_fails (_ : Candidate.UrlInfo)
  : option Transcript.EarningsTranscript := None.

End CollectorSpec.

Module TrendVocabulary.
Import TrendAnalyzer.

(** The record has a well-formed label with this year and quarter number. *)
Definition has_key (y n : Z) (r : QuarterlyInsights) : bool :=
  match parseQuarter (quarter r) with
  | Ok k => ((year k =? y) && (q k =? n))%Z
  | Throw _ => false
  end.

(** The count that a frequency table holds for a theme, 0 without entry. *)
Fixpoint count_in (theme : string) (frequency : list (string * nat)) : nat :=
  match frequency with
  | [] => 0
  | (k, n) :: frequency' =>
      if String.eqb theme k then n else count_in theme frequency'
  end.

(** How often a theme occurs in a list of themes. *)
Definition occurrences (themes : list string) (theme : string) : nat :=
  count_occ string_dec themes theme.

Definition no_shift : string := "No significant strategic shifts detected".

(** The point [p] reports the sentiment [s] of a record labelled [label]:
    it carries the label; its score is the score of [s] when there is one
    that is neither zero nor NaN, and 0 otherwise; its sentiment is the
    sentiment of [s] when there is one that is not the empty string, and
    neutral otherwise. *)
Definition reports (label : string) (s : option SentimentAnalysis)
           (p : SentimentPoint) : Prop :=
  sp_quarter p = label
  /\ match s with
     | Some a =>
         (if PrimFloat.is_zero (score a) || PrimFloat.is_nan (score a)
          then sp_score p = 0%float else sp_score p = score a)
         /\ (if String.eqb (sentiment a) "" then sp_sentiment p = "neutral"%string
             else sp_sentiment p = sentiment a)
     | None => sp_score p = 0%float /\ sp_sentiment p = "neutral"%string
     end.

(** A record whose management sentiment has an empty label and NaN as
    score, and whose other members are missing. *)
Definition q3_2024_broken : QuarterlyInsights :=
  {| transcriptId := "nvda_q3_2024_2024-12-15";
     quarter := "Q3 2024";
     managementSentiment :=
       Some {| sentiment := ""; score := PrimFloat.nan; confidence := 0.5;
               keyPhrases := []; reasoning := "" |};
     qaSentiment := None;
     strategicFocuses := None;
     keyMetrics := {| revenue := None; guidance := None; marketCap := None |};
     generatedAt := "2024-12-15T00:00:00.000Z" |}.

(** A second record for Q2 2024, as a re-analysis on a later day leaves one. *)
Definition q2_2024_again : QuarterlyInsights :=
  {| transcriptId := "nvda_q2_2024_2024-12-16";
     quarter := "Q2 2024";
     managementSentiment := TrendSpec.sentimentOf "positive" 0.7;
     qaSentiment := TrendSpec.sentimentOf "neutral" 0;
     strategicFocuses := Some (map TrendSpec.focus ["AI"; "Automotive"]);
     keyMetrics := {| revenue := None; guidance := None; marketCap := None |};
     generatedAt := "2024-12-16T00:00:00.000Z" |}.

End TrendVocabulary.

Module CollectorVocabulary.

(** The address under which every synthetic document is filed. *)
Definition synthetic_url_prefix : string :=
  "https://investor.nvidia.com/financial-info/earnings-call-transcripts/".

(** Candidates for examples. *)
Definition candidate (source title label : string) : Candidate.UrlInfo :=
  {| Candidate.url := "https://example.com/" ++ title;
     Candidate.title := title;
     Candidate.quarter := label;
     Candidate.date := "2024-12-15T09:30:00.000Z";
     Candidate.source := source |}.

Definition seeking_alpha_finds (quarters : Z) : list Candidate.UrlInfo :=
  JS.slice0 [ candidate "Seeking Alpha" "a" "Q4 2024";
              candidate "Seeking Alpha" "b" "Q3 2024" ] (Z.max quarters 0).

Definition yahoo_finds (quarters : Z) : list Candidate.UrlInfo :=
  JS.slice0 [ candidate "Yahoo Finance" "c" "Q4 2024";
              candidate "Yahoo Finance" "d" "Q2 2024" ] (Z.max quarters 0).

(** A scraper that gets a transcript from Yahoo Finance pages only. *)
Definition scrapes_yahoo (u : Candidate.UrlInfo)
  : option Transcript.EarningsTranscript :=
  if String.eqb (Candidate.source u) "Yahoo Finance" then
    Some {| Transcript.id := "nvda_" ++ Utils.sanitizeFileName (Candidate.quarter u)
                             ++ "_2024-12-15";
            Transcript.quarter := Candidate.quarter u;
            Transcript.fiscalYear := 2024;
            Transcript.date := Candidate.date u;
            Transcript.url := Candidate.url u;
            Transcript.company := "NVIDIA";
            Transcript.managementRemarks := "Prepared remarks.";
            Transcript.qaSection := "Operator: questions.";
            Transcript.fullTranscript := "Prepared remarks. Operator: questions.";
            Transcript.participants := [];
            Transcript.createdAt := "2024-12-15T09:30:00.000Z";
            Transcript.updatedAt := "2024-12-15T09:30:00.000Z" |}
  else None.

End CollectorVocabulary.

(** ** src/app/lib/analysis-engine.ts: [analyzeMultipleTranscripts] *)

Module AnalysisBatch.
Import AnalysisEngine.

(** The transcripts are analyzed one after the other; [clock k] is the time
    at which the analysis number [k] builds its record. A transcript whose
    analysis throws is left out and the loop goes on. The pauses between
    two analyses only take time and are not modelled. *)
Fixpoint analyze_from (create : Request -> Completion) (clock : nat -> string)
         (k : nat) (transcripts : list Transcript.EarningsTranscript)
  : list QuarterlyInsights :=
  match transcripts with
  | [] => []
  | transcript :: rest =>
      match analyzeTranscript create (clock k) transcript with
      | Ok insights => insights :: analyze_from create clock (S k) rest
      | Throw _ => analyze_from create clock (S k) rest
      end
  end.

Definition analyzeMultipleTranscripts (create : Request -> Completion)
           (clock : nat -> string)
           (transcripts : list Transcript.EarningsTranscript)
  : list QuarterlyInsights :=
  analyze_from create clock 0 transcripts.

End AnalysisBatch.

Module EngineVocabulary.
Import AnalysisEngine.

(** Every character of the string satisfies [p]. *)
Fixpoint all_chars (p : ascii -> bool) (s : string) : bool :=
  match s with
  | String c r => p c && all_chars p r
  | EmptyString => true
  end.

(** A list of [StrategicFocus] objects. *)
Definition is_StrategicFocusList (v : Json) : bool :=
  match v with
  | JArray items => forallb is_StrategicFocus items
  | _ => false
  end.

(** The reply to a sentiment request is unusable or has the asked shape. *)
Definition sentiment_reply_in_shape (c : Completion) : Prop :=
  match c with
  | Parsed v => is_SentimentAnalysis v = true
  | _ => True
  end.

(** The reply to the theme request is unusable, [null] or has the asked
    shape. *)
Definition themes_reply_in_shape (c : Completion) : Prop :=
  match c with
  | Parsed JNull => True
  | Parsed v => is_ThemesResponse v = true
  | _ => True
  end.

(** An amount as [extractKeyMetrics] reports it: a dollar sign, a run of
    digits and dots, and the word billion in any case after a space. *)
Definition is_amount (g : string) : Prop :=
  exists digits unit_text,
    g = ("$" ++ digits ++ unit_text)%string
    /\ digits <> ""%string
    /\ all_chars (fun c => Utils.is_digit c || Ascii.eqb c "."%char) digits = true
    /\ Utils.toLowerCase unit_text = " billion"%string.

(** A lower-case letter, a digit or an underscore. *)
Definition is_file_char (c : ascii) : bool :=
  Utils.is_lower c || Utils.is_digit c || Ascii.eqb c "_"%char.

(** [g] occurs in [s]. *)
Definition occurs_in (g s : string) : Prop :=
  exists before after, s = (before ++ g ++ after)%string.

(** A service that answers the sentiment requests in shape and the theme
    request with text that is not JSON. *)
Definition answers_sentiment_only (r : Request) : Completion :=
  match kind r with
  | StrategicFocusPrompt => Unparseable
  | _ =>
      Parsed (JObject [ ("sentiment", JString "positive");
                        ("score", JNumber 0.8);
                        ("confidence", JNumber 0.9);
                        ("keyPhrases", JArray [JString "record revenue"]);
                        ("reasoning", JString "strong results") ])
  end.

End EngineVocabulary.

(** ** src/app/lib/database.ts *)

Module Database.

(** A [Map] with string keys: its entries in insertion order, one for each
    key. [set] on a key that is present replaces the value where it stands;
    on a new key it adds an entry at the end. *)
Section MapModel.
Context {V : Type}.

Fixpoint Map_set (key : string) (value : V) (m : list (string * V))
  : list (string * V) :=
  match m with
  | [] => [(key, value)]
  | (k, v) :: m' =>
      if String.eqb key k then (k, value) :: m'
      else (k, v) :: Map_set key value m'
  end.

Fixpoint Map_get (key : string) (m : list (string * V)) : option V :=
  match m with
  | [] => None
  | (k, v) :: m' => if String.eqb key k then Some v else Map_get key m'
  end.

Definition Map_values (m : list (string * V)) : list V := map snd m.

End MapModel.

Record InMemoryDatabase : Type := {
  transcripts : list (string * Transcript.EarningsTranscript);
  insights : list (string * AnalysisEngine.QuarterlyInsights)
}.

(** [new InMemoryDatabase()] *)
Definition db : InMemoryDatabase := {| transcripts := []; insights := [] |}.

Definition saveTranscript (transcript : Transcript.EarningsTranscript)
           (d : InMemoryDatabase) : InMemoryDatabase :=
  {| transcripts := Map_set (Transcript.id transcript) transcript (transcripts d);
     insights := insights d |}.

(** [this.transcripts.get(id) || null]; a stored record is an object, so
    it is truthy. *)
Definition getTranscript (id : string) (d : InMemoryDatabase)
  : option Transcript.EarningsTranscript :=
  Map_get id (transcripts d).

Definition getAllTranscripts (d : InMemoryDatabase)
  : list Transcript.EarningsTranscript :=
  Map_values (transcripts d).

Definition getTranscriptsByQuarters (quarters : list string) (d : InMemoryDatabase)
  : list Transcript.EarningsTranscript :=
  filter (fun t => existsb (String.eqb (Transcript.quarter t)) quarters)
         (Map_values (transcripts d)).

Definition saveInsights (i : AnalysisEngine.QuarterlyInsights)
           (d : InMemoryDatabase) : InMemoryDatabase :=
  {| transcripts := transcripts d;
     insights := Map_set (AnalysisEngine.transcriptId i) i (insights d) |}.

Definition getInsights (transcriptId : string) (d : InMemoryDatabase)
  : option AnalysisEngine.QuarterlyInsights :=
  Map_get transcriptId (insights d).

Definition getAllInsights (d : InMemoryDatabase)
  : list AnalysisEngine.QuarterlyInsights :=
  Map_values (insights d).

Definition clear (d : InMemoryDatabase) : InMemoryDatabase :=
  {| transcripts := []; insights := [] |}.

Record Stats : Type := { stat_transcripts : nat; stat_insights : nat }.

Definition getStats (d : InMemoryDatabase) : Stats :=
  {| stat_transcripts := length (transcripts d);
     stat_insights := length (insights d) |}.

(** The database after the records of a list were saved one after the
    other, as the pipeline does. *)
Definition saveAllInsights (records : list AnalysisEngine.QuarterlyInsights)
           (d : InMemoryDatabase) : InMemoryDatabase :=
  fold_left (fun d i => saveInsights i d) records d.

(** The last record of a list that has the given identifier. *)
Definition last_saved (transcriptId : string)
           (records : list AnalysisEngine.QuarterlyInsights)
  : option AnalysisEngine.QuarterlyInsights :=
  find (fun i => String.eqb transcriptId (AnalysisEngine.transcriptId i))
       (rev records).

(** Records for examples. *)
Definition insights_of (id label : string) (mgmt : AnalysisEngine.Json)
  : AnalysisEngine.QuarterlyInsights :=
  {| AnalysisEngine.transcriptId := id;
     AnalysisEngine.quarter := label;
     AnalysisEngine.managementSentiment := mgmt;
     AnalysisEngine.qaSentiment := AnalysisEngine.getDefaultSentiment;
     AnalysisEngine.strategicFocuses := AnalysisEngine.getDefaultStrategicFocus;
     AnalysisEngine.keyMetrics :=
       {| revenue := None; guidance := None; marketCap := None |};
     AnalysisEngine.generatedAt := "2024-12-15T09:30:00.000Z" |}.

End Database.

(** ** src/app/lib/utils.ts: quarter labels *)

Module UtilsQuarters.
Import TrendAnalyzer.

Definition digit_char (d : Z) : ascii := ascii_of_nat (48 + Z.to_nat d).

(** The decimal digits of [n >= 0] put before [acc], the last digit first
    computed; [fuel] bounds the number of digits. *)
Fixpoint digits_from (fuel : nat) (n : Z) (acc : string) : string :=
  match fuel with
  | O => acc
  | S fuel' =>
      let acc' := String (digit_char (n mod 10)) acc in
      if (n / 10 =? 0)%Z then acc' else digits_from fuel' (n / 10) acc'
  end.

(** An integer inside a template literal: its decimal digits, after a minus
    sign if it is negative (integers of magnitude below 10^21). *)
Definition Number_toString (n : Z) : string :=
  if (n <? 0)%Z
  then String "-"%char (digits_from (S (Z.to_nat (- n))) (- n) "")
  else digits_from (S (Z.to_nat n)) n "".

(** [parseQuarter] of utils.ts: the same pattern and error as the method of
    the trend analyzer. *)
Definition parseQuarter (quarter : string) : res Quarter :=
  match regex_match quarter with
  | None => Throw (Error ("Invalid quarter format: " ++ quarter))
  | Some (g1, g2) => Ok {| q := parseInt g1; year := parseInt g2 |}
  end.

(** The label [`Q${currentQ} ${currentYear}`]. *)
Definition label_of (currentQ currentYear : Z) : string :=
  "Q" ++ Number_toString currentQ ++ " " ++ Number_toString currentYear.

(** The loop of [getQuartersBefore], [count] iterations to go. *)
Fixpoint quarters_loop (count : nat) (currentQ currentYear : Z) : list string :=
  match count with
  | O => []
  | S count' =>
      let currentQ' := (currentQ - 1)%Z in
      label_of currentQ currentYear
      :: (if (currentQ' =? 0)%Z
          then quarters_loop count' 4 (currentYear - 1)
          else quarters_loop count' currentQ' currentYear)
  end.

(** [getQuartersBefore(currentQuarter, count)] for an integer [count]; a
    caller that passes no count gets [count = 4]. *)
Definition getQuartersBefore (currentQuarter : string) (count : Z)
  : res (list string) :=
  bind (parseQuarter currentQuarter)
       (fun k => Ok (quarters_loop (Z.to_nat count) (q k) (year k))).

(** The quarter before a quarter, as the loop steps. *)
Definition quarter_before (k : Quarter) : Quarter :=
  if (q k - 1 =? 0)%Z then {| q := 4; year := year k - 1 |}
  else {| q := q k - 1; year := year k |}.

(** The labels parse, the first to [k] and each next one to the quarter
    before. *)
Fixpoint walks_back (labels : list string) (k : Quarter) : Prop :=
  match labels with
  | [] => True
  | label :: rest =>
      parseQuarter label = Ok k /\ walks_back rest (quarter_before k)
  end.

End UtilsQuarters.

(** ** src/app/lib/transcript-collector.ts: [splitTranscript] *)

Module TranscriptSplit.

(** [s.toLowerCase()] on code units below 256: the letters A to Z and the
    accented capitals from 192 to 222, the multiplication sign apart. The
    result has the length of [s]. *)
Definition lower_latin1 (c : ascii) : ascii :=
  let n := nat_of_ascii c in
  if (((65 <=? n) && (n <=? 90))
      || ((192 <=? n) && (n <=? 222) && negb (n =? 215)))%nat
  then ascii_of_nat (n + 32) else c.

Fixpoint toLowerCase (s : string) : string :=
  match s with
  | String c r => String (lower_latin1 c) (toLowerCase r)
  | EmptyString => EmptyString
  end.

(** White space and line terminators below 256, as [trim] removes them. *)
Definition is_white (c : ascii) : bool := TrendAnalyzer.is_space c.

Fixpoint trimStart (s : string) : string :=
  match s with
  | String c r => if is_white c then trimStart r else s
  | EmptyString => EmptyString
  end.

Fixpoint trimEnd (s : string) : string :=
  match s with
  | String c r =>
      match trimEnd r with
      | EmptyString => if is_white c then EmptyString else String c EmptyString
      | String c' r' => String c (String c' r')
      end
  | EmptyString => EmptyString
  end.

Definition trim (s : string) : string := trimEnd (trimStart s).

(** [s.substring(0, index)] and [s.substring(index)]. *)
Definition substring_to (index : nat) (s : string) : string :=
  substring 0 index s.

Definition substring_from (index : nat) (s : string) : string :=
  substring index (String.length s - index) s.

(** [Math.floor(x)] for a finite [x >= 0]. *)
Definition floor (x : float) : Z :=
  match Prim2SF x with
  | S754_finite false m e => Z.shiftl (Z.pos m) e
  | _ => 0%Z
  end.

(** [Math.floor(transcript.length * 0.6)] *)
Definition splitPoint_of (length : nat) : nat :=
  Z.to_nat (floor (PrimFloat.of_uint63 (Uint63.of_Z (Z.of_nat length)) * 0.6)%float).

Definition qaMarkers : list string :=
  [ "Question-and-Answer Session";
    "Questions and Answers";
    "Q&A Session";
    "Operator:";
    "Questions & Answers" ].

Record Sections : Type := { managementRemarks : string; qaSection : string }.

Definition split_at (index : nat) (transcript : string) : Sections :=
  {| managementRemarks := trim (substring_to index transcript);
     qaSection := trim (substring_from index transcript) |}.

(** The loop over the markers: the first marker of the list that occurs in
    the transcript, letters compared without case, at its first place. *)
Fixpoint first_marker (markers : list string) (transcript : string)
  : option (string * nat) :=
  match markers with
  | [] => None
  | marker :: markers' =>
      match index 0 (toLowerCase marker) (toLowerCase transcript) with
      | Some i => Some (marker, i)
      | None => first_marker markers' transcript
      end
  end.

Definition splitTranscript (transcript : string) : Sections :=
  match first_marker qaMarkers transcript with
  | Some (_, i) => split_at i transcript
  | None => split_at (splitPoint_of (String.length transcript)) transcript
  end.

(** A string of white space only. *)
Fixpoint all_white (s : string) : bool :=
  match s with
  | String c r => is_white c && all_white r
  | EmptyString => true
  end.

(** The string neither starts nor ends with white space. *)
Definition trimmed (s : string) : Prop := trim s = s.

End TranscriptSplit.

(** ** src/app/lib/transcript-collector.ts: [scrapeTranscript] *)

Module TranscriptScraper.
Import Utils.

(** What the three extractors return on a page that was fetched and loaded:
    [extractSeekingAlphaContent($)], [extractYahooFinanceContent($)] and
    [extractParticipants($)]. *)
Record Page : Type := {
  seekingAlphaContent : string;
  yahooFinanceContent : string;
  participantNames : list string
}.

Definition four_digits_at_start (s : string) : bool :=
  match s with
  | String a (String b (String c (String d _))) =>
      is_digit a && is_digit b && is_digit c && is_digit d
  | _ => false
  end.

(** [quarter.match(/\d{4}/)]: the first four digits in a row. *)
Fixpoint match_four_digits (s : string) : option string :=
  match s with
  | EmptyString => None
  | String _ r =>
      if four_digits_at_start s then Some (substring 0 4 s)
      else match_four_digits r
  end.

Definition maxRetries : nat := 3.

Section Scraper.

(** [page urlInfo k] is what the request number [k] (from 0) for the page of
    [urlInfo] gives: the page, or the error that [axios.get] throws.
    [toISOString date] is [new Date(date).toISOString()]: the time stamp, or
    the error thrown for a date that is not valid.  [now] is the clock and
    [currentYear] is [new Date().getFullYear()]. *)
Variable page : Candidate.UrlInfo -> nat -> res Page.
Variable toISOString : string -> res string.
Variable now : string.
Variable currentYear : Z.

Definition extractFiscalYear (quarter : string) : Z :=
  match match_four_digits quarter with
  | Some digits => TrendAnalyzer.parseInt digits
  | None => currentYear
  end.

Definition generateTranscriptId (quarter date : string) : res string :=
  bind (toISOString date) (fun stamp =>
    Ok ("nvda_" ++ sanitizeFileName quarter ++ "_" ++ before_T stamp)%string).

(** The body of the [try] block of one attempt. *)
Definition attempt (urlInfo : Candidate.UrlInfo) (retries : nat)
  : res Transcript.EarningsTranscript :=
  bind (page urlInfo retries) (fun loaded =>
    let fullTranscript :=
      if String.eqb (Candidate.source urlInfo) "Seeking Alpha"
      then seekingAlphaContent loaded
      else if String.eqb (Candidate.source urlInfo) "Yahoo Finance"
      then yahooFinanceContent loaded
      else "" in
    if (String.length fullTranscript <? 500)%nat
    then Throw (Error "Transcript content too short - may not have scraped correctly")
    else
      let sections := TranscriptSplit.splitTranscript fullTranscript in
      bind (generateTranscriptId (Candidate.quarter urlInfo) (Candidate.date urlInfo))
           (fun id =>
      Ok {| Transcript.id := id;
            Transcript.quarter := Candidate.quarter urlInfo;
            Transcript.fiscalYear := extractFiscalYear (Candidate.quarter urlInfo);
            Transcript.date := Candidate.date urlInfo;
            Transcript.url := Candidate.url urlInfo;
            Transcript.company := "NVIDIA";
            Transcript.managementRemarks := TranscriptSplit.managementRemarks sections;
            Transcript.qaSection := TranscriptSplit.qaSection sections;
            Transcript.fullTranscript := fullTranscript;
            Transcript.participants := participantNames loaded;
            Transcript.createdAt := now;
            Transcript.updatedAt := now |})).

(** The loop [while (retries < this.maxRetries)], with [left] attempts to
    go; the pauses between attempts only take time. *)
Fixpoint scrape_loop (left retries : nat) (urlInfo : Candidate.UrlInfo)
  : option Transcript.EarningsTranscript :=
  match left with
  | O => None
  | S left' =>
      match attempt urlInfo retries with
      | Ok transcript => Some transcript
      | Throw _ => scrape_loop left' (S retries) urlInfo
      end
  end.

Definition scrapeTranscript (urlInfo : Candidate.UrlInfo)
  : option Transcript.EarningsTranscript :=
  scrape_loop maxRetries 0 urlInfo.

End Scraper.

(** Pages for examples: a Yahoo Finance page with a transcript that is
    served at the third request only. *)
Definition long_text : string :=
  TranscriptCollector.generateEnhancedManagementRemarks
    (nth 0 TranscriptCollector.scenarios
         {| TranscriptCollector.s_quarter := "";
            TranscriptCollector.s_sentiment := "";
            TranscriptCollector.s_themes := [];
            TranscriptCollector.s_revenue := "" |})
  ++ nl ++ "Operator: first question.".

Definition third_time_lucky (u : Candidate.UrlInfo) (k : nat) : res Page :=
  if (k <? 2)%nat then Throw TransportFailure
  else Ok {| seekingAlphaContent := "";
             yahooFinanceContent := long_text;
             participantNames := ["Jensen Huang"] |}.

(** [toISOString] on dates that are time stamps already. *)
Definition stamp (date : string) : res string := Ok date.

End TranscriptScraper.

(** ** The pattern of quarter labels, said without the matcher *)

Module QuarterFormat.
Import TrendAnalyzer EngineVocabulary.

(** A run of one or more characters of a class. *)
Definition run (p : ascii -> bool) (s : string) : Prop :=
  s <> ""%string /\ all_chars p s = true.

(** The label holds a match of [/Q(\d+)\s+(\d+)/]: somewhere in it, the
    letter Q, one or more digits, one or more white-space characters and
    one or more digits.  The pattern has no anchors, so anything may come
    before and after, and the numbers are not checked against a range. *)
Definition contains_quarter (label : string) : Prop :=
  exists before n gap y after,
    label = (before ++ "Q" ++ n ++ gap ++ y ++ after)%string
    /\ run is_digit n /\ run is_space gap /\ run is_digit y.

(** A record whose label holds a quarter inside other text. *)
Definition fy_q2_2024 : QuarterlyInsights :=
  TrendSpec.record "FY Q2 2024 results" (TrendSpec.sentimentOf "neutral" 0.1)
                   (TrendSpec.sentimentOf "neutral" 0) ["AI"; "Data Center"].

End QuarterFormat.

(** ** Inputs on which the definitions follow the code to the letter *)

Module Domain.
Import TrendAnalyzer.

(** The names of the members that an object literal inherits from
    [Object.prototype].  For such a name, [sentimentOrder[label]] and
    [frequency[theme]] find the inherited member where the definitions
    above find nothing. *)
Definition inherited_names : list string :=
  ["constructor"; "hasOwnProperty"; "isPrototypeOf"; "propertyIsEnumerable";
   "toLocaleString"; "toString"; "valueOf"; "__proto__";
   "__defineGetter__"; "__defineSetter__"; "__lookupGetter__";
   "__lookupSetter__"].

Definition own_key (name : string) : bool :=
  negb (existsb (String.eqb name) inherited_names).

(** [Number.MAX_SAFE_INTEGER]: up to it [parseInt], the arithmetic on
    quarter numbers and years, and the digits of a number in a template
    literal are exact. *)
Definition MAX_SAFE_INTEGER : Z := 2 ^ 53 - 1.

Definition safe_quarter (k : Quarter) : bool :=
  ((q k <=? MAX_SAFE_INTEGER) && (year k <=? MAX_SAFE_INTEGER))%Z.

(** A label whose numbers, if it has any, are safe integers. *)
Definition safe_label (label : string) : bool :=
  match parseQuarter label with
  | Ok k => safe_quarter k
  | Throw _ => true
  end.

End Domain.

(** ** [formatQuarter] of utils.ts *)

Module UtilsFormat.
Import TrendAnalyzer.

(** A match of [Q(\d+)\s+(\d+)] at the first character of [s]: the two
    groups and what follows the match. *)
Definition match_with_rest (s : string) : option (string * string * string) :=
  match s with
  | String c r =>
      if Ascii.eqb c "Q"%char then
        let (g1, r1) := span is_digit r in
        let (ws, r2) := span is_space r1 in
        let (g2, r3) := span is_digit r2 in
        if nonempty g1 && nonempty ws && nonempty g2 then Some (g1, g2, r3)
        else None
      else None
  | EmptyString => None
  end.

(** [quarter.replace(/Q(\d+)\s+(\d+)/, 'Q$1 $2')]: the leftmost match is
    replaced, the text around it is kept. *)
Fixpoint formatQuarter (quarter : string) : string :=
  match match_with_rest quarter with
  | Some (g1, g2, rest) => "Q" ++ g1 ++ " " ++ g2 ++ rest
  | None =>
      match quarter with
      | String c r => String c (formatQuarter r)
      | EmptyString => EmptyString
      end
  end.

End UtilsFormat.

(** ** Properties of the sort *)

Section ArraySortFacts.
Context {A : Type}.
Variable comparefn : A -> A -> res Z.

Lemma Array_sort_nil : Array_sort comparefn [] = Ok [].
Proof. reflexivity. Qed.

Lemma Array_sort_singleton (x : A) : Array_sort comparefn [x] = Ok [x].
Proof. reflexivity. Qed.

Lemma insert_sorted_Permutation (x : A) (sorted s : list A) :
  insert_sorted comparefn x sorted = Ok s -> Permutation (x :: sorted) s.
Proof.
  revert s; induction sorted as [|y sorted IH]; intros s H; simpl in H.
  - injection H as <-. apply Permutation_refl.
  - destruct (comparefn x y) as [order|e]; simpl in H; [|discriminate].
    destruct (order <? 0)%Z.
    + injection H as <-. apply Permutation_refl.
    + destruct (insert_sorted comparefn x sorted) as [r|e] eqn:E;
        simpl in H; [|discriminate].
      injection H as <-.
      eapply Permutation_trans; [apply perm_swap|].
      apply perm_skip, IH. reflexivity.
Qed.

Lemma sort_from_Permutation (rest sorted s : list A) :
  sort_from comparefn sorted rest = Ok s -> Permutation (sorted ++ rest) s.
Proof.
  revert sorted s; induction rest as [|x rest IH]; intros sorted s H; simpl in H.
  - injection H as <-. rewrite app_nil_r. apply Permutation_refl.
  - destruct (insert_sorted comparefn x sorted) as [s'|e] eqn:E;
      simpl in H; [|discriminate].
    apply IH in H. apply insert_sorted_Permutation in E.
    eapply Permutation_trans; [|exact H].
    eapply Permutation_trans; [apply Permutation_sym, Permutation_middle|].
    exact (Permutation_app_tail rest E).
Qed.

Lemma Array_sort_Permutation (l s : list A) :
  Array_sort comparefn l = Ok s -> Permutation l s.
Proof. apply (sort_from_Permutation l []). Qed.

Lemma Array_sort_length (l s : list A) :
  Array_sort comparefn l = Ok s -> length s = length l.
Proof.
  intros H. symmetry. apply Permutation_length, Array_sort_Permutation, H.
Qed.

(** An element that is not before any element already placed goes last. *)
Lemma insert_sorted_last (x : A) (sorted : list A) :
  Forall (fun y => exists order, comparefn x y = Ok order /\ (0 <= order)%Z) sorted ->
  insert_sorted comparefn x sorted = Ok (sorted ++ [x]).
Proof.
  induction 1 as [|y sorted (order & Hc & Hge) _ IH]; simpl; [reflexivity|].
  rewrite Hc; simpl.
  destruct (Z.ltb_spec order 0); [lia|].
  rewrite IH. reflexivity.
Qed.

(** The sort leaves an array alone in which no element is before an
    earlier one. *)
Lemma sort_from_sorted (rest sorted : list A) :
  StronglySorted
    (fun y x => exists order, comparefn x y = Ok order /\ (0 <= order)%Z)
    (sorted ++ rest) ->
  sort_from comparefn sorted rest = Ok (sorted ++ rest).
Proof.
  revert sorted; induction rest as [|x rest IH]; intros sorted H; simpl.
  - rewrite app_nil_r. reflexivity.
  - rewrite insert_sorted_last.
    + simpl. rewrite IH; rewrite <- app_assoc; [reflexivity|exact H].
    + clear IH. induction sorted as [|y sorted IHs]; [constructor|].
      simpl in H. apply StronglySorted_inv in H as [Hs Hall].
      constructor; [|apply IHs, Hs].
      rewrite Forall_forall in Hall. apply Hall.
      apply in_or_app. right. left. reflexivity.
Qed.

End ArraySortFacts.

(** ** Comparisons of numbers *)

Module FloatFacts.
Local Open Scope float_scope.

Lemma half_spec : Prim2SF 0.5 = S754_finite false 4503599627370496 (-53).
Proof. reflexivity. Qed.

Lemma fifth_spec : Prim2SF 0.2 = S754_finite false 7205759403792794 (-55).
Proof. reflexivity. Qed.

Lemma not_nan_spec (x : float) :
  PrimFloat.is_nan x = false -> Prim2SF x <> S754_nan.
Proof.
  unfold PrimFloat.is_nan. rewrite FloatAxioms.eqb_spec. intros H E.
  rewrite E in H. discriminate.
Qed.

Lemma abs_not_nan (x : float) :
  PrimFloat.is_nan x = false -> Prim2SF (abs x) <> S754_nan.
Proof.
  intros H. apply not_nan_spec in H. rewrite abs_spec.
  destruct (Prim2SF x); try discriminate. contradiction.
Qed.

Lemma SFcompare_antisym (x y : spec_float) :
  SFcompare y x = option_map CompOpp (SFcompare x y).
Proof.
  destruct x as [[]|[]| |[] m1 e1], y as [[]|[]| |[] m2 e2]; try reflexivity;
    cbn [SFcompare option_map]; rewrite (Z.compare_antisym e1 e2);
    destruct (e1 ?= e2)%Z; cbn [CompOpp]; try reflexivity;
    change (Pos.compare_cont Eq m2 m1) with (m2 ?= m1)%positive;
    change (Pos.compare_cont Eq m1 m2) with (m1 ?= m2)%positive;
    rewrite (Pos.compare_antisym m1 m2); destruct (m1 ?= m2)%positive;
    reflexivity.
Qed.

(** On numbers, [x >= y] fails exactly when [x < y] holds. *)
Lemma SFleb_false_ltb (x y : spec_float) :
  x <> S754_nan -> y <> S754_nan -> (SFleb x y = false <-> SFltb y x = true).
Proof.
  intros Hx Hy. unfold SFleb, SFltb. rewrite (SFcompare_antisym x y).
  destruct (SFcompare x y) as [[]|] eqn:E; cbn; try (split; congruence).
  destruct x, y; cbn in E; congruence.
Qed.

Lemma leb_false_ltb (x y : float) :
  PrimFloat.is_nan x = false -> PrimFloat.is_nan y = false ->
  ((x <=? y) = false <-> (y <? x) = true).
Proof.
  intros Hx Hy. rewrite leb_spec, ltb_spec.
  apply SFleb_false_ltb; apply not_nan_spec; assumption.
Qed.

Lemma below_fifth_below_half (x : spec_float) :
  SFltb x (S754_finite false 7205759403792794 (-55)) = true ->
  SFltb x (S754_finite false 4503599627370496 (-53)) = true.
Proof.
  destruct x as [s|[]| |[] m e]; try (intros; reflexivity); try discriminate.
  unfold SFltb, SFcompare.
  destruct (Z.compare_spec e (-55)) as [E| |]; try discriminate;
    intros _; destruct (Z.compare_spec e (-53)); try lia; reflexivity.
Qed.

End FloatFacts.

(** ** Properties of the trend analyzer *)

Module TrendFacts.
Import TrendAnalyzer TrendSpec.

(** *** Parsing and comparing *)

Lemma parseQuarter_well_formed (label : string) :
  well_formed label = true -> exists k, parseQuarter label = Ok k.
Proof.
  unfold well_formed, parseQuarter.
  destruct (regex_match label) as [[g1 g2]|]; [eauto|discriminate].
Qed.

Lemma parseQuarter_malformed (label : string) :
  well_formed label = false ->
  parseQuarter label = Throw (Error ("Invalid quarter format: " ++ label)).
Proof.
  unfold well_formed, parseQuarter.
  destruct (regex_match label) as [[g1 g2]|]; [discriminate|reflexivity].
Qed.

Lemma compareQuarters_ok (a b : QuarterlyInsights) :
  labelled a -> labelled b -> exists order, compareQuarters a b = Ok order.
Proof.
  intros Ha Hb. unfold compareQuarters.
  destruct (parseQuarter_well_formed _ Ha) as [ka ->].
  destruct (parseQuarter_well_formed _ Hb) as [kb ->]. simpl.
  destruct (negb (year ka =? year kb)%Z); eauto.
Qed.

Lemma compareQuarters_throw_left (a b : QuarterlyInsights) :
  malformed a -> compareQuarters a b = Throw (invalid_quarter_format a).
Proof.
  intros Ha. unfold compareQuarters.
  rewrite (parseQuarter_malformed _ Ha). reflexivity.
Qed.

Lemma compareQuarters_throw_right (a b : QuarterlyInsights) :
  labelled a -> malformed b -> compareQuarters a b = Throw (invalid_quarter_format b).
Proof.
  intros Ha Hb. unfold compareQuarters.
  destruct (parseQuarter_well_formed _ Ha) as [ka ->].
  rewrite (parseQuarter_malformed _ Hb). reflexivity.
Qed.

Lemma well_formed_or_malformed (r : QuarterlyInsights) : labelled r \/ malformed r.
Proof. unfold labelled, malformed. destruct (well_formed (quarter r)); auto. Qed.

(** A record that is in order after another is not sorted before it. *)
Lemma in_order_compare (y x : QuarterlyInsights) :
  in_order y x -> exists order, compareQuarters x y = Ok order /\ (0 <= order)%Z.
Proof.
  unfold in_order, compareQuarters.
  destruct (parseQuarter (quarter y)) as [ky|]; [|contradiction].
  destruct (parseQuarter (quarter x)) as [kx|]; [|contradiction].
  simpl. intros H.
  destruct (Z.eqb_spec (year kx) (year ky)) as [E|E]; simpl;
    eexists; (split; [reflexivity|lia]).
Qed.

(** *** The sort of [sortInsightsByQuarter] *)

Lemma insert_sorted_well_formed (x : QuarterlyInsights) (sorted : list QuarterlyInsights) :
  labelled x -> Forall labelled sorted ->
  exists s, insert_sorted compareQuarters x sorted = Ok s
            /\ Forall labelled s /\ s <> [].
Proof.
  intros Hx. induction 1 as [|y sorted Hy Hs IH]; simpl.
  - eexists; repeat split; [constructor; auto|discriminate].
  - destruct (compareQuarters_ok x y Hx Hy) as [order ->]; simpl.
    destruct (order <? 0)%Z.
    + eexists; repeat split; [repeat constructor; auto|discriminate].
    + destruct IH as (s & -> & Hall & _); simpl.
      eexists; repeat split; [constructor; auto|discriminate].
Qed.

Lemma insert_sorted_malformed (x y : QuarterlyInsights) (sorted : list QuarterlyInsights) :
  malformed x ->
  insert_sorted compareQuarters x (y :: sorted) = Throw (invalid_quarter_format x).
Proof.
  intros Hx. simpl. rewrite (compareQuarters_throw_left x y Hx). reflexivity.
Qed.

Lemma sort_from_throws (rest sorted : list QuarterlyInsights) :
  sorted <> [] -> Forall labelled sorted -> Exists malformed rest ->
  exists r, In r rest /\ malformed r
            /\ sort_from compareQuarters sorted rest = Throw (invalid_quarter_format r).
Proof.
  revert sorted; induction rest as [|x rest IH]; intros sorted Hne Hall Hex.
  - inversion Hex.
  - destruct (well_formed_or_malformed x) as [Hx|Hx].
    + destruct (insert_sorted_well_formed x sorted Hx Hall) as (s & Hs & Hall' & Hne').
      assert (Hrest : Exists malformed rest).
      { inversion Hex as [? ? Hm|]; subst; [|assumption].
        unfold malformed in Hm. congruence. }
      destruct (IH s Hne' Hall' Hrest) as (r & Hin & Hm & Hthrow).
      exists r. repeat split; [right; exact Hin|exact Hm|].
      simpl. rewrite Hs. simpl. exact Hthrow.
    + exists x. repeat split; [left; reflexivity|exact Hx|].
      destruct sorted as [|y sorted]; [contradiction|].
      simpl. rewrite (compareQuarters_throw_left x y Hx). reflexivity.
Qed.

Lemma Array_sort_throws (l : list QuarterlyInsights) :
  (2 <= length l)%nat -> Exists malformed l ->
  exists r, In r l /\ malformed r
            /\ Array_sort compareQuarters l = Throw (invalid_quarter_format r).
Proof.
  destruct l as [|x [|y rest]]; simpl; try lia. intros _ Hex.
  destruct (well_formed_or_malformed x) as [Hx|Hx].
  - assert (Hrest : Exists malformed (y :: rest)).
    { inversion Hex as [? ? Hm|]; subst; [|assumption].
      unfold malformed in Hm. congruence. }
    destruct (sort_from_throws (y :: rest) [x]) as (r & Hin & Hm & Hthrow);
      [discriminate|repeat constructor; exact Hx|exact Hrest|].
    exists r. repeat split; [right; exact Hin|exact Hm|exact Hthrow].
  - destruct (well_formed_or_malformed y) as [Hy|Hy].
    + exists x. repeat split; [left; reflexivity|exact Hx|].
      unfold Array_sort. simpl.
      rewrite (compareQuarters_throw_right y x Hy Hx). reflexivity.
    + exists y. repeat split; [right; left; reflexivity|exact Hy|].
      unfold Array_sort. simpl.
      rewrite (compareQuarters_throw_left y x Hy). reflexivity.
Qed.

Lemma sort_from_returns (rest sorted : list QuarterlyInsights) :
  Forall labelled sorted -> Forall labelled rest ->
  exists s, sort_from compareQuarters sorted rest = Ok s.
Proof.
  revert sorted; induction rest as [|x rest IH]; intros sorted Hs Hr; simpl.
  - eauto.
  - inversion Hr as [|? ? Hx Hr']; subst.
    destruct (insert_sorted_well_formed x sorted Hx Hs) as (s & -> & Hall & _).
    simpl. apply IH; assumption.
Qed.

Lemma Array_sort_returns (l : list QuarterlyInsights) :
  Forall labelled l -> exists s, Array_sort compareQuarters l = Ok s.
Proof. intros H. apply sort_from_returns; [constructor|exact H]. Qed.

Lemma Array_sort_chronological (l : list QuarterlyInsights) :
  chronological l -> Array_sort compareQuarters l = Ok l.
Proof.
  intros [_ Hs]. apply (sort_from_sorted compareQuarters l []). simpl.
  induction Hs as [|x l Hs IH Hall]; constructor; [exact IH|].
  rewrite Forall_forall in *. intros y Hy. apply in_order_compare, Hall, Hy.
Qed.

(** *** What a call does, by the outcome of the sort *)

Lemma call_when_sort_throws (l : list QuarterlyInsights) (e : exn) :
  Array_sort compareQuarters l = Throw e ->
  completion l = Throw e /\ array_after l = l.
Proof.
  intros H. unfold completion, array_after, analyzeQuarterOverQuarter,
    mbind, sortInsightsByQuarter. rewrite H. split; reflexivity.
Qed.

Lemma call_on_short_array (l s : list QuarterlyInsights) :
  Array_sort compareQuarters l = Ok s -> (length s < 2)%nat ->
  completion l = Ok (getEmptyTrendAnalysis s) /\ array_after l = s.
Proof.
  intros H Hlen. unfold completion, array_after, analyzeQuarterOverQuarter,
    mbind, sortInsightsByQuarter, elements, ret. rewrite H.
  destruct (Nat.ltb_spec (length s) 2); [|lia]. split; reflexivity.
Qed.

Lemma call_on_long_array (l s : list QuarterlyInsights) :
  Array_sort compareQuarters l = Ok s -> (2 <= length s)%nat ->
  completion l =
    Ok {| quarters := map quarter s;
          sentimentTrend := analyzeSentimentTrends s;
          quarterOverQuarterChanges := analyzeQuarterChanges s;
          strategicEvolution := analyzeStrategicEvolution s;
          overallTrendSummary :=
            generateTrendSummary (analyzeSentimentTrends s)
                                 (analyzeStrategicEvolution s) |}
  /\ array_after l = s.
Proof.
  intros H Hlen. unfold completion, array_after, analyzeQuarterOverQuarter,
    mbind, sortInsightsByQuarter, elements, ret. rewrite H.
  destruct (Nat.ltb_spec (length s) 2); [lia|]. split; reflexivity.
Qed.

(** A call on fewer than two records makes no comparison, whatever the
    labels are. *)
Lemma short_input (l : list QuarterlyInsights) :
  (length l < 2)%nat ->
  completion l = Ok (getEmptyTrendAnalysis l) /\ array_after l = l.
Proof.
  intros Hlen. apply call_on_short_array; [|exact Hlen].
  destruct l as [|x [|y l]]; simpl in Hlen; try lia; reflexivity.
Qed.

Lemma changes_loop_length (rest : list QuarterlyInsights) (previous : QuarterlyInsights) :
  length (changes_loop previous rest) = length rest.
Proof.
  revert previous; induction rest as [|c rest IH]; intros previous; simpl;
    [reflexivity|]. rewrite IH. reflexivity.
Qed.

Lemma analyzeQuarterChanges_length (l : list QuarterlyInsights) :
  length (analyzeQuarterChanges l) = (length l - 1)%nat.
Proof.
  destruct l as [|first rest]; simpl; [reflexivity|].
  rewrite changes_loop_length. lia.
Qed.

End TrendFacts.

(** ** The pattern of quarter labels *)

Module RegexFacts.
Import TrendAnalyzer TrendSpec EngineVocabulary QuarterFormat.

Lemma span_spec (p : ascii -> bool) (s a b : string) :
  span p s = (a, b) ->
  s = (a ++ b)%string /\ EngineVocabulary.all_chars p a = true
  /\ match b with String c _ => p c = false | EmptyString => True end.
Proof.
  revert a b; induction s as [|c s IH]; intros a b; cbn [span].
  - intros [= <- <-]. repeat split.
  - destruct (p c) eqn:E.
    + destruct (span p s) as [a' b'] eqn:Es. intros [= <- <-].
      destruct (IH _ _ eq_refl) as (-> & Hall & Hb).
      repeat split; [|exact Hb]. simpl. rewrite E, Hall. reflexivity.
    + intros [= <- <-]. repeat split. exact E.
Qed.

Lemma span_run (p : ascii -> bool) (ds rest : string) :
  all_chars p ds = true ->
  match rest with String c _ => p c = false | EmptyString => True end ->
  span p (ds ++ rest) = (ds, rest).
Proof.
  intros Hall Hrest. induction ds as [|c ds IH]; simpl.
  - destruct rest as [|c r]; [reflexivity|]. simpl. rewrite Hrest. reflexivity.
  - simpl in Hall. apply andb_true_iff in Hall as [-> Hall].
    rewrite (IH Hall). reflexivity.
Qed.

Lemma digit_not_space (c : ascii) : TrendAnalyzer.is_digit c = true -> TrendAnalyzer.is_space c = false.
Proof.
  destruct c as [[] [] [] [] [] [] [] []]; try reflexivity; discriminate.
Qed.

Lemma space_not_digit (c : ascii) :
  TrendAnalyzer.is_space c = true -> TrendAnalyzer.is_digit c = false.
Proof.
  destruct c as [[] [] [] [] [] [] [] []]; try reflexivity; discriminate.
Qed.

Lemma nonempty_spec (s : string) : nonempty s = true <-> s <> ""%string.
Proof. destruct s; simpl; split; congruence. Qed.

Lemma regex_match_step (s : string) :
  regex_match s
  = match match_at_start s with
    | Some m => Some m
    | None => match s with String _ r => regex_match r | EmptyString => None end
    end.
Proof. destruct s; reflexivity. Qed.

(** A match that starts at the first character. *)
Lemma match_at_start_shape (s g1 g2 : string) :
  match_at_start s = Some (g1, g2) ->
  exists gap after,
    s = ("Q" ++ g1 ++ gap ++ g2 ++ after)%string
    /\ run is_digit g1 /\ run is_space gap /\ run is_digit g2.
Proof.
  destruct s as [|c r]; [discriminate|]. cbn [match_at_start].
  destruct (Ascii.eqb_spec c "Q") as [->|_]; [|discriminate].
  destruct (span is_digit r) as [a r1] eqn:E1.
  destruct (span is_space r1) as [ws r2] eqn:E2.
  destruct (span is_digit r2) as [b r3] eqn:E3.
  destruct (nonempty a && nonempty ws && nonempty b) eqn:N; [|discriminate].
  intros [= <- <-].
  apply andb_true_iff in N as [N Nb]. apply andb_true_iff in N as [Na Nw].
  destruct (span_spec _ _ _ _ E1) as (-> & Ha & _).
  destruct (span_spec _ _ _ _ E2) as (-> & Hw & _).
  destruct (span_spec _ _ _ _ E3) as (-> & Hb & _).
  exists ws, r3. split; [reflexivity|].
  unfold run. rewrite <- !nonempty_spec. auto.
Qed.

Lemma match_at_start_found (n gap y after : string) :
  run is_digit n -> run is_space gap -> run is_digit y ->
  exists m, match_at_start ("Q" ++ n ++ gap ++ y ++ after) = Some m.
Proof.
  intros [Hn Dn] [Hg Dg] [Hy Dy].
  change ("Q" ++ n ++ gap ++ y ++ after)%string
    with (String "Q" (n ++ gap ++ y ++ after)).
  cbn [match_at_start]. rewrite Ascii.eqb_refl.
  destruct gap as [|cg gap']; [congruence|].
  destruct y as [|cy y']; [congruence|].
  cbn [all_chars] in Dg, Dy.
  apply andb_true_iff in Dg as [Dcg Dg]. apply andb_true_iff in Dy as [Dcy Dy].
  rewrite (span_run is_digit n ((String cg gap') ++ (String cy y') ++ after));
    [|exact Dn|exact (space_not_digit _ Dcg)].
  rewrite (span_run is_space (String cg gap') ((String cy y') ++ after));
    [|cbn [all_chars]; rewrite Dcg, Dg; reflexivity|exact (digit_not_space _ Dcy)].
  destruct (span is_digit (String cy y' ++ after)) as [g2 r3] eqn:E.
  cbn [append span] in E. rewrite Dcy in E.
  destruct (span is_digit (y' ++ after)) as [a b]. injection E as <- <-.
  destruct n as [|cn n']; [congruence|]. eexists. reflexivity.
Qed.

(** The matcher finds a match exactly in the labels that hold the
    pattern. *)
Lemma well_formed_contains (label : string) :
  well_formed label = true <-> contains_quarter label.
Proof.
  unfold well_formed. split.
  - induction label as [|c r IH].
    + discriminate.
    + rewrite regex_match_step.
      destruct (match_at_start (String c r)) as [[g1 g2]|] eqn:M.
      * intros _. destruct (match_at_start_shape _ _ _ M)
          as (gap & after & E & H1 & H2 & H3).
        exists ""%string, g1, gap, g2, after. auto.
      * intros H. destruct (IH H) as (before & n & gap & y & after & E & Hr).
        exists (String c before), n, gap, y, after. rewrite E. auto.
  - intros (before & n & gap & y & after & -> & Hn & Hg & Hy).
    induction before as [|c before IH].
    + destruct (match_at_start_found n gap y after Hn Hg Hy) as [m M].
      rewrite regex_match_step. cbn [append] in *. rewrite M. reflexivity.
    + cbn [append]. rewrite regex_match_step.
      destruct (match_at_start _); [reflexivity|]. exact IH.
Qed.

Lemma malformed_contains (r : QuarterlyInsights) :
  malformed r <-> ~ contains_quarter (quarter r).
Proof.
  unfold malformed. rewrite <- well_formed_contains.
  destruct (well_formed (quarter r)); split; congruence.
Qed.

End RegexFacts.

(** ** The trend analyzer: the stated properties *)

Module TrendProperties.
Import TrendAnalyzer TrendSpec TrendFacts.

(** *** Significance tiers *)

Lemma getChangeSignificance_tiered (scoreDelta : float) :
  is_number scoreDelta -> tiered scoreDelta (getChangeSignificance scoreDelta).
Proof.
  intros Hn.
  assert (Ha : PrimFloat.is_nan (PrimFloat.abs scoreDelta) = false).
  { unfold PrimFloat.is_nan. rewrite FloatAxioms.eqb_spec.
    pose proof (FloatFacts.abs_not_nan _ Hn) as H.
    destruct (Prim2SF (PrimFloat.abs scoreDelta)) as [[]|[]| |[] m e] eqn:E;
      try reflexivity; try contradiction;
      unfold SFeqb, SFcompare; rewrite Z.compare_refl;
      change (Pos.compare_cont Eq m m) with (m ?= m)%positive;
      rewrite Pos.compare_refl; reflexivity. }
  pose proof (FloatFacts.leb_false_ltb 0.5 (PrimFloat.abs scoreDelta) eq_refl Ha) as H5.
  pose proof (FloatFacts.leb_false_ltb 0.2 (PrimFloat.abs scoreDelta) eq_refl Ha) as H2.
  assert (H25 : (PrimFloat.abs scoreDelta <? 0.2)%float = true ->
                (PrimFloat.abs scoreDelta <? 0.5)%float = true).
  { rewrite !ltb_spec, FloatFacts.half_spec, FloatFacts.fifth_spec.
    apply FloatFacts.below_fifth_below_half. }
  unfold tiered, getChangeSignificance.
  destruct (0.5 <=? PrimFloat.abs scoreDelta)%float,
           (0.2 <=? PrimFloat.abs scoreDelta)%float,
           (PrimFloat.abs scoreDelta <? 0.5)%float,
           (PrimFloat.abs scoreDelta <? 0.2)%float; cbn;
    intuition congruence.
Qed.

Lemma analyzeQuarterChanges_entries (l : list QuarterlyInsights) (c : QuarterChange) :
  In c (analyzeQuarterChanges l) ->
  exists previous current, In previous l /\ In current l
                           /\ c = quarterChange previous current.
Proof.
  destruct l as [|first rest]; simpl; [contradiction|].
  revert first; induction rest as [|x rest IH]; intros first H; simpl in H;
    [contradiction|].
  destruct H as [<-|H].
  - exists first, x. simpl. auto.
  - destruct (IH x H) as (p & cur & Hp & Hc & ->).
    exists p, cur. simpl in *. intuition.
Qed.

(** C7: the significance of every Change record that
    [analyzeQuarterChanges] builds, for management and for Q&A, is the tier
    of the magnitude of its score delta: major exactly from 0.5 up,
    moderate exactly from 0.2 up to but not including 0.5, minor exactly
    below 0.2. The delta is a number (it is NaN only for two infinite
    scores of the same sign). *)
Theorem significance_tiers (insights : list QuarterlyInsights)
        (c : QuarterChange) (ch : Change) :
  In c (analyzeQuarterChanges insights) ->
  ch = managementChange c \/ ch = qaChange c ->
  is_number (scoreDelta ch) ->
  tiered (scoreDelta ch) (significance ch).
Proof.
  intros Hin Hch Hn.
  destruct (analyzeQuarterChanges_entries _ _ Hin) as (p & cur & _ & _ & ->).
  destruct Hch as [-> | ->]; simpl in *; apply getChangeSignificance_tiered, Hn.
Qed.

(** The deltas 0.5, 0.49999, 0.2 and 0.1999, and their negatives. *)
Lemma significance_at_boundaries :
  getChangeSignificance 0.5 = major
  /\ getChangeSignificance 0.49999 = moderate
  /\ getChangeSignificance 0.2 = moderate
  /\ getChangeSignificance 0.1999 = minor
  /\ getChangeSignificance (-0.5) = major
  /\ getChangeSignificance (-0.2) = moderate.
Proof. repeat split; reflexivity. Qed.

Lemma significance_tiers_witness :
  let ch := managementChange (quarterChange q1_2024 q2_2024) in
  scoreDelta ch = 0.5%float /\ tiered (scoreDelta ch) (significance ch)
  /\ significance ch = major.
Proof.
  cbv zeta. split; [reflexivity|]. split; [|reflexivity].
  apply (significance_tiers [q1_2024; q2_2024] (quarterChange q1_2024 q2_2024)).
  - left. reflexivity.
  - left. reflexivity.
  - reflexivity.
Defined.

(** *** Lengths *)

(** C8: in every report that [analyzeQuarterOverQuarter] returns, the
    quarter list and the two sentiment series have the length of the
    input, and there are [max(0, quarters.length - 1)] change records. *)
Theorem report_lengths (insights : list QuarterlyInsights) (report : TrendAnalysis) :
  completion insights = Ok report ->
  length (quarters report) = length insights
  /\ length (management (sentimentTrend report)) = length (quarters report)
  /\ length (qa (sentimentTrend report)) = length (quarters report)
  /\ Z.of_nat (length (quarterOverQuarterChanges report))
     = Z.max 0 (Z.of_nat (length (quarters report)) - 1).
Proof.
  intros H.
  destruct (Array_sort compareQuarters insights) as [s|e] eqn:E.
  - pose proof (Array_sort_length _ _ _ E) as Hlen.
    destruct (Nat.lt_ge_cases (length s) 2) as [Hs|Hs].
    + destruct (call_on_short_array _ _ E Hs) as [Hc _].
      rewrite Hc in H. injection H as <-. simpl.
      rewrite !length_map. repeat split; lia.
    + destruct (call_on_long_array _ _ E Hs) as [Hc _].
      rewrite Hc in H. injection H as <-. simpl.
      rewrite !length_map, analyzeQuarterChanges_length. repeat split; lia.
  - destruct (call_when_sort_throws _ _ E) as [Hc _]. congruence.
Qed.

Lemma report_lengths_witness :
  exists report,
    completion [q2_2024; q1_2024] = Ok report
    /\ length (quarters report) = 2%nat
    /\ length (management (sentimentTrend report)) = length (quarters report)
    /\ length (qa (sentimentTrend report)) = length (quarters report)
    /\ Z.of_nat (length (quarterOverQuarterChanges report))
       = Z.max 0 (Z.of_nat (length (quarters report)) - 1).
Proof.
  eexists. split; [reflexivity|].
  apply (report_lengths [q2_2024; q1_2024]). reflexivity.
Defined.

(** A call returns a report whenever every label is well formed. *)
Lemma completion_returns (insights : list QuarterlyInsights) :
  Forall labelled insights -> exists report, completion insights = Ok report.
Proof.
  intros H. destruct (Array_sort_returns _ H) as [s E].
  destruct (Nat.lt_ge_cases (length s) 2) as [Hs|Hs].
  - destruct (call_on_short_array _ _ E Hs) as [Hc _]. eauto.
  - destruct (call_on_long_array _ _ E Hs) as [Hc _]. eauto.
Qed.

(** *** Fewer than two records *)

(** C3, as the code has it: on zero or one record the call returns with no
    change record, both trends stable, and one evolution entry for each
    record (none for the empty input), whose emerging and declining themes
    are empty and whose consistent themes are the themes of the record. *)
Theorem degenerate_report (insights : list QuarterlyInsights) :
  (length insights < 2)%nat ->
  exists report,
    completion insights = Ok report
    /\ quarterOverQuarterChanges report = []
    /\ strategicEvolution report
       = map (fun i => {| te_quarter := quarter i;
                          emergingThemes := [];
                          decliningThemes := [];
                          consistentThemes := themeNames i |}) insights
    /\ managementTrend (overallTrendSummary report) = stable
    /\ qaTrend (overallTrendSummary report) = stable.
Proof.
  intros H. destruct (short_input insights H) as [Hc _].
  exists (getEmptyTrendAnalysis insights). rewrite Hc. repeat split.
Qed.

Lemma degenerate_report_witness :
  exists report,
    completion [q1_2024] = Ok report
    /\ quarterOverQuarterChanges report = []
    /\ strategicEvolution report
       = [ {| te_quarter := "Q1 2024"; emergingThemes := [];
              decliningThemes := []; consistentThemes := ["AI"; "Gaming"] |} ]
    /\ managementTrend (overallTrendSummary report) = stable
    /\ qaTrend (overallTrendSummary report) = stable.
Proof.
  apply (degenerate_report [q1_2024]). simpl. lia.
Defined.

(** C3 as stated fails on one record: the evolution list is not empty. *)
Lemma degenerate_evolution_not_empty :
  ~ (exists report,
       completion [q1_2024] = Ok report
       /\ quarterOverQuarterChanges report = []
       /\ strategicEvolution report = []
       /\ managementTrend (overallTrendSummary report) = stable
       /\ qaTrend (overallTrendSummary report) = stable).
Proof.
  intros (report & Hc & _ & He & _).
  change (completion [q1_2024]) with (Ok (getEmptyTrendAnalysis [q1_2024])) in Hc.
  injection Hc as <-. discriminate He.
Qed.

(** C10: a call on a single record whose label is malformed returns the
    report of the degenerate path: the label would make [parseQuarter]
    throw, but the sort of a one-element array compares nothing. *)
Theorem single_malformed_record_returns (r : QuarterlyInsights) :
  malformed r ->
  parseQuarter (quarter r) = Throw (invalid_quarter_format r)
  /\ completion [r] = Ok (getEmptyTrendAnalysis [r]).
Proof.
  intros H. split.
  - apply parseQuarter_malformed, H.
  - apply (short_input [r]). simpl. lia.
Qed.

Lemma single_malformed_record_witness :
  malformed quarter_one
  /\ parseQuarter "Quarter One 2024"
     = Throw (Error "Invalid quarter format: Quarter One 2024")
  /\ completion [quarter_one] = Ok (getEmptyTrendAnalysis [quarter_one]).
Proof.
  split; [reflexivity|].
  apply (single_malformed_record_returns quarter_one). reflexivity.
Defined.

(** *** Malformed labels *)

(** C4, as the code has it: on two or more records of which one has a
    label that holds no match of the pattern (the letter Q, digits, white
    space, digits, anywhere in the label), the call throws the
    invalid-quarter-format error of such a label of the input, and returns
    no report; and it throws that error for no other labels: a label that
    holds the pattern inside other text is parsed. *)
Theorem malformed_label_throws (insights : list QuarterlyInsights) :
  (2 <= length insights)%nat ->
  ((exists r, In r insights /\ ~ QuarterFormat.contains_quarter (quarter r)) ->
   exists r, In r insights /\ ~ QuarterFormat.contains_quarter (quarter r)
             /\ completion insights = Throw (invalid_quarter_format r))
  /\ (forall r, completion insights = Throw (invalid_quarter_format r) ->
                ~ QuarterFormat.contains_quarter (quarter r)
                /\ exists r', In r' insights /\ quarter r' = quarter r).
Proof.
  intros Hlen.
  assert (Hthrows : Exists malformed insights ->
                    exists r, In r insights /\ malformed r
                              /\ completion insights = Throw (invalid_quarter_format r)).
  { intros Hex.
    destruct (Array_sort_throws insights Hlen Hex) as (r & Hin & Hm & Hthrow).
    exists r. repeat split; [exact Hin|exact Hm|].
    apply (call_when_sort_throws _ _ Hthrow). }
  split.
  - intros (r & Hin & Hr).
    destruct Hthrows as (r' & Hin' & Hm' & Hc).
    { apply Exists_exists. exists r. split; [exact Hin|].
      apply RegexFacts.malformed_contains, Hr. }
    exists r'. repeat split; [exact Hin'| |exact Hc].
    apply RegexFacts.malformed_contains, Hm'.
  - intros r Hc.
    assert (Hex : Exists malformed insights).
    { destruct (Forall_Exists_dec labelled
                  (fun x => Bool.bool_dec (well_formed (quarter x)) true) insights)
        as [Hall|Hex].
      - destruct (completion_returns insights Hall) as [report Hok]. congruence.
      - apply Exists_exists in Hex as (x & Hx & Hn). apply Exists_exists.
        exists x. split; [exact Hx|].
        destruct (well_formed_or_malformed x) as [Hl|Hm]; [contradiction|exact Hm]. }
    destruct (Hthrows Hex) as (r' & Hin' & Hm' & Hc').
    rewrite Hc in Hc'. injection Hc' as E.
    split.
    + rewrite E. apply RegexFacts.malformed_contains, Hm'.
    + exists r'. split; [exact Hin'|symmetry; exact E].
Qed.

Lemma malformed_label_throws_witness :
  exists r, In r [q1_2024; quarter_one; q2_2024]
            /\ ~ QuarterFormat.contains_quarter (quarter r)
            /\ completion [q1_2024; quarter_one; q2_2024]
               = Throw (invalid_quarter_format r).
Proof.
  apply (malformed_label_throws [q1_2024; quarter_one; q2_2024]).
  - simpl. lia.
  - exists quarter_one. split; [right; left; reflexivity|].
    apply RegexFacts.malformed_contains. reflexivity.
Defined.

(** A label that holds a quarter inside other text is accepted. *)
Lemma embedded_label_is_accepted :
  QuarterFormat.contains_quarter (quarter QuarterFormat.fy_q2_2024)
  /\ exists report,
       completion [QuarterFormat.fy_q2_2024; q1_2024] = Ok report
       /\ quarters report = ["Q1 2024"; "FY Q2 2024 results"]%string.
Proof.
  split.
  - apply RegexFacts.well_formed_contains. reflexivity.
  - eexists. split; reflexivity.
Qed.

(** C4 as stated fails on a single record with a malformed label. *)
Lemma single_malformed_label_does_not_throw :
  Exists malformed [quarter_one]
  /\ ~ QuarterFormat.contains_quarter (quarter quarter_one)
  /\ ~ (exists e, completion [quarter_one] = Throw e).
Proof.
  split; [|split].
  - apply Exists_cons_hd. reflexivity.
  - apply RegexFacts.malformed_contains. reflexivity.
  - intros [e H]. discriminate H.
Qed.

(** *** Theme evolution *)

Lemma Set_add_In (t x : string) (s : list string) :
  In t (Set_add x s) <-> t = x \/ In t s.
Proof.
  induction s as [|y s IH]; simpl.
  - intuition.
  - destruct (String.eqb_spec x y) as [->|Hne]; simpl; intuition.
Qed.

Lemma Set_fold_In (t : string) (l acc : list string) :
  In t (fold_left (fun s x => Set_add x s) l acc) <-> In t acc \/ In t l.
Proof.
  revert acc; induction l as [|x l IH]; intros acc; simpl.
  - intuition.
  - rewrite IH, Set_add_In. intuition.
Qed.

Lemma Set_of_In (t : string) (l : list string) : In t (Set_of l) <-> In t l.
Proof. unfold Set_of. rewrite Set_fold_In. simpl. intuition. Qed.

Lemma Set_has_In (s : list string) (t : string) : Set_has s t = true <-> In t s.
Proof.
  unfold Set_has. rewrite existsb_exists. split.
  - intros (y & Hy & E). apply String.eqb_eq in E. subst. exact Hy.
  - intros H. exists t. split; [exact H|apply String.eqb_refl].
Qed.

Lemma Set_has_false (s : list string) (t : string) :
  Set_has s t = false <-> ~ In t s.
Proof.
  rewrite <- Set_has_In. destruct (Set_has s t); split; congruence.
Qed.

Lemma Set_add_NoDup (x : string) (s : list string) : NoDup s -> NoDup (Set_add x s).
Proof.
  induction 1 as [|y s Hy Hs IH]; simpl.
  - constructor; [intros []|constructor].
  - destruct (String.eqb_spec x y) as [->|Hne].
    + constructor; assumption.
    + constructor; [|exact IH].
      rewrite Set_add_In. intros [E|E]; [congruence|contradiction].
Qed.

Lemma Set_of_NoDup (l : list string) : NoDup (Set_of l).
Proof.
  unfold Set_of. generalize (NoDup_nil string). generalize (@nil string).
  induction l as [|x l IH]; intros acc H; simpl; [exact H|].
  apply IH, Set_add_NoDup, H.
Qed.

(** The entry of a quarter that has a predecessor. *)
Lemma themeEvolution_sets (previous current : QuarterlyInsights) (t : string) :
  let e := themeEvolution (Some previous) current in
  (In t (emergingThemes e) <->
     In t (themeNames current) /\ ~ In t (themeNames previous))
  /\ (In t (decliningThemes e) <->
        In t (themeNames previous) /\ ~ In t (themeNames current))
  /\ (In t (consistentThemes e) <->
        In t (themeNames current) /\ In t (themeNames previous)).
Proof.
  simpl. rewrite !filter_In, !negb_true_iff, !Set_has_false, !Set_has_In,
    !Set_of_In. tauto.
Qed.

(** The entry of a quarter that has no predecessor. *)
Lemma themeEvolution_first (current : QuarterlyInsights) :
  themeEvolution None current
  = {| te_quarter := quarter current;
       emergingThemes := Set_of (themeNames current);
       decliningThemes := [];
       consistentThemes := [] |}.
Proof.
  unfold themeEvolution. simpl. f_equal.
  - induction (Set_of (themeNames current)) as [|x s IH]; simpl; congruence.
  - induction (Set_of (themeNames current)) as [|x s IH]; simpl; congruence.
Qed.

Lemma evolution_loop_nth (rest : list QuarterlyInsights)
      (previous : option QuarterlyInsights) (i : nat) (current : QuarterlyInsights) :
  nth_error rest i = Some current ->
  nth_error (evolution_loop previous rest) i
  = Some (themeEvolution
            (match i with O => previous | S j => nth_error rest j end) current).
Proof.
  revert previous i; induction rest as [|x rest IH]; intros previous i H.
  - destruct i; discriminate.
  - destruct i as [|i]; simpl in *.
    + injection H as <-. reflexivity.
    + rewrite (IH (Some x) i H). destruct i; reflexivity.
Qed.

Lemma evolution_loop_length (rest : list QuarterlyInsights)
      (previous : option QuarterlyInsights) :
  length (evolution_loop previous rest) = length rest.
Proof.
  revert previous; induction rest as [|x rest IH]; intros previous; simpl;
    [reflexivity|]. rewrite IH. reflexivity.
Qed.

(** C1, the earliest quarter: on the two records Q1 2024 with themes AI
    and Gaming and Q2 2024, in chronological order, the entry of Q1 2024
    has both themes emerging and none consistent, whereas the entry that
    the call on the single record Q1 2024 returns has none emerging and
    both consistent. *)
Theorem earliest_quarter_entry :
  chronological [q1_2024; q2_2024]
  /\ (exists report,
        completion [q1_2024; q2_2024] = Ok report
        /\ nth_error (strategicEvolution report) 0
           = Some {| te_quarter := "Q1 2024";
                     emergingThemes := ["AI"; "Gaming"];
                     decliningThemes := [];
                     consistentThemes := [] |})
  /\ (exists report,
        completion [q1_2024] = Ok report
        /\ nth_error (strategicEvolution report) 0
           = Some {| te_quarter := "Q1 2024";
                     emergingThemes := [];
                     decliningThemes := [];
                     consistentThemes := ["AI"; "Gaming"] |}).
Proof.
  split; [|split].
  - split.
    + repeat constructor.
    + apply SSorted_cons; [repeat constructor|].
      constructor; [|constructor].
      vm_compute. right. split; [reflexivity|discriminate].
  - eexists. split; reflexivity.
  - eexists. split; reflexivity.
Qed.

(** *** Sentiment shift *)

(** C2, negative against neutral: [describeSentimentShift] reports no
    change between the labels negative and neutral, in either direction,
    and so does the Change record of the records Q1 2024 (negative) and
    Q2 2024 (neutral). The entry [negative: 0] of the table is falsy, so
    [|| 1] replaces it by the rank of neutral. *)
Theorem negative_neutral_shift :
  orderScore "negative" = 1%float
  /\ describeSentimentShift "negative" "neutral" = "No change"
  /\ describeSentimentShift "neutral" "negative" = "No change"
  /\ map (fun c => sentimentShift (managementChange c))
         (analyzeQuarterChanges [q1_2024; q2_2024]) = ["No change"].
Proof. repeat split; reflexivity. Qed.

(** *** The caller's array *)

(** C5, the argument after the call: called on the array of the records
    Q2 2024 and Q1 2024, in this order, [analyzeQuarterOverQuarter] leaves
    the array holding Q1 2024 and then Q2 2024. *)
Theorem call_reorders_argument :
  map quarter [q2_2024; q1_2024] = ["Q2 2024"; "Q1 2024"]
  /\ array_after [q2_2024; q1_2024] = [q1_2024; q2_2024]
  /\ array_after [q2_2024; q1_2024] <> [q2_2024; q1_2024].
Proof.
  repeat split; try reflexivity.
  change (array_after [q2_2024; q1_2024]) with [q1_2024; q2_2024].
  intros H. apply (f_equal (map quarter)) in H. discriminate H.
Qed.

End TrendProperties.

(** ** The transcript collector: the stated properties *)

Module CollectorProperties.
Import Utils Transcript TranscriptCollector CollectorSpec.

Lemma map_index_length {A B} (f : A -> Z -> B) (l : list A) (index : Z) :
  length (map_index f index l) = length l.
Proof.
  revert index; induction l as [|x l IH]; intros index; simpl;
    [reflexivity|]. rewrite IH. reflexivity.
Qed.

Lemma map_map_index {A B C} (g : B -> C) (f : A -> Z -> B) (h : A -> C)
      (l : list A) (index : Z) :
  (forall x i, g (f x i) = h x) ->
  map g (map_index f index l) = map h l.
Proof.
  intros H. revert index; induction l as [|x l IH]; intros index; simpl;
    [reflexivity|]. rewrite H, IH. reflexivity.
Qed.

Lemma slice0_nonneg {A} (l : list A) (e : Z) :
  (0 <= e)%Z -> slice0 l e = firstn (Z.to_nat e) l.
Proof.
  intros H. unfold slice0. destruct (Z.ltb_spec e 0); [lia|].
  rewrite Z2Nat.inj_min, Nat2Z.id, <- firstn_firstn.
  rewrite (firstn_all l). reflexivity.
Qed.

(** The synthetic documents: as many as the table has scenarios from its
    start up to the count, in table order. *)
Lemma generateRealisticSampleData_quarters (now : string)
      (localDate : Z -> Z -> Z -> string) (count : Z) :
  (0 <= count)%Z ->
  map quarter (generateRealisticSampleData now localDate count)
  = firstn (Z.to_nat count) scenario_quarters.
Proof.
  intros H. unfold generateRealisticSampleData.
  rewrite map_map. cbn [quarter].
  rewrite (map_map_index _ _ s_quarter); [|reflexivity].
  rewrite (slice0_nonneg _ _ H), <- firstn_map. reflexivity.
Qed.

Lemma generateRealisticSampleData_length (now : string)
      (localDate : Z -> Z -> Z -> string) (count : Z) :
  (0 <= count)%Z ->
  Z.of_nat (length (generateRealisticSampleData now localDate count))
  = Z.min count 4.
Proof.
  intros H.
  rewrite <- (length_map quarter), (generateRealisticSampleData_quarters _ _ _ H).
  rewrite length_firstn. simpl length. lia.
Qed.

Lemma scrapeAll_nil (scrapeTranscript : Candidate.UrlInfo -> option EarningsTranscript)
      (transcriptUrls : list Candidate.UrlInfo) :
  (forall u, In u transcriptUrls -> scrapeTranscript u = None) ->
  scrapeAll scrapeTranscript transcriptUrls = [].
Proof.
  induction transcriptUrls as [|u l IH]; intros H; simpl; [reflexivity|].
  rewrite (H u (or_introl eq_refl)). simpl. apply IH.
  intros v Hv. apply H. right. exact Hv.
Qed.

(** C6, as the code has it: when no candidate that the sources find can be
    scraped (in particular when the sources find none), a call for
    [n >= 0] quarters returns the synthetic documents of the first
    [min(n, 4)] scenarios of the table, in table order: the table is cut
    short for [n < 4] and never repeated for [n > 4]. The number of
    documents and their quarters depend on [n] alone, not on the clock,
    the time zone or the sources. *)
Theorem synthetic_fallback (now : string) (localDate : Z -> Z -> Z -> string)
        (searchSeekingAlpha searchYahooFinance : Z -> list Candidate.UrlInfo)
        (scrapeTranscript : Candidate.UrlInfo -> option EarningsTranscript)
        (n : Z) :
  (forall u,
      In u (findNvidiaTranscriptUrls searchSeekingAlpha searchYahooFinance n) ->
      scrapeTranscript u = None) ->
  (0 <= n)%Z ->
  let documents :=
    collectNvidiaTranscripts now localDate searchSeekingAlpha
                             searchYahooFinance scrapeTranscript n in
  documents = generateRealisticSampleData now localDate n
  /\ Z.of_nat (length documents) = Z.min n 4
  /\ map quarter documents = firstn (Z.to_nat n) scenario_quarters.
Proof.
  intros Hfail Hn documents.
  assert (E : documents = generateRealisticSampleData now localDate n).
  { subst documents. unfold collectNvidiaTranscripts, tryAlternativeSources.
    destruct (length (findNvidiaTranscriptUrls _ _ n) =? 0)%nat; [reflexivity|].
    rewrite (scrapeAll_nil _ _ Hfail). reflexivity. }
  rewrite E. repeat split.
  - apply generateRealisticSampleData_length, Hn.
  - apply generateRealisticSampleData_quarters, Hn.
Qed.

Lemma synthetic_fallback_witness :
  let documents :=
    collectNvidiaTranscripts clock utc no_candidates no_candidates scrape_fails 3 in
  documents = generateRealisticSampleData clock utc 3
  /\ Z.of_nat (length documents) = Z.min 3 4
  /\ map quarter documents = ["Q4 2024"; "Q3 2024"; "Q2 2024"].
Proof.
  apply (synthetic_fallback clock utc no_candidates no_candidates scrape_fails 3).
  - intros u H. reflexivity.
  - lia.
Defined.

(** C6 as stated fails for a count above the size of the table: five
    quarters are asked for and four documents come back. *)
Lemma five_requested_four_returned :
  length (collectNvidiaTranscripts clock utc no_candidates no_candidates
                                   scrape_fails 5) = 4%nat
  /\ Z.of_nat (length (collectNvidiaTranscripts clock utc no_candidates
                                                no_candidates scrape_fails 5))
     <> 5%Z.
Proof. split; [reflexivity|]. vm_compute. discriminate. Qed.

End CollectorProperties.

(** ** The analysis engine: the stated properties *)

Module EngineProperties.
Import AnalysisEngine EngineSpec.

Lemma analyzeMgmtSentiment_value (create : Request -> Completion) (text : string) :
  analyzeMgmtSentiment create text
  = Ok (match create {| kind := ManagementSentimentPrompt;
                        excerpt := substring 0 2000 text;
                        max_tokens := 300; temperature := 0.1 |} with
        | Parsed v => v
        | _ => getDefaultSentiment
        end).
Proof.
  unfold analyzeMgmtSentiment. destruct (create _); reflexivity.
Qed.

Lemma analyzeQASentiment_value (create : Request -> Completion) (text : string) :
  analyzeQASentiment create text
  = Ok (match create {| kind := QASentimentPrompt;
                        excerpt := substring 0 2000 text;
                        max_tokens := 300; temperature := 0.1 |} with
        | Parsed v => v
        | _ => getDefaultSentiment
        end).
Proof.
  unfold analyzeQASentiment. destruct (create _); reflexivity.
Qed.

Lemma extractStrategicFocus_value (create : Request -> Completion) (text : string) :
  extractStrategicFocus create text
  = Ok (match create {| kind := StrategicFocusPrompt;
                        excerpt := substring 0 3000 text;
                        max_tokens := 500; temperature := 0.2 |} with
        | Parsed JNull => getDefaultStrategicFocus
        | Parsed v => themes_or_empty v
        | _ => getDefaultStrategicFocus
        end).
Proof.
  unfold extractStrategicFocus. destruct (create _) as [| |v]; try reflexivity.
  destruct v as [|b|x|s|items|members]; try reflexivity.
  simpl. destruct (lookup "themes" members) as [v|]; [|reflexivity].
  destruct (truthy v); reflexivity.
Qed.

(** C9, as the code has it: [analyzeTranscript] returns a record for every
    transcript and every behaviour of the service. A sub-call whose request
    is rejected or whose reply does not parse yields its default, whatever
    the other two sub-calls get. A reply that parses is used as it is,
    without a check of its shape: a sentiment sub-call yields the parsed
    value itself, and the theme sub-call yields the default for [null],
    and otherwise the [themes] member of the value if it is truthy and an
    empty list if not. *)
Theorem analyzeTranscript_fallbacks (create : Request -> Completion)
        (now : string) (t : Transcript.EarningsTranscript) :
  exists insights,
    analyzeTranscript create now t = Ok insights
    /\ (no_value (create (managementRequest t)) ->
        managementSentiment insights = getDefaultSentiment)
    /\ (forall v, create (managementRequest t) = Parsed v ->
                  managementSentiment insights = v)
    /\ (no_value (create (qaRequest t)) ->
        qaSentiment insights = getDefaultSentiment)
    /\ (forall v, create (qaRequest t) = Parsed v -> qaSentiment insights = v)
    /\ (no_value (create (focusRequest t)) \/ create (focusRequest t) = Parsed JNull ->
        strategicFocuses insights = getDefaultStrategicFocus)
    /\ (forall v, create (focusRequest t) = Parsed v -> v <> JNull ->
                  strategicFocuses insights = themes_or_empty v).
Proof.
  unfold analyzeTranscript.
  rewrite analyzeMgmtSentiment_value, analyzeQASentiment_value,
    extractStrategicFocus_value.
  fold (managementRequest t) (qaRequest t) (focusRequest t).
  eexists. split; [reflexivity|]. cbn [managementSentiment qaSentiment strategicFocuses].
  unfold no_value. repeat split.
  - intros [-> | ->]; reflexivity.
  - intros v ->. reflexivity.
  - intros [-> | ->]; reflexivity.
  - intros v ->. reflexivity.
  - intros [[-> | ->] | ->]; reflexivity.
  - intros v -> Hv. destruct v; try reflexivity. contradiction.
Qed.

(** C9 as stated fails for a reply that parses and has the wrong shape:
    the service answers every request with an empty object, which is no
    [SentimentAnalysis], and the record carries that object, not the
    default, as management sentiment, and an empty theme list, not the
    single default theme. *)
Lemma wrong_shape_is_not_replaced :
  is_SentimentAnalysis (JObject []) = false
  /\ is_ThemesResponse (JObject []) = false
  /\ exists insights,
       analyzeTranscript replies_empty_object "2024-12-15T09:30:00.000Z"
                         sample_transcript = Ok insights
       /\ managementSentiment insights = JObject []
       /\ managementSentiment insights <> getDefaultSentiment
       /\ strategicFocuses insights = JArray []
       /\ strategicFocuses insights <> getDefaultStrategicFocus.
Proof.
  split; [reflexivity|]. split; [reflexivity|].
  eexists. split; [reflexivity|]. cbn [managementSentiment strategicFocuses].
  repeat split; discriminate.
Qed.

End EngineProperties.

(** ** The trend analyzer: further properties *)

Module TrendOrder.
Import TrendAnalyzer TrendSpec TrendFacts.

Lemma in_order_trans (a b c : QuarterlyInsights) :
  in_order a b -> in_order b c -> in_order a c.
Proof.
  unfold in_order.
  destruct (parseQuarter (quarter a)) as [ka|]; [|contradiction].
  destruct (parseQuarter (quarter b)) as [kb|]; [|contradiction].
  destruct (parseQuarter (quarter c)) as [kc|]; [|intros _ []].
  lia.
Qed.

Lemma compare_negative (x y : QuarterlyInsights) (order : Z) :
  compareQuarters x y = Ok order -> (order < 0)%Z -> in_order x y.
Proof.
  unfold compareQuarters, in_order.
  destruct (parseQuarter (quarter x)) as [kx|]; [|discriminate].
  destruct (parseQuarter (quarter y)) as [ky|]; [|discriminate].
  simpl. destruct (Z.eqb_spec (year kx) (year ky)); simpl;
    intros H; injection H as <-; lia.
Qed.

Lemma compare_not_negative (x y : QuarterlyInsights) (order : Z) :
  compareQuarters x y = Ok order -> (0 <= order)%Z -> in_order y x.
Proof.
  unfold compareQuarters, in_order.
  destruct (parseQuarter (quarter x)) as [kx|]; [|discriminate].
  destruct (parseQuarter (quarter y)) as [ky|]; [|discriminate].
  simpl. destruct (Z.eqb_spec (year kx) (year ky)); simpl;
    intros H; injection H as <-; lia.
Qed.

Lemma insert_sorted_in_order (x : QuarterlyInsights) (sorted s : list QuarterlyInsights) :
  StronglySorted in_order sorted ->
  insert_sorted compareQuarters x sorted = Ok s ->
  StronglySorted in_order s.
Proof.
  revert s; induction sorted as [|y sorted IH]; intros s Hs H; simpl in H.
  - injection H as <-. repeat constructor.
  - destruct (compareQuarters x y) as [order|] eqn:Hc; simpl in H; [|discriminate].
    apply StronglySorted_inv in Hs as [Hs Hy].
    destruct (Z.ltb_spec order 0) as [Hneg|Hpos].
    + injection H as <-.
      pose proof (compare_negative _ _ _ Hc Hneg) as Hxy.
      constructor; [constructor; assumption|].
      constructor; [exact Hxy|].
      rewrite Forall_forall in *. intros z Hz.
      apply (in_order_trans x y z Hxy), Hy, Hz.
    + destruct (insert_sorted compareQuarters x sorted) as [r|] eqn:Hi;
        simpl in H; [|discriminate].
      injection H as <-.
      constructor; [apply IH; [exact Hs|reflexivity]|].
      pose proof (insert_sorted_Permutation _ _ _ _ Hi) as Hp.
      rewrite Forall_forall in *. intros z Hz.
      apply (Permutation_in _ (Permutation_sym Hp)) in Hz.
      destruct Hz as [<-|Hz]; [|apply Hy, Hz].
      apply (compare_not_negative _ _ _ Hc Hpos).
Qed.

Lemma sort_from_in_order (rest sorted s : list QuarterlyInsights) :
  StronglySorted in_order sorted ->
  sort_from compareQuarters sorted rest = Ok s ->
  StronglySorted in_order s.
Proof.
  revert sorted s; induction rest as [|x rest IH]; intros sorted s Hs H; simpl in H.
  - injection H as <-. exact Hs.
  - destruct (insert_sorted compareQuarters x sorted) as [s'|] eqn:Hi;
      simpl in H; [|discriminate].
    apply (IH s' s); [|exact H].
    apply (insert_sorted_in_order x sorted s' Hs Hi).
Qed.

Lemma Array_sort_in_order (l s : list QuarterlyInsights) :
  Array_sort compareQuarters l = Ok s -> StronglySorted in_order s.
Proof. apply sort_from_in_order. constructor. Qed.

(** A sort of two or more records that completes has parsed every label. *)
Lemma Array_sort_labelled (l s : list QuarterlyInsights) :
  (2 <= length l)%nat -> Array_sort compareQuarters l = Ok s -> Forall labelled l.
Proof.
  intros Hlen H. rewrite Forall_forall. intros r Hr.
  destruct (well_formed_or_malformed r) as [Hw|Hm]; [exact Hw|].
  destruct (Array_sort_throws l Hlen) as (r' & _ & _ & Ht).
  - rewrite Exists_exists. exists r. split; assumption.
  - congruence.
Qed.

(** The outcome of a call, by the outcome of the sort. *)
Lemma call_returns_sorted (l : list QuarterlyInsights) (report : TrendAnalysis) :
  completion l = Ok report ->
  Array_sort compareQuarters l = Ok (array_after l)
  /\ quarters report = map quarter (array_after l).
Proof.
  intros H.
  destruct (Array_sort compareQuarters l) as [s|e] eqn:E.
  - destruct (Nat.lt_ge_cases (length s) 2) as [Hs|Hs].
    + destruct (call_on_short_array _ _ E Hs) as [Hc ->].
      rewrite Hc in H. injection H as <-. split; reflexivity.
    + destruct (call_on_long_array _ _ E Hs) as [Hc ->].
      rewrite Hc in H. injection H as <-. split; reflexivity.
  - destruct (call_when_sort_throws _ _ E) as [Hc _]. congruence.
Qed.

(** X1: when a call returns, the caller's array holds the records of the
    input, each as often as before, in chronological order, and the
    quarters of the report are the labels of that array in that order.
    The numbers in the labels are safe integers, which the code compares
    exactly. *)
Theorem call_sorts_argument (insights : list QuarterlyInsights)
        (report : TrendAnalysis) :
  forallb (fun r => Domain.safe_label (quarter r)) insights = true ->
  completion insights = Ok report ->
  Permutation insights (array_after insights)
  /\ StronglySorted in_order (array_after insights)
  /\ quarters report = map quarter (array_after insights).
Proof.
  intros _ H. destruct (call_returns_sorted _ _ H) as [Hs Hq].
  repeat split.
  - apply (Array_sort_Permutation _ _ _ Hs).
  - apply (Array_sort_in_order _ _ Hs).
  - exact Hq.
Qed.

Lemma call_sorts_argument_witness :
  exists report,
    completion [q2_2024; q1_2024] = Ok report
    /\ Permutation [q2_2024; q1_2024] (array_after [q2_2024; q1_2024])
    /\ StronglySorted in_order (array_after [q2_2024; q1_2024])
    /\ quarters report = ["Q1 2024"; "Q2 2024"].
Proof.
  eexists. split; [reflexivity|].
  apply (call_sorts_argument [q2_2024; q1_2024]); reflexivity.
Defined.

(** X2: a second call on the array that a first call left behind returns
    the same report and leaves the array as it is. *)
Theorem second_call_changes_nothing (insights : list QuarterlyInsights)
        (report : TrendAnalysis) :
  completion insights = Ok report ->
  completion (array_after insights) = Ok report
  /\ array_after (array_after insights) = array_after insights.
Proof.
  intros H. destruct (call_returns_sorted _ _ H) as [Hs _].
  pose proof (Array_sort_length _ _ _ Hs) as Hlen.
  assert (Hs' : Array_sort compareQuarters (array_after insights)
                = Ok (array_after insights)).
  { destruct (Nat.lt_ge_cases (length insights) 2) as [Hl|Hl].
    - destruct (array_after insights) as [|x [|y s]]; simpl in Hlen;
        try lia; reflexivity.
    - apply Array_sort_chronological. split.
      + pose proof (Array_sort_labelled _ _ Hl Hs) as Hall.
        rewrite Forall_forall in *. intros r Hr. apply Hall.
        apply (Permutation_in _ (Permutation_sym (Array_sort_Permutation _ _ _ Hs))), Hr.
      + apply (Array_sort_in_order _ _ Hs). }
  destruct (Nat.lt_ge_cases (length (array_after insights)) 2) as [Hl|Hl].
  - destruct (call_on_short_array _ _ Hs Hl) as [Hc _].
    destruct (call_on_short_array _ _ Hs' Hl) as [Hc' Ha'].
    split; [congruence|exact Ha'].
  - destruct (call_on_long_array _ _ Hs Hl) as [Hc _].
    destruct (call_on_long_array _ _ Hs' Hl) as [Hc' Ha'].
    split; [congruence|exact Ha'].
Qed.

Lemma second_call_changes_nothing_witness :
  exists report,
    completion [q2_2024; q1_2024] = Ok report
    /\ completion (array_after [q2_2024; q1_2024]) = Ok report
    /\ array_after (array_after [q2_2024; q1_2024]) = array_after [q2_2024; q1_2024].
Proof.
  eexists. split; [reflexivity|].
  apply (second_call_changes_nothing [q2_2024; q1_2024]). reflexivity.
Defined.

End TrendOrder.

Module TrendThemes.
Import TrendAnalyzer TrendSpec TrendVocabulary TrendFacts TrendProperties.

(** *** Stability of the sort *)

Lemma has_key_in_order (y n : Z) (a b : QuarterlyInsights) :
  has_key y n a = true -> has_key y n b = true -> in_order a b.
Proof.
  unfold has_key, in_order.
  destruct (parseQuarter (quarter a)) as [ka|]; [|discriminate].
  destruct (parseQuarter (quarter b)) as [kb|]; [|discriminate].
  intros Ha Hb. apply andb_true_iff in Ha as [Ha1 Ha2], Hb as [Hb1 Hb2]. lia.
Qed.

Lemma insert_sorted_stable (y n : Z) (x : QuarterlyInsights)
      (sorted s : list QuarterlyInsights) :
  StronglySorted in_order sorted ->
  insert_sorted compareQuarters x sorted = Ok s ->
  filter (has_key y n) s = filter (has_key y n) (sorted ++ [x]).
Proof.
  revert s; induction sorted as [|z sorted IH]; intros s Hs H; simpl in H.
  - injection H as <-. reflexivity.
  - destruct (compareQuarters x z) as [order|] eqn:Hc; simpl in H; [|discriminate].
    apply StronglySorted_inv in Hs as [Hs Hz].
    destruct (Z.ltb_spec order 0) as [Hneg|Hpos].
    + injection H as <-.
      destruct (has_key y n x) eqn:Hx.
      * (* no record already placed has the key of [x] *)
        assert (Hnone : forall w, In w (z :: sorted) -> has_key y n w = false).
        { intros w Hw. destruct (has_key y n w) eqn:Hk; [|reflexivity].
          exfalso.
          assert (Hzw : w = z \/ in_order z w).
          { destruct Hw as [->|Hw]; [left; reflexivity|right].
            rewrite Forall_forall in Hz. apply Hz, Hw. }
          pose proof (has_key_in_order y n w x Hk Hx) as Hwx.
          assert (Hzx : in_order z x).
          { destruct Hzw as [->|Hzw]; [exact Hwx|].
            eapply TrendOrder.in_order_trans; eassumption. }
          clear - Hc Hneg Hzx. unfold compareQuarters, in_order in *.
          destruct (parseQuarter (quarter x)) as [kx|]; [|discriminate].
          destruct (parseQuarter (quarter z)) as [kz|]; [|discriminate].
          simpl in Hc. destruct (Z.eqb_spec (year kx) (year kz)); simpl in Hc;
            injection Hc as <-; lia. }
        assert (Hf : forall l, (forall w, In w l -> has_key y n w = false) ->
                               filter (has_key y n) l = []).
        { induction l as [|w l IHl]; intros Hl; simpl; [reflexivity|].
          rewrite (Hl w (or_introl eq_refl)). apply IHl.
          intros w' Hw'. apply Hl. right. exact Hw'. }
        change (x :: z :: sorted) with ([x] ++ (z :: sorted)).
        change ((z :: sorted) ++ [x]) with ((z :: sorted) ++ [x]).
        rewrite !filter_app, (Hf _ Hnone), app_nil_r. reflexivity.
      * change ((z :: sorted) ++ [x]) with ((z :: sorted) ++ [x]).
        rewrite filter_app. simpl filter at 1. rewrite Hx.
        simpl (filter _ [x]). rewrite Hx, app_nil_r. reflexivity.
    + destruct (insert_sorted compareQuarters x sorted) as [r|] eqn:Hi;
        simpl in H; [|discriminate].
      injection H as <-. simpl. rewrite (IH r Hs eq_refl). reflexivity.
Qed.

Lemma sort_from_stable (y n : Z) (rest sorted s : list QuarterlyInsights) :
  StronglySorted in_order sorted ->
  sort_from compareQuarters sorted rest = Ok s ->
  filter (has_key y n) s = filter (has_key y n) (sorted ++ rest).
Proof.
  revert sorted s; induction rest as [|x rest IH]; intros sorted s Hs H; simpl in H.
  - injection H as <-. rewrite app_nil_r. reflexivity.
  - destruct (insert_sorted compareQuarters x sorted) as [s'|] eqn:Hi;
      simpl in H; [|discriminate].
    rewrite (IH s' s (TrendOrder.insert_sorted_in_order _ _ _ Hs Hi) H).
    rewrite filter_app, (insert_sorted_stable y n x sorted s' Hs Hi).
    change (x :: rest) with ([x] ++ rest).
    rewrite !filter_app, <- app_assoc. reflexivity.
Qed.

(** X3: the sort is stable. When a call returns, the records of any one
    quarter (the same year and quarter number) stand in the caller's array
    in the order they had in the input. *)
Theorem call_keeps_order_within_quarter (insights : list QuarterlyInsights)
        (report : TrendAnalysis) (y n : Z) :
  completion insights = Ok report ->
  filter (has_key y n) (array_after insights) = filter (has_key y n) insights.
Proof.
  intros H. destruct (TrendOrder.call_returns_sorted _ _ H) as [Hs _].
  apply (sort_from_stable y n insights [] _ (SSorted_nil _) Hs).
Qed.

Lemma call_keeps_order_within_quarter_witness :
  exists report,
    completion [q2_2024; q1_2024; q2_2024_again] = Ok report
    /\ filter (has_key 2024 2) (array_after [q2_2024; q1_2024; q2_2024_again])
       = [q2_2024; q2_2024_again].
Proof.
  eexists. split; [reflexivity|].
  eapply (call_keeps_order_within_quarter [q2_2024; q1_2024; q2_2024_again]).
  reflexivity.
Defined.

(** *** Theme evolution *)

(** X4: for a quarter that follows another in the list given to
    [analyzeStrategicEvolution], the entry carries the label of the quarter
    and, as sets of theme names, the themes that are new against the
    quarter before as emerging, the themes that are gone as declining, and
    the themes in both as consistent. *)
Theorem theme_transition (insights : list QuarterlyInsights) (i : nat)
        (previous current : QuarterlyInsights) :
  nth_error insights i = Some previous ->
  nth_error insights (S i) = Some current ->
  exists e,
    nth_error (analyzeStrategicEvolution insights) (S i) = Some e
    /\ te_quarter e = quarter current
    /\ forall t,
        (In t (emergingThemes e) <->
           In t (themeNames current) /\ ~ In t (themeNames previous))
        /\ (In t (decliningThemes e) <->
              In t (themeNames previous) /\ ~ In t (themeNames current))
        /\ (In t (consistentThemes e) <->
              In t (themeNames current) /\ In t (themeNames previous)).
Proof.
  intros Hp Hc. exists (themeEvolution (Some previous) current).
  split; [|split].
  - unfold analyzeStrategicEvolution.
    rewrite (evolution_loop_nth insights None (S i) current Hc), Hp. reflexivity.
  - reflexivity.
  - intros t. apply themeEvolution_sets.
Qed.

Lemma theme_transition_witness :
  exists e,
    nth_error (analyzeStrategicEvolution [q1_2024; q2_2024]) 1 = Some e
    /\ te_quarter e = "Q2 2024"
    /\ forall t,
        (In t (emergingThemes e) <->
           In t ["AI"; "Data Center"] /\ ~ In t ["AI"; "Gaming"])
        /\ (In t (decliningThemes e) <->
              In t ["AI"; "Gaming"] /\ ~ In t ["AI"; "Data Center"])
        /\ (In t (consistentThemes e) <->
              In t ["AI"; "Data Center"] /\ In t ["AI"; "Gaming"]).
Proof.
  apply (theme_transition [q1_2024; q2_2024] 0 q1_2024 q2_2024); reflexivity.
Defined.

Lemma evolution_loop_entries (rest : list QuarterlyInsights)
      (previous : option QuarterlyInsights) (e : ThemeEvolution) :
  In e (evolution_loop previous rest) ->
  exists p current, In current rest /\ e = themeEvolution p current.
Proof.
  revert previous; induction rest as [|x rest IH]; intros previous H; simpl in H;
    [contradiction|].
  destruct H as [<-|H].
  - exists previous, x. split; [left; reflexivity|reflexivity].
  - destruct (IH _ H) as (p & c & Hc & ->). exists p, c.
    split; [right; exact Hc|reflexivity].
Qed.

Lemma NoDup_filter {A} (f : A -> bool) (l : list A) : NoDup l -> NoDup (filter f l).
Proof.
  induction 1 as [|x l Hx Hl IH]; simpl; [constructor|].
  destruct (f x); [|exact IH].
  constructor; [|exact IH]. rewrite filter_In. tauto.
Qed.

(** X5: in every entry that [analyzeStrategicEvolution] builds, no theme is
    listed twice in a list, no theme is both emerging and declining or both
    emerging and consistent, and the emerging and the consistent themes
    together are the themes of the quarter of the entry. *)
Theorem evolution_entry_partition (insights : list QuarterlyInsights)
        (e : ThemeEvolution) :
  In e (analyzeStrategicEvolution insights) ->
  NoDup (emergingThemes e) /\ NoDup (decliningThemes e)
  /\ NoDup (consistentThemes e)
  /\ (forall t, ~ (In t (emergingThemes e) /\ In t (decliningThemes e)))
  /\ (forall t, ~ (In t (emergingThemes e) /\ In t (consistentThemes e)))
  /\ exists current,
       In current insights /\ te_quarter e = quarter current
       /\ forall t, In t (themeNames current) <->
                    In t (emergingThemes e) \/ In t (consistentThemes e).
Proof.
  intros H. destruct (evolution_loop_entries _ _ _ H) as (p & c & Hc & ->).
  assert (Hdec : forall b, Set_has (Set_of (previousThemeNames p)) b = true
                           \/ Set_has (Set_of (previousThemeNames p)) b = false).
  { intros b. destruct (Set_has _ b); auto. }
  repeat split.
  - apply NoDup_filter, Set_of_NoDup.
  - destruct p; simpl; [apply NoDup_filter, Set_of_NoDup|constructor].
  - apply NoDup_filter, Set_of_NoDup.
  - intros t [He Hd]. destruct p as [p|]; simpl in *; [|contradiction].
    rewrite filter_In, negb_true_iff, Set_has_false, Set_of_In in He, Hd.
    rewrite Set_of_In in *. tauto.
  - intros t [He Hk]. simpl in *.
    rewrite filter_In in He, Hk. rewrite negb_true_iff in He.
    destruct He as [_ He], Hk as [_ Hk]. congruence.
  - exists c. split; [exact Hc|]. split; [reflexivity|].
    intros t. simpl. rewrite !filter_In, negb_true_iff, Set_of_In.
    destruct (Hdec t) as [E|E]; rewrite E; intuition congruence.
Qed.

Lemma evolution_entry_partition_witness :
  let e := {| te_quarter := "Q2 2024"; emergingThemes := ["Data Center"];
              decliningThemes := ["Gaming"]; consistentThemes := ["AI"] |} in
  In e (analyzeStrategicEvolution [q1_2024; q2_2024])
  /\ (NoDup (emergingThemes e) /\ NoDup (decliningThemes e)
      /\ NoDup (consistentThemes e)
      /\ (forall t, ~ (In t (emergingThemes e) /\ In t (decliningThemes e)))
      /\ (forall t, ~ (In t (emergingThemes e) /\ In t (consistentThemes e)))
      /\ exists current,
           In current [q1_2024; q2_2024] /\ te_quarter e = quarter current
           /\ forall t, In t (themeNames current) <->
                        In t (emergingThemes e) \/ In t (consistentThemes e)).
Proof.
  cbv zeta. split; [right; left; reflexivity|].
  apply (evolution_entry_partition [q1_2024; q2_2024]).
  right. left. reflexivity.
Defined.

End TrendThemes.

Module TrendSummaryFacts.
Import TrendAnalyzer TrendSpec TrendVocabulary.

(** *** The most common theme *)

Lemma count_in_count_theme (k t : string) (f : list (string * nat)) :
  count_in k (count_theme t f)
  = (count_in k f + if String.eqb k t then 1 else 0)%nat.
Proof.
  induction f as [|[k' n] f IH]; simpl.
  - destruct (String.eqb k t); reflexivity.
  - destruct (String.eqb_spec t k') as [->|Ht]; simpl.
    + destruct (String.eqb_spec k k'); lia.
    + destruct (String.eqb_spec k k') as [->|Hk].
      * destruct (String.eqb_spec k' t); [congruence|lia].
      * exact IH.
Qed.

Lemma keys_count_theme (k t : string) (f : list (string * nat)) :
  In k (map fst (count_theme t f)) <-> k = t \/ In k (map fst f).
Proof.
  induction f as [|[k' n] f IH]; simpl.
  - intuition.
  - destruct (String.eqb_spec t k') as [->|Ht]; simpl; [intuition|].
    rewrite IH. intuition.
Qed.

Lemma NoDup_count_theme (t : string) (f : list (string * nat)) :
  NoDup (map fst f) -> NoDup (map fst (count_theme t f)).
Proof.
  induction f as [|[k' n] f IH]; simpl; intros H.
  - constructor; [intros []|constructor].
  - apply NoDup_cons_iff in H as [Hk Hf].
    destruct (String.eqb_spec t k') as [->|Ht]; simpl.
    + constructor; assumption.
    + constructor; [|apply IH, Hf].
      rewrite keys_count_theme. intros [E|E]; [congruence|contradiction].
Qed.

Lemma frequency_fold (themes : list string) (f : list (string * nat)) :
  NoDup (map fst f) ->
  let f' := fold_left (fun frequency theme => count_theme theme frequency) themes f in
  NoDup (map fst f')
  /\ (forall k, count_in k f' = (count_in k f + occurrences themes k)%nat)
  /\ (forall k, In k (map fst f') <-> In k (map fst f) \/ In k themes).
Proof.
  revert f; induction themes as [|x themes IH]; intros f Hf; simpl.
  - repeat split; intros; try lia; try assumption; tauto.
  - destruct (IH (count_theme x f) (NoDup_count_theme x f Hf)) as (H1 & H2 & H3).
    repeat split.
    + exact H1.
    + intros k. rewrite H2, count_in_count_theme. unfold occurrences. simpl.
      destruct (string_dec x k) as [->|Hne].
      * rewrite String.eqb_refl. lia.
      * destruct (String.eqb_spec k x); [congruence|lia].
    + intros H. apply H3 in H. rewrite keys_count_theme in H. intuition.
    + intros H. apply H3. rewrite keys_count_theme. intuition.
Qed.

Lemma count_in_entry (k : string) (n : nat) (f : list (string * nat)) :
  NoDup (map fst f) -> In (k, n) f -> count_in k f = n.
Proof.
  induction f as [|[k' n'] f IH]; simpl; intros Hf H; [contradiction|].
  apply NoDup_cons_iff in Hf as [Hk Hf].
  destruct H as [H|H].
  - injection H as -> ->. rewrite String.eqb_refl. reflexivity.
  - destruct (String.eqb_spec k k') as [->|Hne]; [|apply IH; assumption].
    exfalso. apply Hk. apply (in_map fst) in H. exact H.
Qed.

Lemma entry_of_key (k : string) (f : list (string * nat)) :
  In k (map fst f) -> In (k, count_in k f) f.
Proof.
  induction f as [|[k' n'] f IH]; simpl; intros H; [contradiction|].
  destruct (String.eqb_spec k k') as [->|Hne]; [left; reflexivity|].
  right. apply IH. destruct H as [H|H]; [congruence|exact H].
Qed.

Lemma most_frequent_max (entries : list (string * nat)) (best : string * nat) :
  In (most_frequent best entries) (best :: entries)
  /\ forall e, In e (best :: entries) ->
               (snd e <= snd (most_frequent best entries))%nat.
Proof.
  revert best; induction entries as [|x entries IH]; intros best; simpl.
  - split; [left; reflexivity|]. intros e [<-|[]]. lia.
  - destruct (IH (if (snd best <? snd x)%nat then x else best)) as [Hin Hmax].
    split.
    + destruct Hin as [Hin|Hin]; [|right; right; exact Hin].
      rewrite <- Hin. destruct (snd best <? snd x)%nat; auto.
    + intros e He.
      assert (Hb : (snd (if (snd best <? snd x)%nat then x else best)
                    <= snd (most_frequent (if (snd best <? snd x)%nat then x else best)
                                          entries))%nat).
      { apply Hmax. left. reflexivity. }
      destruct He as [<-|[<-|He]].
      * destruct (Nat.ltb_spec (snd best) (snd x)); lia.
      * destruct (Nat.ltb_spec (snd best) (snd x)); lia.
      * apply Hmax. right. exact He.
Qed.

Lemma insert_index_Permutation (i : Z) (e : string * nat)
      (sorted : list (Z * (string * nat))) :
  Permutation (map snd (insert_index i e sorted)) (e :: map snd sorted).
Proof.
  induction sorted as [|[j f] rest IH]; cbn [insert_index map snd].
  - apply Permutation_refl.
  - destruct (i <? j)%Z; cbn [map snd]; [apply Permutation_refl|].
    eapply perm_trans; [apply perm_skip, IH|apply perm_swap].
Qed.

(** [Object.entries] lists every entry of the table once. *)
Lemma Object_entries_Permutation (frequency : list (string * nat)) :
  Permutation (Object_entries frequency) frequency.
Proof.
  unfold Object_entries.
  induction frequency as [|e frequency IH]; [apply Permutation_refl|].
  cbn [index_entries named_entries filter].
  fold (named_entries frequency).
  destruct (array_index (fst e)) as [i|].
  - eapply perm_trans;
      [apply Permutation_app_tail, insert_index_Permutation|].
    cbn [app]. apply perm_skip, IH.
  - eapply perm_trans; [apply Permutation_sym, Permutation_middle|].
    apply perm_skip, IH.
Qed.

(** An array index is listed before every key that was created before it
    and is none: the order of creation does not decide alone. *)
Example index_keys_come_first :
  getMostCommonTheme ["AI"; "5G"; "2024"] = Some "2024"%string
  /\ getMostCommonTheme ["AI"; "5G"; "2024"; "5G"] = Some "5G"%string.
Proof. split; reflexivity. Qed.

Lemma most_common_theme_spec (themes : list string) :
  (getMostCommonTheme themes = None <-> themes = [])
  /\ forall t, getMostCommonTheme themes = Some t ->
               In t themes
               /\ forall u, (occurrences themes u <= occurrences themes t)%nat.
Proof.
  unfold getMostCommonTheme.
  destruct (frequency_fold themes [] (NoDup_nil _)) as (Hnd & Hcount & Hkeys).
  simpl in Hcount, Hkeys.
  pose proof (Object_entries_Permutation
                (fold_left (fun frequency theme => count_theme theme frequency)
                           themes [])) as P.
  set (table := fold_left (fun frequency theme => count_theme theme frequency)
                          themes []) in *.
  destruct (Object_entries table) as [|e entries] eqn:E.
  - apply Permutation_nil in P.
    split.
    + split; [intros _|reflexivity].
      destruct themes as [|x themes]; [reflexivity|].
      exfalso. assert (Hx : In x (map fst table)).
      { apply Hkeys. right. left. reflexivity. }
      rewrite P in Hx. exact Hx.
    + discriminate.
  - split.
    { split; [discriminate|]. intros ->. subst table. simpl in P.
      apply Permutation_sym, Permutation_nil in P. discriminate P. }
    intros t Ht. injection Ht as <-.
    destruct (most_frequent_max entries e) as [Hin Hmax].
    destruct (most_frequent e entries) as [t n] eqn:Er. simpl.
    apply (Permutation_in _ P) in Hin.
    pose proof (count_in_entry t n _ Hnd Hin) as Hn.
    rewrite Hcount in Hn.
    split.
    + apply (in_map fst) in Hin. apply Hkeys in Hin.
      destruct Hin as [[]|Hin]. exact Hin.
    + intros u. destruct (in_dec string_dec u themes) as [Hu|Hu].
      * assert (Hk : In u (map fst table)) by (apply Hkeys; right; exact Hu).
        apply entry_of_key in Hk.
        apply (Permutation_in _ (Permutation_sym P)), Hmax in Hk.
        rewrite Hcount in Hk. simpl in Hk. lia.
      * unfold occurrences. rewrite (proj1 (count_occ_not_In string_dec themes u) Hu). lia.
Qed.

Lemma most_frequent_first (entries : list (string * nat)) (best : string * nat) :
  exists l1 l2,
    best :: entries = l1 ++ most_frequent best entries :: l2
    /\ forall x, In x l1 -> (snd x < snd (most_frequent best entries))%nat.
Proof.
  revert best; induction entries as [|x entries IH]; intros best.
  - exists [], []. split; [reflexivity|intros x []].
  - cbn [most_frequent].
    destruct (most_frequent_max entries (if (snd best <? snd x)%nat then x else best))
      as [_ Hmax].
    destruct (IH (if (snd best <? snd x)%nat then x else best))
      as (l1 & l2 & E & Hl).
    destruct (Nat.ltb_spec (snd best) (snd x)) as [Hlt|Hge].
    + exists (best :: l1), l2. split; [cbn [app]; rewrite <- E; reflexivity|].
      intros y [<-|Hy]; [|apply Hl, Hy].
      specialize (Hmax x (or_introl eq_refl)). lia.
    + destruct l1 as [|b l1].
      * cbn [app] in E. injection E as Eb El.
        exists [], (x :: entries). split; [cbn [app]; rewrite <- Eb; reflexivity|].
        intros y [].
      * cbn [app] in E. injection E as Eb El. subst b.
        exists (best :: x :: l1), l2.
        split; [cbn [app]; do 2 f_equal; exact El|].
        pose proof (Hl best (or_introl eq_refl)) as Hb.
        intros y [<-|[<-|Hy]]; [exact Hb|lia|apply Hl; right; exact Hy].
Qed.

Lemma insert_index_keys (i : Z) (e : string * nat)
      (sorted : list (Z * (string * nat))) :
  array_index (fst e) <> None ->
  Forall (fun x => array_index (fst (snd x)) <> None) sorted ->
  Forall (fun x => array_index (fst (snd x)) <> None) (insert_index i e sorted).
Proof.
  intros He. induction sorted as [|[j f] rest IH]; cbn [insert_index]; intros H.
  - constructor; [exact He|constructor].
  - destruct (i <? j)%Z.
    + constructor; [exact He|exact H].
    + apply Forall_cons_iff in H as [Hf Hrest].
      constructor; [exact Hf|apply IH, Hrest].
Qed.

Lemma index_entries_keys (frequency : list (string * nat)) :
  Forall (fun x => array_index (fst (snd x)) <> None) (index_entries frequency).
Proof.
  induction frequency as [|e frequency IH]; cbn [index_entries]; [constructor|].
  destruct (array_index (fst e)) eqn:E; [|exact IH].
  apply insert_index_keys; [congruence|exact IH].
Qed.

(** An entry whose key is an array index is listed before every entry
    whose key is none. *)
Lemma Object_entries_order (frequency l1 l2 : list (string * nat))
      (e x : string * nat) :
  Object_entries frequency = l1 ++ e :: l2 ->
  array_index (fst e) = None -> In x frequency ->
  array_index (fst x) <> None -> In x l1.
Proof.
  unfold Object_entries. intros E He Hx Hax.
  assert (Hin : In x (map snd (index_entries frequency))).
  { pose proof (Object_entries_Permutation frequency) as P.
    apply (Permutation_in _ (Permutation_sym P)) in Hx.
    unfold Object_entries in Hx. apply in_app_or in Hx as [Hx|Hx]; [exact Hx|].
    unfold named_entries in Hx. apply filter_In in Hx as [_ Hx].
    destruct (array_index (fst x)); [discriminate|congruence]. }
  assert (HA : forall y, In y (map snd (index_entries frequency)) ->
                         array_index (fst y) <> None).
  { intros y Hy. apply in_map_iff in Hy as (z & <- & Hz).
    pose proof (index_entries_keys frequency) as F.
    rewrite Forall_forall in F. apply F, Hz. }
  apply app_eq_app in E as [l [[E1 E2]|[E1 E2]]].
  - destruct l as [|y l].
    + rewrite app_nil_r in E1. rewrite <- E1. exact Hin.
    + cbn [app] in E2. injection E2 as <- _.
      exfalso. apply (HA e); [|exact He].
      rewrite E1. apply in_or_app. right. left. reflexivity.
  - rewrite E1. apply in_or_app. left. exact Hin.
Qed.

Lemma index_keys_win_ties (themes : list string) (t u : string) :
  getMostCommonTheme themes = Some t ->
  array_index t = None -> In u themes -> array_index u <> None ->
  (occurrences themes u < occurrences themes t)%nat.
Proof.
  unfold getMostCommonTheme.
  destruct (frequency_fold themes [] (NoDup_nil _)) as (Hnd & Hcount & Hkeys).
  simpl in Hcount, Hkeys.
  set (table := fold_left (fun frequency theme => count_theme theme frequency)
                          themes []) in *.
  destruct (Object_entries table) as [|e entries] eqn:E; [discriminate|].
  intros Ht Hat Hu Hau. injection Ht as Ht.
  destruct (most_frequent_first entries e) as (l1 & l2 & El & Hl).
  pose proof (Object_entries_Permutation table) as P. rewrite E in P.
  assert (Hr : In (most_frequent e entries) table).
  { apply (Permutation_in _ P). rewrite El. apply in_or_app. right. left. reflexivity. }
  destruct (most_frequent e entries) as [t' n] eqn:Er. cbn [fst] in Ht. subst t'.
  pose proof (count_in_entry t n _ Hnd Hr) as Hn. rewrite Hcount in Hn.
  assert (Hk : In (u, count_in u table) table).
  { apply entry_of_key, Hkeys. right. exact Hu. }
  rewrite El in E.
  pose proof (Object_entries_order table l1 l2 (t, n) (u, count_in u table) E Hat Hk Hau)
    as H1.
  apply Hl in H1. cbn [snd] in H1. rewrite Hcount in H1. simpl in *. lia.
Qed.

(** X6: for themes that are not names of inherited members of the
    frequency object, [getMostCommonTheme] returns nothing for the empty
    list only, and otherwise a theme of the list that no theme of the list
    outnumbers; a theme whose name is no array index is returned only if
    it outnumbers every theme whose name is one, since [Object.entries]
    lists those first. *)
Theorem getMostCommonTheme_most_frequent (themes : list string) :
  forallb Domain.own_key themes = true ->
  (getMostCommonTheme themes = None <-> themes = [])
  /\ forall t, getMostCommonTheme themes = Some t ->
               In t themes
               /\ (forall u, (occurrences themes u <= occurrences themes t)%nat)
               /\ (array_index t = None ->
                   forall u, In u themes -> array_index u <> None ->
                             (occurrences themes u < occurrences themes t)%nat).
Proof.
  intros _. destruct (most_common_theme_spec themes) as [Hnone Hsome].
  split; [exact Hnone|]. intros t Ht. destruct (Hsome t Ht) as [Hin Hmax].
  split; [exact Hin|]. split; [exact Hmax|].
  intros Hat u Hu Hau. exact (index_keys_win_ties themes t u Ht Hat Hu Hau).
Qed.

Lemma getMostCommonTheme_most_frequent_witness :
  getMostCommonTheme ["AI"; "2024"; "Gaming"; "Gaming"; "AI"; "Gaming"]
  = Some "Gaming"%string
  /\ (forall u, (occurrences ["AI"; "2024"; "Gaming"; "Gaming"; "AI"; "Gaming"] u
                 <= occurrences ["AI"; "2024"; "Gaming"; "Gaming"; "AI"; "Gaming"]
                                "Gaming")%nat)
  /\ (occurrences ["AI"; "2024"; "Gaming"; "Gaming"; "AI"; "Gaming"] "2024"
       < occurrences ["AI"; "2024"; "Gaming"; "Gaming"; "AI"; "Gaming"] "Gaming")%nat.
Proof.
  split; [reflexivity|].
  destruct (getMostCommonTheme_most_frequent
              ["AI"; "2024"; "Gaming"; "Gaming"; "AI"; "Gaming"] eq_refl) as [_ H].
  destruct (H "Gaming"%string eq_refl) as (_ & Hmax & Hidx).
  split; [exact Hmax|].
  apply Hidx; [reflexivity|right; left; reflexivity|discriminate].
Defined.

(** X7: the strategic shift of a summary is the fixed sentence when no
    theme emerged in any quarter, and otherwise either that sentence or an
    emerging theme that no emerging theme outnumbers, counted over the
    emerging lists of all quarters (themes that are not names of inherited
    members of the frequency object). *)
Theorem strategicShift_most_frequent (sentimentTrend : SentimentTrend)
        (evolution : list ThemeEvolution) :
  forallb Domain.own_key (flat_map emergingThemes evolution) = true ->
  let all := flat_map emergingThemes evolution in
  let shift := strategicShift (generateTrendSummary sentimentTrend evolution) in
  (all = [] -> shift = no_shift)
  /\ (shift <> no_shift ->
      In shift all
      /\ forall u, (occurrences all u <= occurrences all shift)%nat).
Proof.
  intros _. cbv zeta. unfold generateTrendSummary. simpl strategicShift.
  destruct (most_common_theme_spec (flat_map emergingThemes evolution))
    as [Hnone Hsome].
  destruct (getMostCommonTheme (flat_map emergingThemes evolution)) as [t|] eqn:E.
  - split.
    + intros Hall. apply Hnone in Hall. discriminate.
    + destruct (truthy_string t); [|intros H; exfalso; apply H; reflexivity].
      intros _. apply Hsome. reflexivity.
  - split; [reflexivity|]. intros H. exfalso. apply H. reflexivity.
Qed.

Lemma strategicShift_most_frequent_witness :
  strategicShift
    (generateTrendSummary (analyzeSentimentTrends [q1_2024; q2_2024])
                          (analyzeStrategicEvolution [q1_2024; q2_2024]))
  = "AI"%string
  /\ In "AI"%string
        (flat_map emergingThemes (analyzeStrategicEvolution [q1_2024; q2_2024])).
Proof.
  split; [reflexivity|].
  destruct (strategicShift_most_frequent
              (analyzeSentimentTrends [q1_2024; q2_2024])
              (analyzeStrategicEvolution [q1_2024; q2_2024]) eq_refl) as [_ H].
  apply H. discriminate.
Defined.

(** *** Key changes *)

(** X8: the key changes of a summary are never empty. They hold the
    sentence on improved (declined) management sentiment exactly when the
    management trend of the summary is improving (declining), likewise for
    Q&A, and the sentence on no significant change exactly when both trends
    are stable and no theme emerged (themes that are not names of inherited
    members of the frequency object, so that the summary is built). *)
Theorem keyChanges_reflect_summary (sentimentTrend : SentimentTrend)
        (evolution : list ThemeEvolution) :
  forallb Domain.own_key (flat_map emergingThemes evolution) = true ->
  let summary := generateTrendSummary sentimentTrend evolution in
  keyChanges summary <> []
  /\ (In "Management sentiment has improved over time" (keyChanges summary)
       <-> managementTrend summary = improving)
  /\ (In "Management sentiment has declined over time" (keyChanges summary)
       <-> managementTrend summary = declining)
  /\ (In "Q&A sentiment has become more positive" (keyChanges summary)
       <-> qaTrend summary = improving)
  /\ (In "Q&A sentiment has become more negative" (keyChanges summary)
       <-> qaTrend summary = declining)
  /\ (In "No significant changes detected across quarters" (keyChanges summary)
       <-> managementTrend summary = stable /\ qaTrend summary = stable
           /\ flat_map emergingThemes evolution = []).
Proof.
  intros _. cbv zeta. unfold generateTrendSummary, identifyKeyChanges.
  cbn [keyChanges managementTrend qaTrend].
  destruct (calculateOverallTrend (management sentimentTrend));
    destruct (calculateOverallTrend (qa sentimentTrend));
    destruct (flat_map emergingThemes evolution) as [|t all];
    cbn -[join firstn];
    repeat split; intros; try discriminate; try congruence;
    repeat match goal with
           | H : _ \/ _ |- _ => destruct H
           | H : _ /\ _ |- _ => destruct H
           | H : False |- _ => destruct H
           end;
    try discriminate; try congruence; auto.
Qed.

Lemma keyChanges_reflect_summary_witness :
  managementTrend
    (generateTrendSummary (analyzeSentimentTrends [q1_2024; q2_2024])
                          (analyzeStrategicEvolution [q1_2024; q2_2024]))
  = improving
  /\ In "Management sentiment has improved over time"%string
        (keyChanges
           (generateTrendSummary (analyzeSentimentTrends [q1_2024; q2_2024])
                                 (analyzeStrategicEvolution [q1_2024; q2_2024]))).
Proof.
  split; [reflexivity|].
  destruct (keyChanges_reflect_summary
              (analyzeSentimentTrends [q1_2024; q2_2024])
              (analyzeStrategicEvolution [q1_2024; q2_2024]) eq_refl)
    as (_ & H & _).
  apply H. reflexivity.
Defined.

End TrendSummaryFacts.

(** ** The transcript collector: further properties *)

Module CollectorFacts.
Import Utils Transcript TranscriptCollector CollectorSpec CollectorVocabulary.
Import CollectorProperties.

Lemma candidates_closed_form
        (searchSeekingAlpha searchYahooFinance : Z -> list Candidate.UrlInfo)
        (n : Z) :
  (0 <= n)%Z ->
  findNvidiaTranscriptUrls searchSeekingAlpha searchYahooFinance n
  = firstn (Z.to_nat n) (searchSeekingAlpha n ++ searchYahooFinance n).
Proof.
  intros Hn. unfold findNvidiaTranscriptUrls, search_loop, searchMotleyFool.
  cbn [app].
  destruct (Z.leb_spec n (Z.of_nat (length (searchSeekingAlpha n)))) as [H1|H1].
  - rewrite (slice0_nonneg _ _ Hn), firstn_app.
    replace (Z.to_nat n - length (searchSeekingAlpha n))%nat with 0%nat by lia.
    rewrite app_nil_r. reflexivity.
  - rewrite ?app_nil_r.
    repeat match goal with
           | |- context [if ?c then _ else _] => destruct c
           end; apply slice0_nonneg, Hn.
Qed.

(** X9: for a count [n >= 0], the candidates are the first [n] of those
    that Seeking Alpha returned followed by those that Yahoo Finance
    returned: sources are taken in this order and the list is cut at [n]. *)
Theorem candidates_by_priority
        (searchSeekingAlpha searchYahooFinance : Z -> list Candidate.UrlInfo)
        (n : Z) :
  (0 <= n)%Z ->
  findNvidiaTranscriptUrls searchSeekingAlpha searchYahooFinance n
  = firstn (Z.to_nat n) (searchSeekingAlpha n ++ searchYahooFinance n).
Proof. exact (candidates_closed_form searchSeekingAlpha searchYahooFinance n). Qed.

Lemma candidates_by_priority_witness :
  findNvidiaTranscriptUrls seeking_alpha_finds yahoo_finds 3
  = [ candidate "Seeking Alpha" "a" "Q4 2024";
      candidate "Seeking Alpha" "b" "Q3 2024";
      candidate "Yahoo Finance" "c" "Q4 2024" ].
Proof.
  apply (candidates_by_priority seeking_alpha_finds yahoo_finds 3). lia.
Defined.

Lemma scrapeAll_length (scrapeTranscript : Candidate.UrlInfo -> option EarningsTranscript)
      (transcriptUrls : list Candidate.UrlInfo) :
  (length (scrapeAll scrapeTranscript transcriptUrls) <= length transcriptUrls)%nat.
Proof.
  induction transcriptUrls as [|u l IH]; simpl; [lia|].
  rewrite length_app. destruct (scrapeTranscript u); simpl; lia.
Qed.

Lemma scrapeAll_In (scrapeTranscript : Candidate.UrlInfo -> option EarningsTranscript)
      (transcriptUrls : list Candidate.UrlInfo) (d : EarningsTranscript) :
  In d (scrapeAll scrapeTranscript transcriptUrls) <->
  exists u, In u transcriptUrls /\ scrapeTranscript u = Some d.
Proof.
  unfold scrapeAll. rewrite in_flat_map. split.
  - intros (u & Hu & Hd). exists u. split; [exact Hu|].
    destruct (scrapeTranscript u); [|contradiction].
    destruct Hd as [->|[]]. reflexivity.
  - intros (u & Hu & Hd). exists u. split; [exact Hu|].
    rewrite Hd. left. reflexivity.
Qed.

Lemma collection_facts (now : string) (localDate : Z -> Z -> Z -> string)
        (searchSeekingAlpha searchYahooFinance : Z -> list Candidate.UrlInfo)
        (scrapeTranscript : Candidate.UrlInfo -> option EarningsTranscript)
        (n : Z) :
  (1 <= n)%Z ->
  let documents :=
    collectNvidiaTranscripts now localDate searchSeekingAlpha
                             searchYahooFinance scrapeTranscript n in
  documents <> []
  /\ (Z.of_nat (length documents) <= n)%Z
  /\ (documents = generateRealisticSampleData now localDate n
      \/ forall d, In d documents ->
                   exists u,
                     In u (findNvidiaTranscriptUrls searchSeekingAlpha
                                                    searchYahooFinance n)
                     /\ scrapeTranscript u = Some d).
Proof.
  intros Hn documents.
  assert (Hsyn : Z.of_nat (length (generateRealisticSampleData now localDate n))
                 = Z.min n 4) by (apply generateRealisticSampleData_length; lia).
  assert (Hcap : (Z.of_nat (length (findNvidiaTranscriptUrls searchSeekingAlpha
                                      searchYahooFinance n)) <= n)%Z).
  { rewrite candidates_closed_form by lia. rewrite length_firstn. lia. }
  subst documents. unfold collectNvidiaTranscripts, tryAlternativeSources.
  destruct (length (findNvidiaTranscriptUrls _ _ n) =? 0)%nat.
  - repeat split; [|lia|left; reflexivity].
    intros E. rewrite E in Hsyn. simpl in Hsyn. lia.
  - destruct (Nat.eqb_spec
                (length (scrapeAll scrapeTranscript
                           (findNvidiaTranscriptUrls searchSeekingAlpha
                                                     searchYahooFinance n))) 0)
      as [E|E].
    + repeat split; [|lia|left; reflexivity].
      intros E'. rewrite E' in Hsyn. simpl in Hsyn. lia.
    + repeat split.
      * intros E'. rewrite E' in E. apply E. reflexivity.
      * pose proof (scrapeAll_length scrapeTranscript
                      (findNvidiaTranscriptUrls searchSeekingAlpha
                                                searchYahooFinance n)). lia.
      * right. intros d Hd. apply scrapeAll_In, Hd.
Qed.

(** X10: a call for [n >= 1] quarters never returns an empty list and never
    more than [n] documents, and it never mixes sources: either all
    documents are the synthetic ones, or each one was scraped from one of
    the candidates found. *)
Theorem collection_is_never_empty (now : string) (localDate : Z -> Z -> Z -> string)
        (searchSeekingAlpha searchYahooFinance : Z -> list Candidate.UrlInfo)
        (scrapeTranscript : Candidate.UrlInfo -> option EarningsTranscript)
        (n : Z) :
  (1 <= n)%Z ->
  let documents :=
    collectNvidiaTranscripts now localDate searchSeekingAlpha
                             searchYahooFinance scrapeTranscript n in
  documents <> []
  /\ (Z.of_nat (length documents) <= n)%Z
  /\ (documents = generateRealisticSampleData now localDate n
      \/ forall d, In d documents ->
                   exists u,
                     In u (findNvidiaTranscriptUrls searchSeekingAlpha
                                                    searchYahooFinance n)
                     /\ scrapeTranscript u = Some d).
Proof.
  exact (collection_facts now localDate searchSeekingAlpha searchYahooFinance
                          scrapeTranscript n).
Qed.

Lemma collection_is_never_empty_witness :
  let documents :=
    collectNvidiaTranscripts clock utc seeking_alpha_finds yahoo_finds
                             scrapes_yahoo 3 in
  map quarter documents = ["Q4 2024"]
  /\ (documents <> []
      /\ (Z.of_nat (length documents) <= 3)%Z
      /\ (documents = generateRealisticSampleData clock utc 3
          \/ forall d, In d documents ->
                       exists u,
                         In u (findNvidiaTranscriptUrls seeking_alpha_finds
                                                        yahoo_finds 3)
                         /\ scrapes_yahoo u = Some d)).
Proof.
  cbv zeta. split; [reflexivity|].
  apply (collection_is_never_empty clock utc seeking_alpha_finds yahoo_finds
                                   scrapes_yahoo 3). lia.
Defined.

(** The scenarios that a count selects are the first ones of the table. *)
Lemma slice0_scenarios (count : Z) :
  exists k, slice0 scenarios count = firstn k scenarios.
Proof. unfold slice0. eexists. reflexivity. Qed.

Lemma synthetic_document_facts (now : string) (localDate : Z -> Z -> Z -> string)
        (count : Z) :
  let documents := generateRealisticSampleData now localDate count in
  NoDup (map quarter documents) /\ NoDup (map id documents)
  /\ forall d, In d documents ->
       In (quarter d) scenario_quarters
       /\ TrendSpec.well_formed (quarter d) = true
       /\ url d = (synthetic_url_prefix
                   ++ replace_first_space (toLowerCase (quarter d)))%string
       /\ id d = ("nvda_" ++ sanitizeFileName (quarter d) ++ "_"
                  ++ before_T now)%string
       /\ company d = "NVIDIA" /\ fiscalYear d = 2024%Z
       /\ fullTranscript d
          = (managementRemarks d ++ nl ++ nl ++ qaSection d)%string.
Proof.
  cbv zeta. unfold generateRealisticSampleData.
  destruct (slice0_scenarios count) as [k ->].
  destruct k as [|[|[|[|k]]]]; cbn [firstn scenarios]; rewrite ?firstn_nil;
    cbn [map_index map id quarter s_quarter];
    (split;
     [ repeat constructor; cbn [In]; intuition discriminate
     | split;
       [ repeat constructor; cbn [In]; unfold generateTranscriptId; intros H;
         repeat destruct H as [H|H]; try contradiction;
         vm_compute in H; discriminate H
       | intros d Hd; cbn [In] in Hd;
         repeat destruct Hd as [Hd|Hd]; try contradiction; subst d;
         cbn [quarter url id company fiscalYear fullTranscript managementRemarks
              qaSection s_quarter];
         (repeat split; try reflexivity); cbn [scenario_quarters In]; tauto ] ]).
Qed.

(** X11: every synthetic document, for every count, clock and time zone,
    has one of the four quarter labels of the table, which
    [TrendAnalyzer.parseQuarter] accepts, an address under the investor
    relations prefix that ends with the label in lower case with a dash, the
    company NVIDIA, the fiscal year 2024, and as full transcript its
    management remarks and its Q&A section with an empty line between; and
    no two documents of one call share a quarter or an identifier. *)
Theorem synthetic_documents (now : string) (localDate : Z -> Z -> Z -> string)
        (count : Z) :
  let documents := generateRealisticSampleData now localDate count in
  NoDup (map quarter documents) /\ NoDup (map id documents)
  /\ forall d, In d documents ->
       In (quarter d) scenario_quarters
       /\ TrendSpec.well_formed (quarter d) = true
       /\ url d = (synthetic_url_prefix
                   ++ replace_first_space (toLowerCase (quarter d)))%string
       /\ id d = ("nvda_" ++ sanitizeFileName (quarter d) ++ "_"
                  ++ before_T now)%string
       /\ company d = "NVIDIA" /\ fiscalYear d = 2024%Z
       /\ fullTranscript d
          = (managementRemarks d ++ nl ++ nl ++ qaSection d)%string.
Proof. exact (synthetic_document_facts now localDate count). Qed.

End CollectorFacts.

(** ** The analysis engine: further properties *)

Module EngineFacts.
Import AnalysisEngine AnalysisBatch EngineSpec EngineVocabulary EngineProperties.

Lemma analyzeTranscript_identity (create : Request -> Completion) (now : string)
      (t : Transcript.EarningsTranscript) :
  exists insights,
    analyzeTranscript create now t = Ok insights
    /\ transcriptId insights = Transcript.id t
    /\ quarter insights = Transcript.quarter t
    /\ generatedAt insights = now
    /\ keyMetrics insights = extractKeyMetrics (Transcript.fullTranscript t).
Proof.
  unfold analyzeTranscript.
  rewrite analyzeMgmtSentiment_value, analyzeQASentiment_value,
    extractStrategicFocus_value.
  eexists. split; [reflexivity|]. repeat split.
Qed.

(** X12: the batch returns one record for every transcript, in the order of
    the transcripts, each with the identifier and the quarter of its
    transcript: no transcript is skipped, whatever the service does. *)
Theorem batch_covers_every_transcript (create : Request -> Completion)
        (clock : nat -> string)
        (transcripts : list Transcript.EarningsTranscript) :
  map transcriptId (analyzeMultipleTranscripts create clock transcripts)
  = map Transcript.id transcripts
  /\ map quarter (analyzeMultipleTranscripts create clock transcripts)
     = map Transcript.quarter transcripts.
Proof.
  unfold analyzeMultipleTranscripts. generalize 0%nat.
  induction transcripts as [|t rest IH]; intros k; simpl; [split; reflexivity|].
  destruct (analyzeTranscript_identity create (clock k) t)
    as (insights & -> & Hid & Hq & _).
  simpl. destruct (IH (S k)) as [-> ->]. rewrite Hid, Hq. split; reflexivity.
Qed.

(** X13: when the reply to each request is either unusable or of the shape
    the prompt asks for, the record has that shape: both sentiments are
    [SentimentAnalysis] objects and the strategic focuses are a list of
    [StrategicFocus] objects. The defaults have the shape too. *)
Theorem record_in_shape (create : Request -> Completion) (now : string)
        (t : Transcript.EarningsTranscript) :
  sentiment_reply_in_shape (create (managementRequest t)) ->
  sentiment_reply_in_shape (create (qaRequest t)) ->
  themes_reply_in_shape (create (focusRequest t)) ->
  exists insights,
    analyzeTranscript create now t = Ok insights
    /\ is_SentimentAnalysis (managementSentiment insights) = true
    /\ is_SentimentAnalysis (qaSentiment insights) = true
    /\ is_StrategicFocusList (strategicFocuses insights) = true.
Proof.
  intros Hm Hq Hf. unfold analyzeTranscript.
  rewrite analyzeMgmtSentiment_value, analyzeQASentiment_value,
    extractStrategicFocus_value.
  fold (managementRequest t) (qaRequest t) (focusRequest t).
  eexists. split; [reflexivity|].
  cbn [managementSentiment qaSentiment strategicFocuses]. repeat split.
  - destruct (create (managementRequest t)); try reflexivity. exact Hm.
  - destruct (create (qaRequest t)); try reflexivity. exact Hq.
  - destruct (create (focusRequest t)) as [| |v]; try reflexivity.
    destruct v as [|b|x|s|items|members]; try reflexivity; try discriminate Hf.
    simpl in Hf. unfold member_is in Hf. simpl.
    destruct (lookup "themes" members) as [v|]; [|discriminate Hf].
    destruct v; try discriminate Hf. exact Hf.
Qed.

Lemma record_in_shape_witness :
  exists insights,
    analyzeTranscript answers_sentiment_only "2024-12-15T09:30:00.000Z"
                      sample_transcript = Ok insights
    /\ is_SentimentAnalysis (managementSentiment insights) = true
    /\ is_SentimentAnalysis (qaSentiment insights) = true
    /\ is_StrategicFocusList (strategicFocuses insights) = true.
Proof.
  apply (record_in_shape answers_sentiment_only "2024-12-15T09:30:00.000Z"
                         sample_transcript); exact I || reflexivity.
Defined.

(** *** Key metrics *)

Lemma starts_with_ci_spec (word s m rest : string) :
  starts_with_ci word s = Some (m, rest) ->
  s = (m ++ rest)%string /\ Utils.toLowerCase m = Utils.toLowerCase word.
Proof.
  revert s m rest; induction word as [|w word IH]; intros s m rest H; simpl in H.
  - injection H as <- <-. split; reflexivity.
  - destruct s as [|c r]; [discriminate|].
    destruct (Ascii.eqb_spec (Utils.lower_char w) (Utils.lower_char c)) as [E|E];
      [|discriminate].
    destruct (starts_with_ci word r) as [[m' rest']|] eqn:Hr; [|discriminate].
    injection H as <- <-. destruct (IH _ _ _ Hr) as [-> Hl].
    split; [reflexivity|]. simpl. rewrite Hl, E. reflexivity.
Qed.

Lemma amount_run_spec (s a b : string) :
  amount_run s = (a, b) ->
  s = (a ++ b)%string
  /\ all_chars (fun c => Utils.is_digit c || Ascii.eqb c "."%char) a = true.
Proof.
  revert a b; induction s as [|c r IH]; intros a b H; simpl in H.
  - injection H as <- <-. split; reflexivity.
  - destruct (Utils.is_digit c || Ascii.eqb c "."%char) eqn:Hc.
    + destruct (amount_run r) as [a' b'] eqn:Hr. injection H as <- <-.
      destruct (IH _ _ eq_refl) as [-> Ha].
      split; [reflexivity|]. simpl. rewrite Hc, Ha. reflexivity.
    + injection H as <- <-. split; reflexivity.
Qed.

Lemma append_assoc (a b c : string) :
  ((a ++ b) ++ c = a ++ (b ++ c))%string.
Proof. induction a as [|x a IH]; simpl; [reflexivity|]. rewrite IH. reflexivity. Qed.

Lemma amount_at_start_spec (s g : string) :
  amount_at_start s = Some g ->
  is_amount g /\ exists after, s = (g ++ after)%string.
Proof.
  unfold amount_at_start. destruct s as [|c r]; [discriminate|].
  destruct (Ascii.eqb_spec c "$"%char) as [->|]; [|discriminate].
  destruct (amount_run r) as [digits rest] eqn:Hr.
  destruct (amount_run_spec _ _ _ Hr) as [-> Hd].
  destruct digits as [|d digits]; [discriminate|].
  destruct (starts_with_ci " billion" rest) as [[unit_text after]|] eqn:Hu;
    [|discriminate].
  destruct (starts_with_ci_spec _ _ _ _ Hu) as [-> Hl].
  intros H. injection H as <-. split.
  - exists (String d digits), unit_text. repeat split; [discriminate|exact Hd|exact Hl].
  - exists after. simpl. rewrite !append_assoc. reflexivity.
Qed.

Lemma first_amount_on_line_spec (s g : string) :
  first_amount_on_line s = Some g -> is_amount g /\ occurs_in g s.
Proof.
  induction s as [|c r IH]; [discriminate|].
  cbn [first_amount_on_line].
  - destruct (amount_at_start (String c r)) as [g'|] eqn:Ha.
    + intros H. injection H as <-.
      destruct (amount_at_start_spec _ _ Ha) as [Hg [after Hs]].
      split; [exact Hg|]. exists ""%string, after. exact Hs.
    + destruct (is_line_terminator c); [discriminate|].
      intros H. destruct (IH H) as [Hg (before & after & ->)].
      split; [exact Hg|]. exists (String c before), after. reflexivity.
Qed.

Lemma match_metric_spec (keyword s g : string) :
  match_metric keyword s = Some g -> is_amount g /\ occurs_in g s.
Proof.
  induction s as [|c r IH].
  - simpl. destruct (starts_with_ci keyword "") as [[m rest]|] eqn:Hk;
      [|discriminate].
    destruct (first_amount_on_line rest) as [g'|] eqn:Hf; [|discriminate].
    intros H. injection H as <-.
    destruct (starts_with_ci_spec _ _ _ _ Hk) as [Hs _].
    destruct (first_amount_on_line_spec _ _ Hf) as [Hg (before & after & ->)].
    split; [exact Hg|]. exists (m ++ before)%string, after.
    rewrite Hs, append_assoc. reflexivity.
  - cbn [match_metric].
    destruct (match starts_with_ci keyword (String c r) with
              | Some (_, rest) => first_amount_on_line rest
              | None => None
              end) as [g'|] eqn:Hh.
    + intros H. injection H as <-.
      destruct (starts_with_ci keyword (String c r)) as [[m rest]|] eqn:Hk;
        [|discriminate].
      destruct (starts_with_ci_spec _ _ _ _ Hk) as [Hs _].
      destruct (first_amount_on_line_spec _ _ Hh) as [Hg (before & after & ->)].
      split; [exact Hg|]. exists (m ++ before)%string, after.
      rewrite Hs, append_assoc. reflexivity.
    + intros H. destruct (IH H) as [Hg (before & after & ->)].
      split; [exact Hg|]. exists (String c before), after. reflexivity.
Qed.

(** X14: a revenue or guidance figure that [extractKeyMetrics] reports is a
    piece of the transcript of the form dollar sign, digits and dots, space,
    billion (in any case); the market capitalisation is never set. *)
Theorem key_metrics_are_quoted (transcript : string) :
  marketCap (extractKeyMetrics transcript) = None
  /\ forall g,
       revenue (extractKeyMetrics transcript) = Some g
       \/ guidance (extractKeyMetrics transcript) = Some g ->
       is_amount g /\ occurs_in g transcript.
Proof.
  split; [reflexivity|].
  intros g [H|H]; simpl in H; apply (match_metric_spec _ _ _ H).
Qed.

End EngineFacts.

(** ** The pipeline: collector, engine and trend analyzer together *)

Module PipelineFacts.
Import Utils EngineVocabulary CollectorSpec CollectorVocabulary.

(** X15: the quarter labels of the synthetic documents never make the trend
    analyzer fail: a call of [analyzeQuarterOverQuarter] on records whose
    labels are labels of synthetic documents, and whose themes are not
    names of inherited members of the frequency object, returns a report. *)
Theorem synthetic_labels_are_accepted (now : string)
        (localDate : Z -> Z -> Z -> string) (count : Z)
        (insights : list QuarterlyInsights) :
  forallb Domain.own_key (flat_map TrendAnalyzer.themeNames insights) = true ->
  (forall r, In r insights ->
             In (quarter r)
                (map Transcript.quarter
                     (TranscriptCollector.generateRealisticSampleData
                        now localDate count))) ->
  exists report, TrendAnalyzer.completion insights = Ok report.
Proof.
  intros _ H. apply TrendProperties.completion_returns.
  rewrite Forall_forall. intros r Hr. apply H in Hr.
  apply in_map_iff in Hr as (d & Hq & Hd).
  destruct (CollectorFacts.synthetic_document_facts now localDate count) as (_ & _ & Hdocs).
  destruct (Hdocs d Hd) as (_ & Hw & _).
  unfold TrendSpec.labelled. rewrite <- Hq. exact Hw.
Qed.

Lemma synthetic_labels_are_accepted_witness :
  exists report,
    TrendAnalyzer.completion [TrendSpec.q2_2024; TrendSpec.q1_2024] = Ok report.
Proof.
  apply (synthetic_labels_are_accepted clock utc 4
           [TrendSpec.q2_2024; TrendSpec.q1_2024]); [reflexivity|].
  intros r [<-|[<-|[]]]; simpl; tauto.
Defined.

(** X16: no synthetic document yields a key metric: the templates state the
    revenue in the form [$60.9B], which the patterns of [extractKeyMetrics]
    do not match, and do not mention guidance. *)
Theorem synthetic_documents_have_no_metrics (now : string)
        (localDate : Z -> Z -> Z -> string) (count : Z)
        (d : Transcript.EarningsTranscript) :
  In d (TranscriptCollector.generateRealisticSampleData now localDate count) ->
  AnalysisEngine.extractKeyMetrics (Transcript.fullTranscript d)
  = {| revenue := None; guidance := None; marketCap := None |}.
Proof.
  unfold TranscriptCollector.generateRealisticSampleData.
  destruct (CollectorFacts.slice0_scenarios count) as [k ->].
  destruct k as [|[|[|[|k]]]];
    cbn [firstn TranscriptCollector.scenarios]; rewrite ?firstn_nil;
    cbn [map_index map In];
    intros Hd; repeat destruct Hd as [Hd|Hd]; try contradiction; subst d;
    cbn [Transcript.fullTranscript Transcript.managementRemarks
         Transcript.qaSection];
    vm_compute; reflexivity.
Qed.

Lemma synthetic_documents_have_no_metrics_witness :
  exists d,
    In d (TranscriptCollector.generateRealisticSampleData clock utc 1)
    /\ Transcript.quarter d = "Q4 2024"
    /\ AnalysisEngine.extractKeyMetrics (Transcript.fullTranscript d)
       = {| revenue := None; guidance := None; marketCap := None |}.
Proof.
  eexists. split; [left; reflexivity|]. split; [reflexivity|].
  apply (synthetic_documents_have_no_metrics clock utc 1). left. reflexivity.
Defined.

End PipelineFacts.

(** ** src/app/lib/utils.ts and src/app/lib/database.ts: properties *)

Module UtilsFacts.
Import Utils EngineVocabulary.

Lemma lower_char_file_char (c : ascii) :
  is_file_char
    (lower_char (if is_upper c || is_lower c || is_digit c then c else "_"%char))
  = true.
Proof.
  destruct c as [[] [] [] [] [] [] [] []]; reflexivity.
Qed.

Lemma file_char_fixed (c : ascii) :
  is_file_char c = true ->
  lower_char (if is_upper c || is_lower c || is_digit c then c else "_"%char) = c.
Proof.
  destruct c as [[] [] [] [] [] [] [] []]; try reflexivity; discriminate.
Qed.

(** X17: [sanitizeFileName] keeps the length of the name, yields only
    lower-case letters, digits and underscores, and changes nothing in a
    name it has already sanitized. *)
Theorem sanitizeFileName_safe (fileName : string) :
  String.length (sanitizeFileName fileName) = String.length fileName
  /\ all_chars is_file_char (sanitizeFileName fileName) = true
  /\ sanitizeFileName (sanitizeFileName fileName) = sanitizeFileName fileName.
Proof.
  unfold sanitizeFileName.
  assert (Hall : all_chars is_file_char (toLowerCase (replace_non_alnum fileName))
                 = true).
  { induction fileName as [|c r IH]; simpl; [reflexivity|].
    rewrite lower_char_file_char, IH. reflexivity. }
  repeat split.
  - clear Hall.
    induction fileName as [|c r IH]; simpl; [reflexivity|]. rewrite IH. reflexivity.
  - exact Hall.
  - revert Hall. generalize (toLowerCase (replace_non_alnum fileName)).
    induction s as [|c r IH]; simpl; [reflexivity|].
    intros H. apply andb_true_iff in H as [Hc Hr].
    rewrite (file_char_fixed c Hc), (IH Hr). reflexivity.
Qed.

End UtilsFacts.

Module DatabaseFacts.
Import Database.

Section MapFacts.
Context {V : Type}.

Lemma Map_get_set (key k : string) (value : V) (m : list (string * V)) :
  Map_get k (Map_set key value m)
  = if String.eqb k key then Some value else Map_get k m.
Proof.
  induction m as [|[k' v'] m IH]; simpl.
  - destruct (String.eqb k key); reflexivity.
  - destruct (String.eqb_spec key k') as [->|Hne]; simpl.
    + destruct (String.eqb k k'); reflexivity.
    + destruct (String.eqb_spec k k') as [->|Hk].
      * destruct (String.eqb_spec k' key); [congruence|reflexivity].
      * exact IH.
Qed.

Lemma Map_set_keys (key : string) (value : V) (m : list (string * V)) :
  map fst (Map_set key value m) = JS.Set_add key (map fst m).
Proof.
  induction m as [|[k' v'] m IH]; simpl; [reflexivity|].
  destruct (String.eqb key k'); simpl; [reflexivity|]. rewrite IH. reflexivity.
Qed.

End MapFacts.

(** X18: after [saveInsights], [getInsights] returns the saved record for
    its identifier and what it returned before for every other identifier;
    the transcripts are untouched. The same holds for [saveTranscript] and
    [getTranscript], which leave the insights untouched. *)
Theorem save_then_get (d : InMemoryDatabase) :
  (forall i id,
      getInsights id (saveInsights i d)
      = (if String.eqb id (AnalysisEngine.transcriptId i) then Some i
         else getInsights id d)
      /\ getAllTranscripts (saveInsights i d) = getAllTranscripts d)
  /\ (forall t id,
         getTranscript id (saveTranscript t d)
         = (if String.eqb id (Transcript.id t) then Some t
            else getTranscript id d)
         /\ getAllInsights (saveTranscript t d) = getAllInsights d).
Proof.
  split; intros x id; (split; [apply Map_get_set|reflexivity]).
Qed.

Lemma saveAll_keys (records : list AnalysisEngine.QuarterlyInsights)
      (d : InMemoryDatabase) :
  map fst (insights (saveAllInsights records d))
  = fold_left (fun s x => JS.Set_add x s)
              (map AnalysisEngine.transcriptId records) (map fst (insights d)).
Proof.
  unfold saveAllInsights. revert d; induction records as [|i records IH];
    intros d; simpl; [reflexivity|].
  rewrite IH. simpl. rewrite Map_set_keys. reflexivity.
Qed.

Lemma find_in_app {A} (f : A -> bool) (l1 l2 : list A) :
  find f (l1 ++ l2)
  = match find f l1 with Some x => Some x | None => find f l2 end.
Proof.
  induction l1 as [|x l1 IH]; simpl; [reflexivity|].
  destruct (f x); [reflexivity|exact IH].
Qed.

Lemma saveAll_get (records : list AnalysisEngine.QuarterlyInsights)
      (d : InMemoryDatabase) (id : string) :
  getInsights id (saveAllInsights records d)
  = match last_saved id records with
    | Some i => Some i
    | None => getInsights id d
    end.
Proof.
  unfold saveAllInsights, last_saved.
  revert d; induction records as [|i records IH]; intros d; simpl; [reflexivity|].
  rewrite IH. rewrite find_in_app.
  destruct (find _ (rev records)) as [j|]; [reflexivity|].
  simpl. unfold getInsights. simpl. rewrite Map_get_set.
  destruct (String.eqb id (AnalysisEngine.transcriptId i)); reflexivity.
Qed.

(** X19: after the records of a list are saved in an empty database, the
    database holds one record for every distinct identifier of the list,
    in the order in which the identifiers first occur; the record it holds
    for an identifier is the last one saved with it; and the statistics
    count the distinct identifiers. *)
Theorem last_write_wins (records : list AnalysisEngine.QuarterlyInsights) :
  let d := saveAllInsights records db in
  map AnalysisEngine.transcriptId (getAllInsights d)
  = JS.Set_of (map AnalysisEngine.transcriptId records)
  /\ (forall id, getInsights id d = last_saved id records)
  /\ stat_insights (getStats d)
     = length (JS.Set_of (map AnalysisEngine.transcriptId records))
  /\ stat_transcripts (getStats d) = 0%nat.
Proof.
  cbv zeta.
  assert (Hkeys : map fst (insights (saveAllInsights records db))
                  = JS.Set_of (map AnalysisEngine.transcriptId records)).
  { rewrite saveAll_keys. reflexivity. }
  assert (Hget : forall id, getInsights id (saveAllInsights records db)
                            = last_saved id records).
  { intros id. rewrite saveAll_get. destruct (last_saved id records); reflexivity. }
  repeat split.
  - (* every stored record sits under its own identifier *)
    assert (Hown : forall (l : list AnalysisEngine.QuarterlyInsights) d0,
               (forall k v, In (k, v) (insights d0) -> AnalysisEngine.transcriptId v = k) ->
               forall k v, In (k, v) (insights (saveAllInsights l d0)) ->
                           AnalysisEngine.transcriptId v = k).
    { unfold saveAllInsights. induction l as [|i l IH]; intros d0 H0; simpl;
        [exact H0|].
      apply IH. simpl. clear IH.
      induction (insights d0) as [|[k' v'] m IHm]; simpl.
      - intros k v [E|[]]. injection E as <- <-. reflexivity.
      - destruct (String.eqb_spec (AnalysisEngine.transcriptId i) k') as [E|E]; simpl.
        + intros k v [E'|Hin].
          * injection E' as <- <-. exact E.
          * apply H0. right. exact Hin.
        + intros k v [E'|Hin].
          * apply H0. left. exact E'.
          * apply IHm; [|exact Hin]. intros k0 v0 Hin0. apply H0. right. exact Hin0. }
    unfold getAllInsights, Map_values. rewrite <- Hkeys. rewrite map_map.
    apply map_ext_in. intros [k v] Hin. simpl.
    apply (Hown records db); [intros ? ? []|exact Hin].
  - exact Hget.
  - unfold getStats. simpl. rewrite <- Hkeys, length_map. reflexivity.
  - unfold getStats, saveAllInsights. simpl.
    assert (H : forall l d1, transcripts (fold_left (fun d i => saveInsights i d) l d1)
                             = transcripts d1).
    { induction l as [|i l IH]; intros d1; simpl; [reflexivity|]. rewrite IH. reflexivity. }
    rewrite H. reflexivity.
Qed.

End DatabaseFacts.

Module TrendAlignment.
Import TrendAnalyzer TrendSpec TrendFacts TrendProperties.

Lemma changes_loop_quarters (rest : list QuarterlyInsights) (previous : QuarterlyInsights) :
  map qc_quarter (changes_loop previous rest) = map quarter rest.
Proof.
  revert previous; induction rest as [|c rest IH]; intros previous; simpl;
    [reflexivity|]. rewrite IH. reflexivity.
Qed.

Lemma evolution_loop_quarters (rest : list QuarterlyInsights)
      (previous : option QuarterlyInsights) :
  map te_quarter (evolution_loop previous rest) = map quarter rest.
Proof.
  revert previous; induction rest as [|c rest IH]; intros previous; simpl;
    [reflexivity|]. rewrite IH. reflexivity.
Qed.

(** X20: the parts of a report line up. The points of both sentiment series
    and the evolution entries carry the quarters of the report, in the same
    order, and the change records carry the quarters from the second one
    on. *)
Theorem report_alignment (insights : list QuarterlyInsights) (report : TrendAnalysis) :
  completion insights = Ok report ->
  map sp_quarter (management (sentimentTrend report)) = quarters report
  /\ map sp_quarter (qa (sentimentTrend report)) = quarters report
  /\ map te_quarter (strategicEvolution report) = quarters report
  /\ map qc_quarter (quarterOverQuarterChanges report) = tl (quarters report).
Proof.
  intros H.
  destruct (Array_sort compareQuarters insights) as [s|e] eqn:E.
  - destruct (Nat.lt_ge_cases (length s) 2) as [Hs|Hs].
    + destruct (call_on_short_array _ _ E Hs) as [Hc _].
      rewrite Hc in H. injection H as <-. simpl. rewrite !map_map. simpl.
      repeat split. destruct s as [|x [|y s]]; simpl in *; try lia; reflexivity.
    + destruct (call_on_long_array _ _ E Hs) as [Hc _].
      rewrite Hc in H. injection H as <-. simpl. rewrite !map_map. simpl.
      unfold analyzeStrategicEvolution. rewrite evolution_loop_quarters.
      repeat split. destruct s as [|x s]; simpl; [reflexivity|].
      apply changes_loop_quarters.
  - destruct (call_when_sort_throws _ _ E) as [Hc _]. congruence.
Qed.

Lemma report_alignment_witness :
  exists report,
    completion [q2_2024; q1_2024] = Ok report
    /\ quarters report = ["Q1 2024"; "Q2 2024"]
    /\ map sp_quarter (management (sentimentTrend report)) = quarters report
    /\ map sp_quarter (qa (sentimentTrend report)) = quarters report
    /\ map te_quarter (strategicEvolution report) = quarters report
    /\ map qc_quarter (quarterOverQuarterChanges report) = tl (quarters report).
Proof.
  eexists. split; [reflexivity|]. split; [reflexivity|].
  apply (report_alignment [q2_2024; q1_2024]). reflexivity.
Defined.

End TrendAlignment.

Module UtilsQuartersFacts.
Import TrendAnalyzer UtilsQuarters EngineVocabulary RegexFacts.

Lemma digit_char_is_digit (d : Z) :
  (0 <= d < 10)%Z ->
  TrendAnalyzer.is_digit (digit_char d) = true
  /\ TrendAnalyzer.is_space (digit_char d) = false
  /\ digit_value (digit_char d) = d.
Proof.
  intros H. unfold digit_char.
  assert (E : exists k, (k < 10)%nat /\ Z.to_nat d = k /\ d = Z.of_nat k).
  { exists (Z.to_nat d). repeat split; lia. }
  destruct E as (k & Hk & -> & ->).
  do 10 (destruct k as [|k]; [repeat split; reflexivity|]). lia.
Qed.

Lemma parseInt_from_app (a : Z) (s1 s2 : string) :
  parseInt_from a (s1 ++ s2) = parseInt_from (parseInt_from a s1) s2.
Proof.
  revert a; induction s1 as [|c s1 IH]; intros a; simpl; [reflexivity|].
  apply IH.
Qed.

(** The digits that [digits_from] puts before the accumulator. *)
Lemma digits_from_spec (fuel : nat) (n : Z) (acc : string) :
  (0 <= n < Z.of_nat fuel)%Z ->
  exists ds,
    digits_from fuel n acc = (ds ++ acc)%string
    /\ ds <> ""%string
    /\ all_chars TrendAnalyzer.is_digit ds = true
    /\ exists m, forall a, parseInt_from a ds = (a * m + n)%Z.
Proof.
  revert n acc; induction fuel as [|fuel IH]; intros n acc Hn; [lia|].
  cbn [digits_from].
  assert (Hd : (0 <= n mod 10 < 10)%Z) by (apply Z.mod_pos_bound; lia).
  destruct (digit_char_is_digit _ Hd) as (Hdig & _ & Hval).
  destruct (Z.eqb_spec (n / 10) 0) as [Hz|Hz].
  - exists (String (digit_char (n mod 10)) ""). repeat split.
    + discriminate.
    + cbn [all_chars]. rewrite Hdig. reflexivity.
    + exists 10%Z. intros a. cbn [parseInt_from]. rewrite Hval.
      pose proof (Z.div_mod n 10 ltac:(lia)) as H. rewrite Hz in H.
      clear - H. generalize dependent (n mod 10)%Z. intros r H. lia.
  - assert (Hpos : (0 < n)%Z).
    { destruct (Z.eq_dec n 0) as [->|]; [exfalso; apply Hz; reflexivity|lia]. }
    assert (Hq : (0 <= n / 10 < Z.of_nat fuel)%Z).
    { split; [apply Z.div_pos; lia|].
      assert (n / 10 < n)%Z by (apply Z.div_lt; lia). lia. }
    destruct (IH (n / 10)%Z (String (digit_char (n mod 10)) acc) Hq)
      as (ds & -> & Hne & Hall & m & Hm).
    exists (ds ++ String (digit_char (n mod 10)) "")%string. repeat split.
    + clear. induction ds as [|c ds IHd]; cbn [append]; [reflexivity|].
      rewrite IHd. reflexivity.
    + destruct ds; [contradiction|discriminate].
    + clear - Hall Hdig. induction ds as [|c ds IHd]; cbn [append all_chars].
      * rewrite Hdig. reflexivity.
      * cbn [all_chars] in Hall. apply andb_true_iff in Hall as [-> Hall].
        cbn [andb]. apply IHd, Hall.
    + exists (m * 10)%Z. intros a. rewrite parseInt_from_app, Hm.
      cbn [parseInt_from]. rewrite Hval.
      pose proof (Z.div_mod n 10 ltac:(lia)) as H.
      clear - H. generalize dependent (n mod 10)%Z.
      generalize dependent (n / 10)%Z. intros d r H. lia.
Qed.

Lemma Number_toString_spec (n : Z) :
  (0 <= n)%Z ->
  Number_toString n <> ""%string
  /\ all_chars TrendAnalyzer.is_digit (Number_toString n) = true
  /\ parseInt (Number_toString n) = n.
Proof.
  intros Hn. unfold Number_toString.
  destruct (Z.ltb_spec n 0); [lia|].
  destruct (digits_from_spec (S (Z.to_nat n)) n "") as (ds & -> & Hne & Hall & m & Hm);
    [lia|].
  assert (E : (ds ++ "")%string = ds).
  { clear. induction ds as [|c ds IH]; simpl; [reflexivity|]. rewrite IH. reflexivity. }
  rewrite E. repeat split; [exact Hne|exact Hall|].
  unfold parseInt. rewrite Hm. lia.
Qed.

(** A label written from two numbers reads back as these numbers. *)
Lemma parse_label_of (n y : Z) :
  (0 <= n)%Z -> (0 <= y)%Z ->
  parseQuarter (label_of n y) = Ok {| q := n; year := y |}.
Proof.
  intros Hn Hy.
  destruct (Number_toString_spec n Hn) as (Hne1 & Hall1 & Hp1).
  destruct (Number_toString_spec y Hy) as (Hne2 & Hall2 & Hp2).
  unfold parseQuarter, label_of.
  assert (E : regex_match ("Q" ++ Number_toString n ++ " " ++ Number_toString y)
              = Some (Number_toString n, Number_toString y)).
  { assert (M : match_at_start
                  ("Q" ++ Number_toString n ++ " " ++ Number_toString y)
                = Some (Number_toString n, Number_toString y)).
    { cbn [append match_at_start]. rewrite Ascii.eqb_refl.
      rewrite (span_run TrendAnalyzer.is_digit (Number_toString n)
                 (String " " (Number_toString y)) Hall1 eq_refl).
      destruct (Number_toString y) as [|c r] eqn:Ey; [contradiction|].
      simpl in Hall2. apply andb_true_iff in Hall2 as [Hc Hr].
      assert (Hsp : TrendAnalyzer.is_space c = false).
      { clear - Hc. destruct c as [[] [] [] [] [] [] [] []];
          try reflexivity; discriminate. }
      cbn [span]. change (TrendAnalyzer.is_space " ") with true. cbn iota.
      cbn [span]. rewrite Hsp.
      pose proof (span_run TrendAnalyzer.is_digit (String c r) "") as Hs.
      assert (E0 : (String c r ++ "")%string = String c r).
      { clear. generalize (String c r). induction s as [|x s IH]; simpl;
          [reflexivity|]. rewrite IH. reflexivity. }
      rewrite E0 in Hs. rewrite Hs; [|simpl; rewrite Hc, Hr; reflexivity|exact I].
      destruct (Number_toString n); [contradiction|]. reflexivity. }
    change ("Q" ++ Number_toString n ++ " " ++ Number_toString y)%string
      with (String "Q" (Number_toString n ++ " " ++ Number_toString y)) in *.
    cbn [regex_match]. rewrite M. reflexivity. }
  rewrite E, Hp1, Hp2. reflexivity.
Qed.

Lemma quarters_loop_walks_back (count : nat) (n y : Z) :
  (1 <= n)%Z -> (Z.of_nat count <= y)%Z ->
  length (quarters_loop count n y) = count
  /\ walks_back (quarters_loop count n y) {| q := n; year := y |}.
Proof.
  revert n y; induction count as [|count IH]; intros n y Hn Hy;
    [split; [reflexivity|exact I]|].
  cbn [quarters_loop walks_back]. unfold quarter_before. cbn [q year].
  destruct (Z.eqb_spec (n - 1) 0) as [E|E].
  - destruct (IH 4%Z (y - 1)%Z) as [Hl Hw]; [lia|lia|].
    split; [simpl; rewrite Hl; reflexivity|].
    split; [apply parse_label_of; lia|exact Hw].
  - destruct (IH (n - 1)%Z y) as [Hl Hw]; [lia|lia|].
    split; [simpl; rewrite Hl; reflexivity|].
    split; [apply parse_label_of; lia|exact Hw].
Qed.

(** X21: for a label that parses to safe integers, a quarter number of at
    least 1 and a year of at least [count], [getQuartersBefore] returns [count] labels of
    which the first parses to the quarter of the given label and each next
    one to the quarter before: the number goes down by one, and from 1 to 4
    of the year before. Every label it writes reads back as written. *)
Theorem getQuartersBefore_walks_back (currentQuarter : string) (count : Z)
        (k : Quarter) :
  parseQuarter currentQuarter = Ok k ->
  Domain.safe_quarter k = true ->
  (1 <= q k)%Z -> (0 <= count <= year k)%Z ->
  exists labels,
    getQuartersBefore currentQuarter count = Ok labels
    /\ length labels = Z.to_nat count
    /\ walks_back labels k.
Proof.
  intros Hp _ Hq Hc. unfold getQuartersBefore. rewrite Hp. simpl.
  eexists. split; [reflexivity|].
  destruct k as [n y]. simpl in *.
  apply quarters_loop_walks_back; lia.
Qed.

Lemma getQuartersBefore_walks_back_witness :
  exists labels,
    getQuartersBefore "FY Q2   2024 results" 4 = Ok labels
    /\ length labels = 4%nat
    /\ walks_back labels {| q := 2; year := 2024 |}.
Proof.
  apply (getQuartersBefore_walks_back "FY Q2   2024 results" 4
           {| q := 2; year := 2024 |}).
  - reflexivity.
  - reflexivity.
  - simpl. lia.
  - simpl. lia.
Defined.

End UtilsQuartersFacts.

(** ** [splitTranscript]: properties *)

Module SplitFacts.
Import TranscriptSplit.

Lemma append_nil_r (s : string) : (s ++ "")%string = s.
Proof. induction s as [|c s IH]; cbn [append]; [reflexivity|]. rewrite IH. reflexivity. Qed.

Lemma substring_all (s : string) : substring 0 (String.length s) s = s.
Proof. induction s as [|c s IH]; cbn; [reflexivity|]. rewrite IH. reflexivity. Qed.

Lemma substring_split (index : nat) (s : string) :
  (substring_to index s ++ substring_from index s)%string = s.
Proof.
  unfold substring_to, substring_from.
  revert index; induction s as [|c s IH]; intros [|index]; cbn [String.length].
  - reflexivity.
  - reflexivity.
  - rewrite Nat.sub_0_r.
    change (substring 0 0 (String c s)) with ""%string.
    change (String.length (String c s)) with (S (String.length s)).
    cbn [append]. apply (substring_all (String c s)).
  - change (substring 0 (S index) (String c s))
      with (String c (substring 0 index s)).
    change (substring (S index) (S (String.length s) - S index) (String c s))
      with (substring index (String.length s - index) s).
    cbn [append]. rewrite IH. reflexivity.
Qed.

Lemma trimStart_spec (s : string) :
  exists w, all_white w = true /\ s = (w ++ trimStart s)%string.
Proof.
  induction s as [|c s (w & Hw & Hs)]; cbn [trimStart].
  - exists ""%string. split; reflexivity.
  - destruct (is_white c) eqn:Hc.
    + exists (String c w). split; [cbn [all_white]; rewrite Hc, Hw; reflexivity|].
      cbn [append]. rewrite <- Hs. reflexivity.
    + exists ""%string. split; reflexivity.
Qed.

Lemma trimEnd_spec (s : string) :
  exists w, all_white w = true /\ s = (trimEnd s ++ w)%string.
Proof.
  induction s as [|c s (w & Hw & Hs)]; cbn [trimEnd].
  - exists ""%string. split; reflexivity.
  - destruct (trimEnd s) as [|c' r'] eqn:Ht.
    + destruct (is_white c) eqn:Hc.
      * exists (String c w). split; [cbn [all_white]; rewrite Hc, Hw; reflexivity|].
        cbn [append] in *. rewrite <- Hs. reflexivity.
      * exists w. split; [exact Hw|]. cbn [append] in *. rewrite <- Hs. reflexivity.
    + exists w. split; [exact Hw|]. cbn [append] in *. rewrite <- Hs. reflexivity.
Qed.

Lemma trim_spec (s : string) :
  exists w1 w2, all_white w1 = true /\ all_white w2 = true
                /\ s = (w1 ++ trim s ++ w2)%string.
Proof.
  destruct (trimStart_spec s) as (w1 & H1 & E1).
  destruct (trimEnd_spec (trimStart s)) as (w2 & H2 & E2).
  exists w1, w2. repeat split; [exact H1|exact H2|].
  unfold trim. rewrite <- E2. exact E1.
Qed.

Lemma trimEnd_cons (c : ascii) (r : string) :
  trimEnd (String c r)
  = match trimEnd r with
    | EmptyString => if is_white c then EmptyString else String c EmptyString
    | String c' r' => String c (String c' r')
    end.
Proof. reflexivity. Qed.

Lemma trimEnd_idempotent (s : string) : trimEnd (trimEnd s) = trimEnd s.
Proof.
  induction s as [|c s IH]; [reflexivity|].
  rewrite (trimEnd_cons c s).
  destruct (trimEnd s) as [|c' r'] eqn:Ht.
  - destruct (is_white c) eqn:Hc; [reflexivity|].
    rewrite trimEnd_cons. cbn [trimEnd]. rewrite Hc. reflexivity.
  - rewrite trimEnd_cons, IH. reflexivity.
Qed.

Lemma trimEnd_head (c : ascii) (r : string) :
  is_white c = false -> exists r', trimEnd (String c r) = String c r'.
Proof.
  intros Hc. cbn [trimEnd]. destruct (trimEnd r); [rewrite Hc|]; eauto.
Qed.

Lemma trim_trimmed (s : string) : trimmed (trim s).
Proof.
  unfold trimmed, trim.
  assert (H : trimStart (trimEnd (trimStart s)) = trimEnd (trimStart s)).
  { induction s as [|c s IH]; cbn [trimStart]; [reflexivity|].
    destruct (is_white c) eqn:Hc; [exact IH|].
    destruct (trimEnd_head c s Hc) as [r' ->]. cbn [trimStart]. rewrite Hc.
    reflexivity. }
  rewrite H. apply trimEnd_idempotent.
Qed.

(** X22: [splitTranscript] loses nothing but white space at the cut and at
    the two ends: the transcript is its management remarks and its Q&A
    section in this order, with white space only before, between and after
    them; and neither section starts or ends with white space. *)
Theorem split_covers_transcript (transcript : string) :
  let sections := splitTranscript transcript in
  trimmed (managementRemarks sections) /\ trimmed (qaSection sections)
  /\ exists w1 w2 w3,
       all_white w1 = true /\ all_white w2 = true /\ all_white w3 = true
       /\ transcript = (w1 ++ managementRemarks sections ++ w2
                        ++ qaSection sections ++ w3)%string.
Proof.
  cbv zeta.
  assert (H : forall i, trimmed (managementRemarks (split_at i transcript))
                        /\ trimmed (qaSection (split_at i transcript))
                        /\ exists w1 w2 w3,
                             all_white w1 = true /\ all_white w2 = true
                             /\ all_white w3 = true
                             /\ transcript
                                = (w1 ++ managementRemarks (split_at i transcript)
                                   ++ w2 ++ qaSection (split_at i transcript)
                                   ++ w3)%string).
  { intros i. unfold split_at. cbn [managementRemarks qaSection].
    split; [apply trim_trimmed|]. split; [apply trim_trimmed|].
    destruct (trim_spec (substring_to i transcript)) as (a1 & a2 & Ha1 & Ha2 & Ea).
    destruct (trim_spec (substring_from i transcript)) as (b1 & b2 & Hb1 & Hb2 & Eb).
    exists a1, (a2 ++ b1)%string, b2. repeat split; try assumption.
    - clear - Ha2 Hb1. induction a2 as [|c a2 IH]; cbn [append all_white] in *;
        [exact Hb1|].
      apply andb_true_iff in Ha2 as [-> Ha2]. apply IH, Ha2.
    - rewrite <- (substring_split i transcript) at 1.
      rewrite Ea at 1. rewrite Eb at 1. rewrite !EngineFacts.append_assoc. reflexivity. }
  unfold splitTranscript.
  destruct (first_marker qaMarkers transcript) as [[marker i]|]; apply H.
Qed.













(** X24: cutting the full transcript of a synthetic document gives back
    its two sections: the marker "Question-and-Answer Session" opens the
    synthetic Q&A section and occurs nowhere in the remarks. *)
Theorem split_recovers_synthetic_sections (now : string)
        (localDate : Z -> Z -> Z -> string) (count : Z)
        (d : Transcript.EarningsTranscript) :
  In d (TranscriptCollector.generateRealisticSampleData now localDate count) ->
  splitTranscript (Transcript.fullTranscript d)
  = {| managementRemarks := Transcript.managementRemarks d;
       qaSection := Transcript.qaSection d |}.
Proof.
  unfold TranscriptCollector.generateRealisticSampleData.
  destruct (CollectorFacts.slice0_scenarios count) as [k ->].
  destruct k as [|[|[|[|k]]]];
    cbn [firstn TranscriptCollector.scenarios]; rewrite ?firstn_nil;
    cbn [Utils.map_index map In];
    intros Hd; repeat destruct Hd as [Hd|Hd]; try contradiction; subst d;
    cbn [Transcript.fullTranscript Transcript.managementRemarks
         Transcript.qaSection];
    vm_compute; reflexivity.
Qed.

Lemma split_recovers_synthetic_sections_witness :
  exists d,
    In d (TranscriptCollector.generateRealisticSampleData
            CollectorSpec.clock CollectorSpec.utc 2)
    /\ Transcript.quarter d = "Q3 2024"%string
    /\ splitTranscript (Transcript.fullTranscript d)
       = {| managementRemarks := Transcript.managementRemarks d;
            qaSection := Transcript.qaSection d |}.
Proof.
  eexists. split; [right; left; reflexivity|]. split; [reflexivity|].
  apply (split_recovers_synthetic_sections CollectorSpec.clock CollectorSpec.utc 2).
  right. left. reflexivity.
Defined.

End SplitFacts.

(** ** The trend analyzer: values of the series *)

Module TrendValues.
Import TrendAnalyzer TrendSpec TrendFacts TrendVocabulary.

Lemma number_or_zero_is_number (x : option float) :
  PrimFloat.is_nan (number_or x 0) = false.
Proof.
  unfold number_or. destruct x as [v|]; [|reflexivity].
  unfold truthy_number.
  destruct (PrimFloat.is_zero v); [reflexivity|].
  destruct (PrimFloat.is_nan v) eqn:E; [reflexivity|exact E].
Qed.

Lemma string_or_not_empty (s : option string) (d : string) :
  d <> ""%string -> string_or s d <> ""%string.
Proof.
  intros Hd. unfold string_or. destruct s as [[|c r]|]; simpl;
    try exact Hd. discriminate.
Qed.

Lemma sentimentPoint_clean (label : string) (s : option SentimentAnalysis) :
  PrimFloat.is_nan (sp_score (sentimentPoint label s)) = false
  /\ sp_sentiment (sentimentPoint label s) <> ""%string.
Proof.
  split; [apply number_or_zero_is_number|].
  apply string_or_not_empty. discriminate.
Qed.

Lemma sentimentPoint_reports (label : string) (s : option SentimentAnalysis) :
  reports label s (sentimentPoint label s).
Proof.
  unfold reports, sentimentPoint, scoreOf, TrendAnalyzer.sentimentOf, number_or,
    string_or, truthy_number.
  cbn [sp_quarter sp_score sp_sentiment]. split; [reflexivity|].
  destruct s as [a|]; cbn [option_map]; [|split; reflexivity].
  split.
  - destruct (PrimFloat.is_zero (score a) || PrimFloat.is_nan (score a));
      reflexivity.
  - destruct (sentiment a); reflexivity.
Qed.

(** X25: in a report, the point at each place of the management series
    and of the Q&A series reports the record at that place of the sorted
    array: it carries the record's label; a score that is missing, zero or
    NaN is reported as 0 and any other score as it is; a label that is
    missing or empty is reported as neutral and any other label as it is.
    So no point has NaN as score or the empty string as label. *)
Theorem series_are_clean (insights : list QuarterlyInsights)
        (report : TrendAnalysis) :
  completion insights = Ok report ->
  Forall2 (fun r p => reports (quarter r) (managementSentiment r) p)
          (array_after insights) (management (sentimentTrend report))
  /\ Forall2 (fun r p => reports (quarter r) (qaSentiment r) p)
             (array_after insights) (qa (sentimentTrend report))
  /\ forall p,
       In p (management (sentimentTrend report))
       \/ In p (qa (sentimentTrend report)) ->
       PrimFloat.is_nan (sp_score p) = false /\ sp_sentiment p <> ""%string.
Proof.
  intros H.
  assert (Hs : management (sentimentTrend report)
               = map (fun i => sentimentPoint (quarter i) (managementSentiment i))
                     (array_after insights)
               /\ qa (sentimentTrend report)
                  = map (fun i => sentimentPoint (quarter i) (qaSentiment i))
                        (array_after insights)).
  { destruct (Array_sort compareQuarters insights) as [s|e] eqn:E.
    - destruct (Nat.lt_ge_cases (length s) 2) as [Hl|Hl].
      + destruct (call_on_short_array _ _ E Hl) as [Hc ->].
        rewrite Hc in H. injection H as <-. split; reflexivity.
      + destruct (call_on_long_array _ _ E Hl) as [Hc ->].
        rewrite Hc in H. injection H as <-. split; reflexivity.
    - destruct (call_when_sort_throws _ _ E) as [Hc _]. congruence. }
  destruct Hs as (Hm & Hq). rewrite Hm, Hq.
  split; [|split].
  - generalize (array_after insights). clear. intros l.
    induction l as [|r l IH]; cbn [map];
      [constructor|constructor; [apply sentimentPoint_reports|exact IH]].
  - generalize (array_after insights). clear. intros l.
    induction l as [|r l IH]; cbn [map];
      [constructor|constructor; [apply sentimentPoint_reports|exact IH]].
  - intros p [Hp|Hp]; apply in_map_iff in Hp as (i & <- & _);
      apply sentimentPoint_clean.
Qed.

Lemma series_are_clean_witness :
  exists report,
    completion [q2_2024; TrendVocabulary.q3_2024_broken; q1_2024] = Ok report
    /\ management (sentimentTrend report)
       = [ {| sp_quarter := "Q1 2024"; sp_score := (-0.4)%float;
              sp_sentiment := "negative" |};
           {| sp_quarter := "Q2 2024"; sp_score := 0.1%float;
              sp_sentiment := "neutral" |};
           {| sp_quarter := "Q3 2024"; sp_score := 0; sp_sentiment := "neutral" |} ]
    /\ Forall2 (fun r p => reports (quarter r) (managementSentiment r) p)
               [q1_2024; q2_2024; TrendVocabulary.q3_2024_broken]
               (management (sentimentTrend report))
    /\ forall p,
         In p (management (sentimentTrend report))
         \/ In p (qa (sentimentTrend report)) ->
         PrimFloat.is_nan (sp_score p) = false /\ sp_sentiment p <> ""%string.
Proof.
  eexists. split; [reflexivity|]. split; [reflexivity|].
  destruct (series_are_clean [q2_2024; TrendVocabulary.q3_2024_broken; q1_2024] _
              eq_refl) as (Hm & _ & Hclean).
  split; [exact Hm|exact Hclean].
Defined.

(** *** Sentiment shift *)

Lemma orderScore_cases (label : string) :
  orderScore label = if String.eqb label "positive" then 2%float else 1%float.
Proof.
  unfold orderScore, sentimentOrder.
  destruct (String.eqb_spec label "negative") as [->|_]; [reflexivity|].
  destruct (String.eqb_spec label "neutral") as [->|_]; [reflexivity|].
  destruct (String.eqb label "positive"); reflexivity.
Qed.

(** X26: for labels that are not names of inherited members of the order
    table, [describeSentimentShift] tells positive from everything else and
    nothing more: it reports an improvement exactly
    when the new label is positive and the old one is not, a decline
    exactly when the old label is positive and the new one is not, and no
    change in every other case. *)
Theorem describeSentimentShift_cases (from to : string) :
  Domain.own_key from = true -> Domain.own_key to = true ->
  describeSentimentShift from to
  = if negb (String.eqb from "positive") && String.eqb to "positive"
    then ("Improved from " ++ from ++ " to " ++ to)%string
    else if String.eqb from "positive" && negb (String.eqb to "positive")
    then ("Declined from " ++ from ++ " to " ++ to)%string
    else "No change"%string.
Proof.
  intros _ _. unfold describeSentimentShift. rewrite !orderScore_cases.
  destruct (String.eqb_spec from to) as [->|Hne].
  - destruct (String.eqb to "positive"); reflexivity.
  - destruct (String.eqb_spec from "positive") as [->|Hf];
      destruct (String.eqb_spec to "positive") as [->|Ht];
      reflexivity.
Qed.

Lemma describeSentimentShift_cases_witness :
  describeSentimentShift "mixed" "positive" = "Improved from mixed to positive"%string.
Proof.
  exact (describeSentimentShift_cases "mixed" "positive" eq_refl eq_refl).
Defined.

End TrendValues.

(** ** [scrapeTranscript]: properties *)

Module ScraperFacts.
Import TranscriptScraper.

Lemma attempt_facts (page : Candidate.UrlInfo -> nat -> res Page) (toISOString : string -> res string) (now : string)
      (currentYear : Z) (u : Candidate.UrlInfo) (k : nat)
      (t : Transcript.EarningsTranscript) :
  attempt page toISOString now currentYear u k = Ok t ->
  (500 <= String.length (Transcript.fullTranscript t))%nat
  /\ Transcript.quarter t = Candidate.quarter u
  /\ Transcript.url t = Candidate.url u
  /\ Transcript.date t = Candidate.date u
  /\ Transcript.company t = "NVIDIA"%string
  /\ (Candidate.source u = "Seeking Alpha"%string
      \/ Candidate.source u = "Yahoo Finance"%string)
  /\ TranscriptSplit.splitTranscript (Transcript.fullTranscript t)
     = {| TranscriptSplit.managementRemarks := Transcript.managementRemarks t;
          TranscriptSplit.qaSection := Transcript.qaSection t |}.
Proof.
  unfold attempt. destruct (page u k) as [loaded|e]; [|discriminate].
  cbn [bind].
  set (text := if String.eqb (Candidate.source u) "Seeking Alpha"
               then seekingAlphaContent loaded
               else if String.eqb (Candidate.source u) "Yahoo Finance"
                    then yahooFinanceContent loaded else ""%string).
  destruct (Nat.ltb_spec (String.length text) 500) as [Hs|Hl]; [discriminate|].
  destruct (generateTranscriptId toISOString (Candidate.quarter u) (Candidate.date u))
    as [id|e]; [|discriminate].
  cbn [bind]. intros H. injection H as <-. cbn [Transcript.fullTranscript Transcript.quarter
    Transcript.url Transcript.date Transcript.company Transcript.managementRemarks
    Transcript.qaSection].
  repeat split; try assumption.
  - subst text.
    destruct (String.eqb_spec (Candidate.source u) "Seeking Alpha") as [E|_];
      [left; exact E|].
    destruct (String.eqb_spec (Candidate.source u) "Yahoo Finance") as [E|_];
      [right; exact E|].
    simpl in Hl. lia.
  - destruct (TranscriptSplit.splitTranscript text). reflexivity.
Qed.

Lemma scrape_loop_spec (page : Candidate.UrlInfo -> nat -> res Page) (toISOString : string -> res string) (now : string)
      (currentYear : Z) (u : Candidate.UrlInfo) (left retries : nat) :
  match scrape_loop page toISOString now currentYear left retries u with
  | Some t =>
      exists k, (retries <= k < retries + left)%nat
                /\ attempt page toISOString now currentYear u k = Ok t
                /\ forall j, (retries <= j < k)%nat ->
                             exists e, attempt page toISOString now currentYear u j = Throw e
  | None =>
      forall j, (retries <= j < retries + left)%nat ->
                exists e, attempt page toISOString now currentYear u j = Throw e
  end.
Proof.
  revert retries; induction left as [|left IH]; intros retries; cbn [scrape_loop].
  - intros j Hj. lia.
  - destruct (attempt page toISOString now currentYear u retries) as [t|e] eqn:E.
    + exists retries. repeat split; [lia|lia|exact E|]. intros j Hj. lia.
    + specialize (IH (S retries)).
      destruct (scrape_loop page toISOString now currentYear left (S retries) u) as [t|].
      * destruct IH as (k & Hk & Ha & Hb). exists k. repeat split; [lia|lia|exact Ha|].
        intros j Hj. destruct (Nat.eq_dec j retries) as [->|Hne]; [eauto|].
        apply Hb. lia.
      * intros j Hj. destruct (Nat.eq_dec j retries) as [->|Hne]; [eauto|].
        apply IH. lia.
Qed.

(** X27: a transcript that [scrapeTranscript] returns has a text of at
    least 500 characters, the quarter, address and date of its candidate,
    the company NVIDIA, and as sections the two parts into which
    [splitTranscript] cuts its text; its candidate comes from Seeking Alpha
    or Yahoo Finance, and it was made by the first of the three attempts
    that did not fail. *)
Theorem scraped_transcript (page : Candidate.UrlInfo -> nat -> res Page)
        (toISOString : string -> res string) (now : string) (currentYear : Z) (u : Candidate.UrlInfo)
        (t : Transcript.EarningsTranscript) :
  scrapeTranscript page toISOString now currentYear u = Some t ->
  (500 <= String.length (Transcript.fullTranscript t))%nat
  /\ Transcript.quarter t = Candidate.quarter u
  /\ Transcript.url t = Candidate.url u
  /\ Transcript.date t = Candidate.date u
  /\ Transcript.company t = "NVIDIA"%string
  /\ (Candidate.source u = "Seeking Alpha"%string
      \/ Candidate.source u = "Yahoo Finance"%string)
  /\ TranscriptSplit.splitTranscript (Transcript.fullTranscript t)
     = {| TranscriptSplit.managementRemarks := Transcript.managementRemarks t;
          TranscriptSplit.qaSection := Transcript.qaSection t |}
  /\ exists k, (k < 3)%nat
               /\ attempt page toISOString now currentYear u k = Ok t
               /\ forall j, (j < k)%nat ->
                            exists e, attempt page toISOString now currentYear u j = Throw e.
Proof.
  intros H. pose proof (scrape_loop_spec page toISOString now currentYear u maxRetries 0) as S.
  unfold scrapeTranscript in H. rewrite H in S.
  destruct S as (k & Hk & Ha & Hb).
  destruct (attempt_facts _ _ _ _ _ _ _ Ha) as (F1 & F2 & F3 & F4 & F5 & F6 & F7).
  repeat split; try assumption.
  exists k. repeat split; [unfold maxRetries in Hk; lia|exact Ha|].
  intros j Hj. apply Hb. lia.
Qed.

Lemma scraped_transcript_witness :
  exists t,
    scrapeTranscript third_time_lucky stamp CollectorSpec.clock 2025
                     (CollectorVocabulary.candidate "Yahoo Finance" "c" "Q4 2024")
    = Some t
    /\ Transcript.qaSection t = "Operator: first question."%string
    /\ (500 <= String.length (Transcript.fullTranscript t))%nat
    /\ exists k, (k < 3)%nat
                 /\ attempt third_time_lucky stamp CollectorSpec.clock 2025
                            (CollectorVocabulary.candidate "Yahoo Finance" "c" "Q4 2024") k
                    = Ok t
                 /\ forall j, (j < k)%nat ->
                              exists e,
                                attempt third_time_lucky stamp CollectorSpec.clock 2025
                                        (CollectorVocabulary.candidate
                                           "Yahoo Finance" "c" "Q4 2024") j
                                = Throw e.
Proof.
  eexists. split; [vm_compute; reflexivity|]. split; [vm_compute; reflexivity|].
  pose proof (scraped_transcript third_time_lucky stamp CollectorSpec.clock 2025
                (CollectorVocabulary.candidate "Yahoo Finance" "c" "Q4 2024") _
                ltac:(vm_compute; reflexivity))
    as (F1 & _ & _ & _ & _ & _ & _ & F8).
  split; [exact F1|exact F8].
Defined.

(** X28: [scrapeTranscript] gives up, returning [null], exactly when each
    of the attempts number 0, 1 and 2 fails (the request fails, the text has
    fewer than 500 characters, or the date is not valid); what a fourth
    request would give never matters. *)
Theorem scrape_gives_up_after_three
        (page page' : Candidate.UrlInfo -> nat -> res Page) (toISOString : string -> res string) (now : string)
        (currentYear : Z) (u : Candidate.UrlInfo) :
  (scrapeTranscript page toISOString now currentYear u = None <->
     forall k, (k < 3)%nat ->
               exists e, attempt page toISOString now currentYear u k = Throw e)
  /\ ((forall k, (k < 3)%nat -> page' u k = page u k) ->
      scrapeTranscript page' toISOString now currentYear u
      = scrapeTranscript page toISOString now currentYear u).
Proof.
  split.
  - pose proof (scrape_loop_spec page toISOString now currentYear u maxRetries 0) as S.
    unfold scrapeTranscript.
    destruct (scrape_loop page toISOString now currentYear maxRetries 0 u) as [t|].
    + split; [discriminate|]. intros Hall.
      destruct S as (k & Hk & Ha & _).
      destruct (Hall k) as [e He]; [unfold maxRetries in Hk; lia|]. congruence.
    + split; [|reflexivity]. intros _ k Hk. apply S. unfold maxRetries. lia.
  - intros Hsame. unfold scrapeTranscript, maxRetries. cbn [scrape_loop].
    unfold attempt. rewrite !Hsame by lia. reflexivity.
Qed.

(** X29: with this scraper, every document that [collectNvidiaTranscripts]
    returns for [n >= 1] is either one of the synthetic ones or has a text
    of at least 500 characters, cut into its sections by [splitTranscript]. *)
Theorem collected_documents_have_text
        (page : Candidate.UrlInfo -> nat -> res Page) (toISOString : string -> res string) (now : string)
        (currentYear : Z) (localDate : Z -> Z -> Z -> string)
        (searchSeekingAlpha searchYahooFinance : Z -> list Candidate.UrlInfo)
        (n : Z) (d : Transcript.EarningsTranscript) :
  (1 <= n)%Z ->
  In d (TranscriptCollector.collectNvidiaTranscripts
          now localDate searchSeekingAlpha searchYahooFinance
          (scrapeTranscript page toISOString now currentYear) n) ->
  In d (TranscriptCollector.generateRealisticSampleData now localDate n)
  \/ ((500 <= String.length (Transcript.fullTranscript d))%nat
      /\ TranscriptSplit.splitTranscript (Transcript.fullTranscript d)
         = {| TranscriptSplit.managementRemarks := Transcript.managementRemarks d;
              TranscriptSplit.qaSection := Transcript.qaSection d |}).
Proof.
  intros Hn Hd.
  destruct (CollectorFacts.collection_facts now localDate searchSeekingAlpha
              searchYahooFinance (scrapeTranscript page toISOString now currentYear) n Hn)
    as (_ & _ & [Hsyn|Hreal]).
  - left. rewrite <- Hsyn. exact Hd.
  - right. destruct (Hreal d Hd) as (u & _ & Hu).
    pose proof (scrape_loop_spec page toISOString now currentYear u maxRetries 0) as S.
    unfold scrapeTranscript in Hu. rewrite Hu in S.
    destruct S as (k & _ & Ha & _).
    destruct (attempt_facts _ _ _ _ _ _ _ Ha) as (F1 & _ & _ & _ & _ & _ & F7).
    split; assumption.
Qed.

Lemma collected_documents_have_text_witness :
  exists d,
    In d (TranscriptCollector.collectNvidiaTranscripts
            CollectorSpec.clock CollectorSpec.utc
            CollectorVocabulary.seeking_alpha_finds CollectorVocabulary.yahoo_finds
            (scrapeTranscript third_time_lucky stamp CollectorSpec.clock 2025) 3)
    /\ Transcript.url d = "https://example.com/c"%string
    /\ (In d (TranscriptCollector.generateRealisticSampleData
                CollectorSpec.clock CollectorSpec.utc 3)
        \/ ((500 <= String.length (Transcript.fullTranscript d))%nat
            /\ TranscriptSplit.splitTranscript (Transcript.fullTranscript d)
               = {| TranscriptSplit.managementRemarks := Transcript.managementRemarks d;
                    TranscriptSplit.qaSection := Transcript.qaSection d |})).
Proof.
  eexists. split; [vm_compute; left; reflexivity|]. split; [vm_compute; reflexivity|].
  apply (collected_documents_have_text third_time_lucky stamp CollectorSpec.clock 2025
           CollectorSpec.utc CollectorVocabulary.seeking_alpha_finds
           CollectorVocabulary.yahoo_finds 3); [lia|].
  vm_compute. left. reflexivity.
Defined.

End ScraperFacts.

(** ** [formatQuarter]: properties *)

Module FormatFacts.
Import JS TrendAnalyzer UtilsFormat RegexFacts.
Local Open Scope string_scope.

Lemma match_with_rest_groups (s : string) :
  match_at_start s
  = match match_with_rest s with Some (g1, g2, _) => Some (g1, g2) | None => None end.
Proof.
  destruct s as [|c r]; [reflexivity|]. cbn [match_at_start match_with_rest].
  destruct (Ascii.eqb c "Q"); [|reflexivity].
  destruct (span is_digit r) as [g1 r1].
  destruct (span is_space r1) as [ws r2].
  destruct (span is_digit r2) as [g2 r3].
  destruct (nonempty g1 && nonempty ws && nonempty g2); reflexivity.
Qed.

(** The text that replaces a match is matched again, with the same groups
    and the same rest. *)
Lemma match_with_rest_replaced (s g1 g2 rest : string) :
  match_with_rest s = Some (g1, g2, rest) ->
  match_with_rest ("Q" ++ g1 ++ " " ++ g2 ++ rest) = Some (g1, g2, rest).
Proof.
  destruct s as [|c r]; [discriminate|]. cbn [match_with_rest].
  destruct (Ascii.eqb c "Q"); [|discriminate].
  destruct (span is_digit r) as [a r1] eqn:E1.
  destruct (span is_space r1) as [ws r2] eqn:E2.
  destruct (span is_digit r2) as [b r3] eqn:E3.
  destruct (nonempty a && nonempty ws && nonempty b) eqn:N; [|discriminate].
  intros [= <- <- <-].
  apply andb_true_iff in N as [N Nb]. apply andb_true_iff in N as [Na Nw].
  destruct (span_spec _ _ _ _ E1) as (_ & Ha & _).
  destruct (span_spec _ _ _ _ E3) as (_ & Hb & Hr3).
  change ("Q" ++ a ++ " " ++ b ++ r3) with (String "Q" (a ++ String " " (b ++ r3))).
  cbn [match_with_rest]. rewrite Ascii.eqb_refl.
  rewrite (span_run is_digit a (String " " (b ++ r3)) Ha eq_refl).
  destruct b as [|cb b']; [discriminate|].
  simpl in Hb. apply andb_true_iff in Hb as [Hcb Hb].
  cbn [span append]. change (is_space " ") with true. cbn iota.
  cbn [span]. rewrite (digit_not_space _ Hcb).
  change (String cb (b' ++ r3)) with (String cb b' ++ r3).
  rewrite (span_run is_digit (String cb b') r3);
    [|simpl; rewrite Hcb, Hb; reflexivity|exact Hr3].
  rewrite Na. reflexivity.
Qed.

Lemma span_before_Q (p : ascii -> bool) (pre x : string) :
  p "Q"%char = false ->
  span p (pre ++ String "Q" x)
  = (fst (span p pre), snd (span p pre) ++ String "Q" x).
Proof.
  intros HQ. induction pre as [|c pre IH]; cbn [append span].
  - rewrite HQ. reflexivity.
  - destruct (p c); [|reflexivity]. rewrite IH.
    destruct (span p pre) as [a b]. reflexivity.
Qed.

(** Whether the pattern matches at a [Q] does not depend on what follows a
    later [Q]. *)
Lemma match_before_Q (c : ascii) (pre x y : string) :
  match_at_start (String c (pre ++ String "Q" x)) = None ->
  match_at_start (String c (pre ++ String "Q" y)) = None.
Proof.
  cbn [match_at_start]. destruct (Ascii.eqb c "Q"); [|reflexivity].
  rewrite !(span_before_Q is_digit pre) by reflexivity.
  destruct (span is_digit pre) as [g1 r1]. cbn [fst snd].
  rewrite !(span_before_Q is_space r1) by reflexivity.
  destruct (span is_space r1) as [ws r2]. cbn [fst snd].
  rewrite !(span_before_Q is_digit r2) by reflexivity.
  destruct (span is_digit r2) as [g2 r3]. cbn [fst snd].
  trivial.
Qed.

Lemma formatQuarter_unfold (s : string) :
  formatQuarter s
  = match match_with_rest s with
    | Some (g1, g2, rest) => "Q" ++ g1 ++ " " ++ g2 ++ rest
    | None =>
        match s with
        | String c r => String c (formatQuarter r)
        | EmptyString => EmptyString
        end
    end.
Proof. destruct s; reflexivity. Qed.

Lemma formatQuarter_shape (s : string) :
  formatQuarter s = s
  \/ exists pre x y, s = pre ++ String "Q" x /\ formatQuarter s = pre ++ String "Q" y.
Proof.
  induction s as [|c r IH]; [left; reflexivity|].
  rewrite formatQuarter_unfold.
  destruct (match_with_rest (String c r)) as [[[g1 g2] rest]|] eqn:M.
  - right. exists "", r, (g1 ++ " " ++ g2 ++ rest).
    split; [|reflexivity].
    cbn [match_with_rest] in M. destruct (Ascii.eqb_spec c "Q"); [|discriminate].
    subst c. reflexivity.
  - destruct IH as [->|(pre & x & y & Hs & Hf)]; [left; reflexivity|].
    right. exists (String c pre), x, y. rewrite Hf. split; [|reflexivity].
    rewrite Hs at 1. reflexivity.
Qed.

Lemma match_at_start_format (c : ascii) (r : string) :
  match_at_start (String c r) = None ->
  match_at_start (String c (formatQuarter r)) = None.
Proof.
  intros H. destruct (formatQuarter_shape r) as [->|(pre & x & y & Hs & ->)];
    [exact H|].
  rewrite Hs in H. exact (match_before_Q c pre x y H).
Qed.

Lemma regex_match_unfold (s : string) :
  regex_match s
  = match match_at_start s with
    | Some m => Some m
    | None => match s with String _ r => regex_match r | EmptyString => None end
    end.
Proof. destruct s; reflexivity. Qed.

Lemma regex_match_format (s : string) :
  regex_match (formatQuarter s) = regex_match s.
Proof.
  induction s as [|c r IH]; [reflexivity|].
  rewrite formatQuarter_unfold.
  destruct (match_with_rest (String c r)) as [[[g1 g2] rest]|] eqn:M.
  - pose proof (match_with_rest_replaced _ _ _ _ M) as M'.
    rewrite (regex_match_unfold (String c r)), regex_match_unfold.
    rewrite !match_with_rest_groups, M, M'. reflexivity.
  - assert (N : match_at_start (String c r) = None).
    { rewrite match_with_rest_groups, M. reflexivity. }
    rewrite (regex_match_unfold (String c r)), regex_match_unfold.
    rewrite N, (match_at_start_format c r N). exact IH.
Qed.

Lemma formatQuarter_idem (s : string) :
  formatQuarter (formatQuarter s) = formatQuarter s.
Proof.
  induction s as [|c r IH]; [reflexivity|].
  rewrite (formatQuarter_unfold (String c r)).
  destruct (match_with_rest (String c r)) as [[[g1 g2] rest]|] eqn:M.
  - pose proof (match_with_rest_replaced _ _ _ _ M) as M'.
    rewrite formatQuarter_unfold, M'. reflexivity.
  - assert (N : match_at_start (String c r) = None).
    { rewrite match_with_rest_groups, M. reflexivity. }
    pose proof (match_at_start_format c r N) as N'.
    rewrite match_with_rest_groups in N'.
    rewrite formatQuarter_unfold.
    destruct (match_with_rest (String c (formatQuarter r))) as [[[? ?] ?]|];
      [discriminate|].
    rewrite IH. reflexivity.
Qed.

Lemma formatQuarter_no_match (s : string) :
  regex_match s = None -> formatQuarter s = s.
Proof.
  induction s as [|c r IH]; [reflexivity|].
  rewrite regex_match_unfold, formatQuarter_unfold, match_with_rest_groups.
  destruct (match_with_rest (String c r)) as [[[g1 g2] rest]|]; [discriminate|].
  intros H. rewrite (IH H). reflexivity.
Qed.

(** X30: [formatQuarter] leaves what [parseQuarter] reads unchanged, in
    utils.ts and in the trend analyzer alike: the same quarter and year, or
    the same error for a text without a quarter; and formatting a formatted
    text changes nothing. *)
Theorem formatQuarter_keeps_reading (quarter : string) :
  UtilsQuarters.parseQuarter (formatQuarter quarter) = UtilsQuarters.parseQuarter quarter
  /\ TrendAnalyzer.parseQuarter (formatQuarter quarter)
     = TrendAnalyzer.parseQuarter quarter
  /\ formatQuarter (formatQuarter quarter) = formatQuarter quarter.
Proof.
  assert (E : forall s, regex_match s = None -> formatQuarter s = s)
    by exact formatQuarter_no_match.
  split; [|split; [|apply formatQuarter_idem]].
  - unfold UtilsQuarters.parseQuarter. rewrite regex_match_format.
    destruct (regex_match quarter) as [[g1 g2]|] eqn:R; [reflexivity|].
    rewrite (E _ R). reflexivity.
  - unfold TrendAnalyzer.parseQuarter. rewrite regex_match_format.
    destruct (regex_match quarter) as [[g1 g2]|] eqn:R; [reflexivity|].
    rewrite (E _ R). reflexivity.
Qed.

End FormatFacts.
